(** * qiniu-ssl: a shallow embedding of [auto_ssl.py]

    The development models the class [SSLCertificateManager] of
    [src/auto_ssl.py]: the certificate record store and the renewal check,
    the DNS challenge record life cycle, the two-phase acme.sh invocation
    with its output scraping, the upload to the CDN and the per-domain
    orchestration with its tally.

    Conventions.
    - A Python [str] is a Rocq [string]; a character is a code point below
      256.  Only the operations the program uses are defined.
    - The Python library is the one of CPython 3.11; where versions
      differ, as in the strings [datetime.fromisoformat] reads, the model
      follows that version.
    - Everything outside the process (clock, file system, acme.sh, the DNS
      and CDN providers) is an oracle [Env] that answers each call from the
      history of the calls made so far; a theorem that quantifies over
      [Env] therefore covers every behaviour of the outside world.
    - A method of the class is a computation in the monad [M]: it threads
      the object state and the call history, and ends in a value or in a
      raised exception.  An exception is what [except Exception] catches;
      an interrupt from the keyboard is outside the model.
    - The store [cert_records] maps a domain to a dictionary of scalars, as
      [update_cert_record] writes it; the configuration holds values of
      the types the program expects.
    - A log line is a constructor of [LogMsg], one per call of the logger,
      with the values the message interpolates. *)

From Stdlib Require Import String Ascii List ZArith Lia Bool.
From stdpp Require Import gmap strings.

Import ListNotations.
Local Open Scope list_scope.

(* ===================================================================== *)
(** * Part I: definitions *)
(* ===================================================================== *)

(** ** Python strings *)

Module PyStr.

Definition newline : ascii := "010"%char.
Definition squote : ascii := "'"%char.
Definition dquote : ascii := "034"%char.

(** [bool(s)]: a string is truthy when it is not empty. *)
Definition truthy (s : string) : bool :=
  match s with EmptyString => false | String _ _ => true end.

(** [s.split(sep)] for a separator of one character: the pieces between the
    occurrences of [sep], in order; never the empty list. *)
Fixpoint split (sep : ascii) (s : string) : list string :=
  match s with
  | EmptyString => [EmptyString]
  | String c s' =>
      if Ascii.eqb c sep then EmptyString :: split sep s'
      else match split sep s' with
           | piece :: pieces => String c piece :: pieces
           | [] => [String c EmptyString]
           end
  end.

(** [needle in hay]. *)
Fixpoint contains (needle hay : string) : bool :=
  String.prefix needle hay ||
  match hay with
  | EmptyString => false
  | String _ hay' => contains needle hay'
  end.

(** [c in s] for one character. *)
Fixpoint mem (c : ascii) (s : string) : bool :=
  match s with
  | EmptyString => false
  | String d s' => Ascii.eqb c d || mem c s'
  end.

(** [str.lower] on code points below 256: A-Z and the Latin-1 capitals
    (U+00C0-U+00DE without the multiplication sign U+00D7) move up by 32. *)
Definition lower_char (c : ascii) : ascii :=
  let n := nat_of_ascii c in
  if ((65 <=? n) && (n <=? 90)) || ((192 <=? n) && (n <=? 222) && negb (n =? 215))
  then ascii_of_nat (n + 32) else c.

Fixpoint lower (s : string) : string :=
  match s with
  | EmptyString => EmptyString
  | String c s' => String (lower_char c) (lower s')
  end.

(** [str.isspace] on one code point below 256. *)
Definition isspace (c : ascii) : bool :=
  let n := nat_of_ascii c in
  ((9 <=? n) && (n <=? 13)) || ((28 <=? n) && (n <=? 32)) || (n =? 133) || (n =? 160).

Fixpoint lstrip_by (drop : ascii -> bool) (s : string) : string :=
  match s with
  | EmptyString => EmptyString
  | String c s' => if drop c then lstrip_by drop s' else s
  end.

Fixpoint rstrip_by (drop : ascii -> bool) (s : string) : string :=
  match s with
  | EmptyString => EmptyString
  | String c s' =>
      match rstrip_by drop s' with
      | EmptyString => if drop c then EmptyString else String c EmptyString
      | r => String c r
      end
  end.

(** [s.strip()] and [s.strip(chars)]. *)
Definition strip (s : string) : string :=
  rstrip_by isspace (lstrip_by isspace s).

Definition strip_chars (chars s : string) : string :=
  rstrip_by (fun c => mem c chars) (lstrip_by (fun c => mem c chars) s).

(** Slices [s[:n]] and [s[n:]] for [n >= 0]. *)
Fixpoint take (n : nat) (s : string) : string :=
  match n, s with
  | S n', String c s' => String c (take n' s')
  | _, _ => EmptyString
  end.

Fixpoint drop (n : nat) (s : string) : string :=
  match n, s with
  | S n', String _ s' => drop n' s'
  | _, _ => s
  end.

Definition startswith (s p : string) : bool := String.prefix p s.

Definition endswith (s p : string) : bool :=
  (String.length p <=? String.length s) &&
  String.eqb (drop (String.length s - String.length p) s) p.

(** [sep.join(parts)]. *)
Fixpoint join (sep : string) (parts : list string) : string :=
  match parts with
  | [] => EmptyString
  | [p] => p
  | p :: rest => p +:+ sep +:+ join sep rest
  end.

(** [s.replace(old, new)] for a non-empty [old]: the occurrences of [old]
    are replaced from left to right, without overlap.  [skip] counts the
    characters of an occurrence that was just replaced and are still to be
    passed over. *)
Fixpoint replace_from (skip : nat) (old new s : string) : string :=
  match s with
  | EmptyString => EmptyString
  | String c s' =>
      match skip with
      | S k => replace_from k old new s'
      | O =>
          if String.prefix old s
          then new +:+ replace_from (String.length old - 1) old new s'
          else String c (replace_from 0 old new s')
      end
  end.

Definition replace (s old new : string) : string := replace_from 0 old new s.

End PyStr.

(** ** Scraping the challenge value: [_extract_txt_value] (lines 329-351) *)

Definition quote_chars : string := String PyStr.squote (String PyStr.dquote EmptyString).

(** The test of the first loop:
    ['TXT value' in line or 'txt value' in line.lower()]. *)
Definition has_txt_marker (line : string) : bool :=
  PyStr.contains "TXT value" line || PyStr.contains "txt value" (PyStr.lower line).

(** The body of the first loop under its test: [parts[1]] of the split at
    the single quote, else of the split at the double quote. *)
Definition quoted_value (line : string) : option string :=
  match PyStr.split PyStr.squote line with
  | _ :: p1 :: _ => Some p1
  | _ =>
      match PyStr.split PyStr.dquote line with
      | _ :: p1 :: _ => Some p1
      | _ => None
      end
  end.

(** The first [for] loop: it returns at the first marked line that has a
    quoted part. *)
Fixpoint scan_txt_marker (lines : list string) : option string :=
  match lines with
  | [] => None
  | line :: rest =>
      if has_txt_marker line then
        match quoted_value line with
        | Some v => Some v
        | None => scan_txt_marker rest
        end
      else scan_txt_marker rest
  end.

(** The test of the second loop: ['_acme-challenge' in line and '=' in line]. *)
Definition has_challenge_marker (line : string) : bool :=
  PyStr.contains "_acme-challenge" line && PyStr.contains "=" line.

(** The body of the second loop: [parts[1]] of the split at [=], trimmed
    of white space and then of both quote characters, kept when it is not
    empty. *)
Definition challenge_value (line : string) : option string :=
  if has_challenge_marker line then
    match PyStr.split "=" line with
    | _ :: p1 :: _ =>
        let value := PyStr.strip_chars quote_chars (PyStr.strip p1) in
        if PyStr.truthy value then Some value else None
    | _ => None
    end
  else None.

(** The second [for] loop. *)
Fixpoint scan_challenge (lines : list string) : option string :=
  match lines with
  | [] => None
  | line :: rest =>
      match challenge_value line with
      | Some v => Some v
      | None => scan_challenge rest
      end
  end.

Definition _extract_txt_value (output : string) : option string :=
  let lines := PyStr.split PyStr.newline output in
  match scan_txt_marker lines with
  | Some v => Some v
  | None => scan_challenge lines
  end.

(** The wording of the specification for the second heuristic: the text
    after the first [=] of a line, then trimmed and stripped of quotes. *)
Fixpoint text_after_first (sep : ascii) (s : string) : string :=
  match s with
  | EmptyString => EmptyString
  | String c s' => if Ascii.eqb c sep then s' else text_after_first sep s'
  end.

Definition spec_challenge_value (line : string) : string :=
  PyStr.strip_chars quote_chars (PyStr.strip (text_after_first "=" line)).

(** What the code takes instead: the text after the first [=] up to the
    next [=] or the end of the line. *)
Fixpoint text_before_first (sep : ascii) (s : string) : string :=
  match s with
  | EmptyString => EmptyString
  | String c s' => if Ascii.eqb c sep then EmptyString else String c (text_before_first sep s')
  end.

Definition second_field_value (line : string) : string :=
  PyStr.strip_chars quote_chars
    (PyStr.strip (text_before_first "=" (text_after_first "=" line))).

(** No line of the output carries the TXT-value marker. *)
Definition no_txt_marker (output : string) : bool :=
  forallb (fun line => negb (has_txt_marker line)) (PyStr.split PyStr.newline output).

(** No line of the output carries the challenge marker with an [=]. *)
Definition no_challenge_marker (output : string) : bool :=
  forallb (fun line => negb (has_challenge_marker line)) (PyStr.split PyStr.newline output).

(** ** The [datetime] module of the Python library

    The calendar arithmetic follows the reference implementation of the
    library: proleptic Gregorian ordinals (day 1 is 0001-01-01), time deltas
    normalised to days, seconds and microseconds.  The parser of
    [fromisoformat] follows the implementation the interpreter runs. *)

Module PyDatetime.

Local Open Scope Z_scope.

Definition MINYEAR : Z := 1.
Definition MAXYEAR : Z := 9999.
Definition MAXORDINAL : Z := 3652059.
Definition DI400Y : Z := 146097.
Definition DI100Y : Z := 36524.
Definition DI4Y : Z := 1461.

Definition is_leap (year : Z) : bool :=
  (year mod 4 =? 0) && (negb (year mod 100 =? 0) || (year mod 400 =? 0)).

(** The tables [_DAYS_IN_MONTH] and [_DAYS_BEFORE_MONTH]. *)
Definition DAYS_IN_MONTH (month : Z) : Z :=
  match month with
  | 1 => 31 | 2 => 28 | 3 => 31 | 4 => 30 | 5 => 31 | 6 => 30
  | 7 => 31 | 8 => 31 | 9 => 30 | 10 => 31 | 11 => 30 | 12 => 31
  | _ => -1
  end.

Definition DAYS_BEFORE_MONTH (month : Z) : Z :=
  match month with
  | 1 => 0 | 2 => 31 | 3 => 59 | 4 => 90 | 5 => 120 | 6 => 151
  | 7 => 181 | 8 => 212 | 9 => 243 | 10 => 273 | 11 => 304 | 12 => 334
  | _ => -1
  end.

Definition days_before_year (year : Z) : Z :=
  let y := year - 1 in
  y * 365 + y / 4 - y / 100 + y / 400.

Definition days_in_month (year month : Z) : Z :=
  if (month =? 2) && is_leap year then 29 else DAYS_IN_MONTH month.

Definition days_before_month (year month : Z) : Z :=
  DAYS_BEFORE_MONTH month + (if (2 <? month) && is_leap year then 1 else 0).

Definition ymd2ord (year month day : Z) : Z :=
  days_before_year year + days_before_month year month + day.

(** The tail of [_ord2ymd]: month and day of the [n]-th day (from 0) of a
    year, from the estimate [(n + 50) >> 5] corrected downwards. *)
Definition month_day_of_yday (leapyear : bool) (n : Z) : Z * Z :=
  let month := Z.shiftr (n + 50) 5 in
  let preceding :=
    DAYS_BEFORE_MONTH month + (if (2 <? month) && leapyear then 1 else 0) in
  if n <? preceding then
    let month' := month - 1 in
    let preceding' :=
      preceding - (DAYS_IN_MONTH month' + (if (month' =? 2) && leapyear then 1 else 0)) in
    (month', n - preceding' + 1)
  else (month, n - preceding + 1).

Definition ord2ymd (ordinal : Z) : Z * Z * Z :=
  let n := ordinal - 1 in
  let n400 := n / DI400Y in
  let n := n mod DI400Y in
  let n100 := n / DI100Y in
  let n := n mod DI100Y in
  let n4 := n / DI4Y in
  let n := n mod DI4Y in
  let n1 := n / 365 in
  let n := n mod 365 in
  let year := n400 * 400 + 1 + n100 * 100 + n4 * 4 + n1 in
  if (n1 =? 4) || (n100 =? 4) then (year - 1, 12, 31)
  else
    let leapyear := (n1 =? 3) && (negb (n4 =? 24) || (n100 =? 3)) in
    let '(month, day) := month_day_of_yday leapyear n in
    (year, month, day).

(** A [datetime]: the calendar fields and, for an aware value, the offset
    from UTC in microseconds; a naive value has none. *)
Record datetime := mk_datetime {
  year : Z; month : Z; day : Z;
  hour : Z; minute : Z; second : Z; microsecond : Z;
  utcoffset : option Z
}.

(** The same value without an offset. *)
Definition naive (d : datetime) : datetime :=
  mk_datetime (year d) (month d) (day d) (hour d) (minute d) (second d)
    (microsecond d) None.

(** The range checks of the constructor. *)
Definition check_date_fields (y m d : Z) : bool :=
  (MINYEAR <=? y) && (y <=? MAXYEAR) && (1 <=? m) && (m <=? 12) &&
  (1 <=? d) && (d <=? days_in_month y m).

Definition check_time_fields (hh mm ss us : Z) : bool :=
  (0 <=? hh) && (hh <=? 23) && (0 <=? mm) && (mm <=? 59) &&
  (0 <=? ss) && (ss <=? 59) && (0 <=? us) && (us <=? 999999).

Definition valid_datetime (d : datetime) : bool :=
  check_date_fields (year d) (month d) (day d) &&
  check_time_fields (hour d) (minute d) (second d) (microsecond d).

(** A [timedelta], normalised: [0 <= seconds < 86400] and
    [0 <= microseconds < 1000000]. *)
Record timedelta := mk_timedelta {
  days : Z; seconds : Z; microseconds : Z
}.

(** [timedelta(days=d, seconds=s, microseconds=us)] for integers. *)
Definition new_timedelta (d s us : Z) : timedelta :=
  let s' := s + us / 1000000 in
  {| days := d + s' / 86400; seconds := s' mod 86400; microseconds := us mod 1000000 |}.

Definition timedelta_add (a b : timedelta) : timedelta :=
  new_timedelta (days a + days b) (seconds a + seconds b) (microseconds a + microseconds b).

Definition toordinal (d : datetime) : Z := ymd2ord (year d) (month d) (day d).

(** Microseconds since the midnight that starts 0001-01-01, read off the
    fields: the position of a naive value on the time line. *)
Definition timestamp (d : datetime) : Z :=
  (((toordinal d - 1) * 24 + hour d) * 60 + minute d) * 60 * 1000000
  + second d * 1000000 + microsecond d.

Definition DAY_US : Z := 86400 * 1000000.

(** [d + delta]: [None] is the [OverflowError] of a result out of range. *)
Definition datetime_add (d : datetime) (delta : timedelta) : option datetime :=
  let self :=
    new_timedelta (toordinal d)
      (hour d * 3600 + minute d * 60 + second d) (microsecond d) in
  let sum := timedelta_add self delta in
  let hh := seconds sum / 3600 in
  let rem := seconds sum mod 3600 in
  if (0 <? days sum) && (days sum <=? MAXORDINAL) then
    let '(y, m, dd) := ord2ymd (days sum) in
    Some {| year := y; month := m; day := dd;
            hour := hh; minute := rem / 60; second := rem mod 60;
            microsecond := microseconds sum; utcoffset := utcoffset d |}
  else None.

(** [a - b] for two datetimes: [None] is the [TypeError] raised when one is
    naive and the other aware. *)
Definition datetime_sub (a b : datetime) : option timedelta :=
  let base :=
    new_timedelta (toordinal a - toordinal b)
      ((second a + minute a * 60 + hour a * 3600)
       - (second b + minute b * 60 + hour b * 3600))
      (microsecond a - microsecond b) in
  match utcoffset a, utcoffset b with
  | None, None => Some base
  | Some oa, Some ob =>
      if oa =? ob then Some base
      else Some (timedelta_add base (new_timedelta 0 0 (ob - oa)))
  | _, _ => None
  end.

(** *** Formatting and parsing *)

Definition digit_char (d : Z) : ascii := ascii_of_nat (48 + Z.to_nat d).

Definition digit_value (c : ascii) : option Z :=
  let n := nat_of_ascii c in
  if ((48 <=? n) && (n <=? 57))%nat then Some (Z.of_nat n - 48) else None.

(** [%0wd] for [0 <= n < 10^w]: exactly [w] digits, the most significant
    first. *)
Fixpoint fmt_digits (w : nat) (n : Z) : string :=
  match w with
  | O => EmptyString
  | S w' => String (digit_char ((n / 10 ^ Z.of_nat w') mod 10)) (fmt_digits w' n)
  end.

(** [datetime.isoformat()] of a naive value:
    [YYYY-MM-DDTHH:MM:SS], followed by [.ffffff] when the microsecond is
    not zero. *)
Definition isoformat (d : datetime) : string :=
  fmt_digits 4 (year d) +:+ "-" +:+ fmt_digits 2 (month d) +:+ "-" +:+
  fmt_digits 2 (day d) +:+ "T" +:+
  fmt_digits 2 (hour d) +:+ ":" +:+ fmt_digits 2 (minute d) +:+ ":" +:+
  fmt_digits 2 (second d) +:+
  (if microsecond d =? 0 then EmptyString
   else "." +:+ fmt_digits 6 (microsecond d)).

(** Reads exactly [w] digits from the front of [s]. *)
Fixpoint parse_digits_acc (w : nat) (acc : Z) (s : string) : option (Z * string) :=
  match w with
  | O => Some (acc, s)
  | S w' =>
      match s with
      | EmptyString => None
      | String c s' =>
          match digit_value c with
          | Some v => parse_digits_acc w' (acc * 10 + v) s'
          | None => None
          end
      end
  end.

Definition parse_digits (w : nat) (s : string) : option (Z * string) :=
  parse_digits_acc w 0 s.

(** Expects the character [c] at the front of [s]. *)
Definition expect (c : ascii) (s : string) : option string :=
  match s with
  | String c' s' => if Ascii.eqb c c' then Some s' else None
  | EmptyString => None
  end.

(** The parser follows [datetime.fromisoformat] of CPython 3.11, the
    interpreter's own implementation in [Modules/_datetimemodule.c]: it
    reads the UTF-8 bytes of the string through a pointer, the byte behind
    the last one being [NUL].  It is the implementation a program gets
    from [import datetime]; the fallback [Lib/datetime.py] differs from it
    on some malformed strings, a date followed by a separator and nothing
    being one that only the fallback reads. *)

Definition NUL : ascii := "000"%char.

(** The UTF-8 bytes of a string of code points below 256: a code point
    from 128 on takes two bytes. *)
Fixpoint utf8 (s : string) : string :=
  match s with
  | EmptyString => EmptyString
  | String c s' =>
      let n := nat_of_ascii c in
      if (n <? 128)%nat then String c (utf8 s')
      else String (ascii_of_nat (192 + n / 64))
             (String (ascii_of_nat (128 + n mod 64)) (utf8 s'))
  end.

(** [*p], [p + 1] and [p + n] for a pointer into the bytes. *)
Definition peek (s : string) : ascii :=
  match s with String c _ => c | EmptyString => NUL end.

Definition advance (s : string) : string :=
  match s with String _ s' => s' | EmptyString => EmptyString end.

Fixpoint skip (n : nat) (s : string) : string :=
  match n with O => s | S n' => skip n' (advance s) end.

Definition is_digit (c : ascii) : bool :=
  match digit_value c with Some _ => true | None => false end.

(** The digits at the front of [s]: how many they are, and what follows
    them. *)
Fixpoint count_digits (s : string) : nat :=
  match s with
  | String c s' => if is_digit c then S (count_digits s') else O
  | EmptyString => O
  end.

Fixpoint skip_digits (s : string) : string :=
  match s with
  | String c s' => if is_digit c then skip_digits s' else s
  | EmptyString => EmptyString
  end.

(** [_find_isoformat_datetime_separator]: where the date ends, from the
    bytes 4 and 5 and the length: 10 for [YYYY-MM-DD] and [YYYY-Www-D], 8
    for [YYYYMMDD], [YYYY-Www] and [YYYYWwwD], 7 for [YYYYWww]. *)
Definition find_isoformat_datetime_separator (dtstr : string) : option nat :=
  let len := String.length dtstr in
  let byte i := peek (skip i dtstr) in
  if (len =? 7)%nat then Some 7%nat
  else if Ascii.eqb (byte 4%nat) "-" then
    if Ascii.eqb (byte 5%nat) "W" then
      if (len <? 8)%nat then None
      else if (8 <? len)%nat && Ascii.eqb (byte 8%nat) "-" then
        if (len =? 9)%nat then None
        else if (10 <? len)%nat && is_digit (byte 10%nat) then Some 8%nat
        else Some 10%nat
      else Some 8%nat
    else Some 10%nat
  else if Ascii.eqb (byte 4%nat) "W" then
    let idx := (7 + count_digits (skip 7 dtstr))%nat in
    if (idx <? 9)%nat then Some idx
    else if Nat.even idx then Some 7%nat else Some 8%nat
  else Some 8%nat.

(** [weekday]: 0 for a Monday. *)
Definition weekday (y m d : Z) : Z := (ymd2ord y m d + 6) mod 7.

(** The ordinal of the Monday that starts the first ISO week of a year. *)
Definition iso_week1_monday (year : Z) : Z :=
  let first_day := ymd2ord year 1 1 in
  let first_weekday := (first_day + 6) mod 7 in
  let week1_monday := first_day - first_weekday in
  if 3 <? first_weekday then week1_monday + 7 else week1_monday.

(** [iso_to_ymd]: the calendar date of an ISO year, week and day; a week
    53 exists in a year that starts on a Thursday, and in a leap year that
    starts on a Wednesday.  The year 0000 is refused here; the
    implementation leaves it to the range checks of the constructor, which
    no date of that year passes. *)
Definition iso_to_ymd (iso_year iso_week iso_day : Z) : option (Z * Z * Z) :=
  if negb ((MINYEAR <=? iso_year) && (iso_year <=? MAXYEAR)) then None
  else
    let first_weekday := weekday iso_year 1 1 in
    let out_of_range :=
      ((iso_week <=? 0) || (53 <=? iso_week)) &&
      negb ((iso_week =? 53) &&
            ((first_weekday =? 3) || ((first_weekday =? 2) && is_leap iso_year))) in
    if out_of_range then None
    else if (iso_day <=? 0) || (8 <=? iso_day) then None
    else Some (ord2ymd (iso_week1_monday iso_year + (iso_week - 1) * 7 + iso_day - 1)).

(** [parse_isoformat_date] on the first [len] bytes: [YYYY-MM-DD] or
    [YYYYMMDD], or an ISO week date [YYYY-Www[-D]] or [YYYYWww[D]]. *)
Definition parse_isoformat_date (dtstr : string) (len : nat) : option (Z * Z * Z) :=
  match parse_digits 4 dtstr with
  | None => None
  | Some (year, p) =>
    let uses_separator := Ascii.eqb (peek p) "-" in
    let p := if uses_separator then advance p else p in
    let after_sep p := if uses_separator then expect "-" p else Some p in
    if Ascii.eqb (peek p) "W" then
      match parse_digits 2 (advance p) with
      | None => None
      | Some (iso_week, p) =>
        let pos := ((if uses_separator then 5 else 4) + 3)%nat in
        if (pos <? len)%nat then
          match after_sep p with
          | None => None
          | Some p =>
            match parse_digits 1 p with
            | None => None
            | Some (iso_day, _) => iso_to_ymd year iso_week iso_day
            end
          end
        else iso_to_ymd year iso_week 1
      end
    else
      match parse_digits 2 p with
      | None => None
      | Some (month, p) =>
        match after_sep p with
        | None => None
        | Some p =>
          match parse_digits 2 p with
          | None => None
          | Some (day, _) => Some (year, month, day)
          end
        end
      end
  end.

(** The table [correction] of the fraction: [k] digits are scaled to
    microseconds. *)
Definition correction (k : nat) : Z :=
  match k with
  | 1%nat => 100000 | 2%nat => 10000 | 3%nat => 1000 | 4%nat => 100
  | 5%nat => 10 | _ => 1
  end.

(** What [parse_hh_mm_ss_ff] answers when it does not fail: whether bytes
    are left ([true] is its return value 1), the three fields and the
    microseconds. *)
Definition Fields : Type := bool * (Z * Z * Z) * Z.

Definition set_field (i : nat) (v : Z) (vals : Z * Z * Z) : Z * Z * Z :=
  let '(hh, mm, ss) := vals in
  match i with
  | O => (v, mm, ss)
  | 1%nat => (hh, v, ss)
  | _ => (hh, mm, v)
  end.

(** The fraction: at most six of the [n] bytes before [p_end] are read as
    digits, the digits that follow are dropped. *)
Definition parse_fraction (vals : Z * Z * Z) (p : string) (n : Z) : option Fields :=
  let to_parse := Z.to_nat (Z.min n 6) in
  match parse_digits to_parse p with
  | None => None
  | Some (us, p) =>
      let microsecond := if (to_parse <? 6)%nat then us * correction to_parse else us in
      Some (negb (Ascii.eqb (peek (skip_digits p)) NUL), vals, microsecond)
  end.

(** The loop of [parse_hh_mm_ss_ff] from its round [i] on, [n] bytes
    before [p_end]: two digits, then the byte [c] behind them decides.  The
    first round fixes whether the fields are separated by colons. *)
Fixpoint hh_mm_ss_loop (rounds i : nat) (has_separator : bool) (vals : Z * Z * Z)
    (p : string) (n : Z) : option Fields :=
  match rounds with
  | O => parse_fraction vals p n
  | S rounds' =>
      match parse_digits 2 p with
      | None => None
      | Some (v, p) =>
          let vals := set_field i v vals in
          let c := peek p in
          let has_separator := if (i =? 0)%nat then Ascii.eqb c ":" else has_separator in
          if n - 3 <=? 0 then Some (negb (Ascii.eqb c NUL), vals, 0)
          else if has_separator && Ascii.eqb c ":" then
            hh_mm_ss_loop rounds' (S i) has_separator vals (advance p) (n - 3)
          else if Ascii.eqb c "." || Ascii.eqb c "," then
            parse_fraction vals (advance p) (n - 3)
          else if negb has_separator then
            hh_mm_ss_loop rounds' (S i) has_separator vals p (n - 2)
          else None
      end
  end.

(** [parse_hh_mm_ss_ff(p, p_end)] with [n = p_end - p]:
    [HH[:MM[:SS]]] or [HH[MM[SS]]], then a fraction. *)
Definition parse_hh_mm_ss_ff (p : string) (n : Z) : option Fields :=
  hh_mm_ss_loop 3 0 false (0, 0, 0) p n.

Definition is_tz_char (c : ascii) : bool :=
  Ascii.eqb c "Z" || Ascii.eqb c "+" || Ascii.eqb c "-".

(** Where the time zone starts: the first [Z], [+] or [-], or the end of
    the bytes. *)
Fixpoint find_tzinfo (s : string) : nat :=
  match s with
  | EmptyString => O
  | String c s' => if is_tz_char c then O else S (find_tzinfo s')
  end.

(** [tzinfo_from_isoformat_results]: an offset of zero seconds is UTC;
    another one must lie strictly within a day.  In microseconds. *)
Definition tzinfo_from_isoformat_results (tzoffset tz_useconds : Z) : option Z :=
  if tzoffset =? 0 then Some 0
  else
    let offset := tzoffset * 1000000 + tz_useconds in
    if (- DAY_US <? offset) && (offset <? DAY_US) then Some offset else None.

(** [parse_isoformat_time]: the time up to the time zone, then [Z] as the
    last byte or a signed offset.  What is left of the time before a time
    zone is not looked at. *)
Definition parse_isoformat_time (dtstr : string)
    : option (Z * Z * Z * Z * option Z) :=
  let tzinfo_pos := find_tzinfo dtstr in
  match parse_hh_mm_ss_ff dtstr (Z.of_nat tzinfo_pos) with
  | None => None
  | Some (rv, (hour, minute, second), microsecond) =>
      match skip tzinfo_pos dtstr with
      | EmptyString =>
          if rv then None else Some (hour, minute, second, microsecond, None)
      | String c tzstr =>
          if Ascii.eqb c "Z" then
            if Ascii.eqb (peek tzstr) NUL
            then Some (hour, minute, second, microsecond, Some 0)
            else None
          else
            let tzsign := if Ascii.eqb c "-" then -1 else 1 in
            match parse_hh_mm_ss_ff tzstr (Z.of_nat (String.length tzstr)) with
            | None => None
            | Some (rv, (tzhours, tzminutes, tzseconds), tzmicrosecond) =>
                if rv then None
                else
                  match tzinfo_from_isoformat_results
                          (tzsign * (tzhours * 3600 + tzminutes * 60 + tzseconds))
                          (tzsign * tzmicrosecond) with
                  | None => None
                  | Some offset => Some (hour, minute, second, microsecond, Some offset)
                  end
            end
      end
  end.

(** The bytes of the UTF-8 character that starts with [c]. *)
Definition utf8_width (c : ascii) : nat :=
  let b := Z.of_nat (nat_of_ascii c) in
  if Z.land b 128 =? 0 then 1%nat
  else if Z.land b 240 =? 224 then 3%nat
  else if Z.land b 240 =? 240 then 4%nat
  else 2%nat.

(** [datetime.fromisoformat] of CPython 3.11: a date, then, if bytes are
    left, one character of any kind and a time; [None] is the
    [ValueError] raised for any other string or for a field out of
    range. *)
Definition fromisoformat (s : string) : option datetime :=
  let dtstr := utf8 s in
  let len := String.length dtstr in
  if (len <? 7)%nat then None
  else
    match find_isoformat_datetime_separator dtstr with
    | None => None
    | Some separator_location =>
      match parse_isoformat_date dtstr separator_location with
      | None => None
      | Some (y, m, d) =>
        let build hh mm ss us off :=
          if check_date_fields y m d && check_time_fields hh mm ss us
          then Some (mk_datetime y m d hh mm ss us off) else None in
        if (separator_location <? len)%nat then
          let p := skip separator_location dtstr in
          match parse_isoformat_time (skip (utf8_width (peek p)) p) with
          | None => None
          | Some (hh, mm, ss, us, off) => build hh mm ss us off
          end
        else build 0 0 0 0 None
      end
    end.


(** *** Vocabulary of the round trip

    The characters [isoformat] writes, and the part of its result that
    follows the [T]. *)

Fixpoint all_chars (P : ascii -> bool) (s : string) : bool :=
  match s with
  | EmptyString => true
  | String c s' => P c && all_chars P s'
  end.

(** Digits, [-], [T], [:] and [.]. *)
Definition iso_char (c : ascii) : bool :=
  is_digit c || Ascii.eqb c "-" || Ascii.eqb c "T" || Ascii.eqb c ":" || Ascii.eqb c ".".

(** The characters of the time of day: digits, [:] and [.]. *)
Definition time_char (c : ascii) : bool :=
  is_digit c || Ascii.eqb c ":" || Ascii.eqb c ".".

Definition isoformat_time (hh mi ss us : Z) : string :=
  fmt_digits 2 hh +:+ ":" +:+ fmt_digits 2 mi +:+ ":" +:+ fmt_digits 2 ss +:+
  (if us =? 0 then EmptyString else "." +:+ fmt_digits 6 us).

End PyDatetime.

(** ** Values, configuration and the outside world *)

(** A scalar read from a JSON document. *)
Inductive pyval :=
| PNone
| PBool (b : bool)
| PInt (n : Z)
| PStr (s : string).

Global Instance pyval_eq_dec : EqDecision pyval.
Proof. solve_decision. Defined.

(** [bool(v)]. *)
Definition pyval_truthy (v : pyval) : bool :=
  match v with
  | PNone => false
  | PBool b => b
  | PInt n => negb (n =? 0)%Z
  | PStr s => PyStr.truthy s
  end.

(** One entry of [cert_records]: a dictionary with the keys [expiry_date],
    [updated_at] and [status]; [record.get(key)] is [PNone] for a key that
    is missing. *)
Definition py_get (record : gmap string pyval) (key : string) : pyval :=
  default PNone (record !! key).

(** An exception: the name of its class and its message. *)
Inductive exn := Exn (class message : string).

Inductive Result (A : Type) :=
| Ok (a : A)
| Raise (e : exn).
Arguments Ok {A} a.
Arguments Raise {A} e.

(** The keys of [config.json] the program reads. *)
Record Config := {
  domains : list string;
  renewal_days_before_expiry : option Z;
  acme_home : option string;
  email : option string;
  acme_server : option string;
  force_https : option bool
}.

(** What [subprocess.run] returns. *)
Record CompletedProcess := {
  returncode : Z;
  stdout : string;
  stderr : string
}.

(** What [requests.post] and [requests.put] return: the status, the body
    as text, and the [certID] key of the body read as JSON ([Raise] when
    the body is no JSON). *)
Record HttpResponse := {
  status_code : Z;
  text : string;
  json_certID : Result (option string)
}.

(** The calls that leave the process, with their arguments. *)
Inductive Call :=
| CNow
| CExists (path : string)
| CRun (cmd : list string)
| CDescribeDomainRecords (domain_name rr_keyword type_keyword : string)
| CUpdateDomainRecord (record_id rr type value : string)
| CAddDomainRecord (domain_name rr type value : string)
| CDeleteDomainRecord (record_id : string)
| CSleep (secs : Z)
| CReadFile (path : string)
| CPostSslCert (url token name common_name pri ca : string)
| CPutHttpsConf (url token : string) (certid : option string) (forceHttps : bool)
| CWriteRecords (records : gmap string (gmap string pyval)).

(** How writing [cert_records.json] ends: written, or an exception when the
    file is opened (nothing is touched), or one after it was truncated. *)
Inductive WriteOutcome :=
| Written
| OpenFailed (e : exn)
| DumpFailed (e : exn).

(** The outside world: every answer may depend on the calls made so far. *)
Record Env := {
  env_now : list Call -> PyDatetime.datetime;
  env_exists : list Call -> string -> bool;
  env_expanduser : string -> string;
  env_run : list Call -> list string -> Result CompletedProcess;
  env_describe : list Call -> string -> string -> string -> Result (list string);
  env_update_record : list Call -> string -> string -> string -> string -> Result unit;
  env_add_record : list Call -> string -> string -> string -> string -> Result string;
  env_delete_record : list Call -> string -> Result unit;
  env_read_file : list Call -> string -> Result string;
  env_token_of_request : string -> string;
  env_post : list Call -> string -> string -> string -> string -> string -> string
             -> Result HttpResponse;
  env_put : list Call -> string -> string -> option string -> bool -> Result HttpResponse;
  env_write : list Call -> WriteOutcome
}.

(** The content of [cert_records.json]. *)
Inductive FileState :=
| FileAbsent
| FileContent (records : gmap string (gmap string pyval))
| FilePartial.

Inductive Level := INFO | WARNING | ERROR.

(** The messages of the logger calls, one constructor per call site. *)
Inductive LogMsg :=
| MsgRecordsSaved
| MsgNoRecord (domain : string)
| MsgExpiryMissing (domain : string)
| MsgDaysRemaining (domain : string) (days : Z)
| MsgWithinThreshold (threshold : Z)
| MsgNotYet (days : Z)
| MsgExpiryParseFailed (e : exn)
| MsgAddTxt (record_name root_domain value : string)
| MsgUpdateExisting (record_id : string)
| MsgTxtAdded (record_id : string)
| MsgWaitDns
| MsgAddTxtFailed (e : exn)
| MsgFindFailed (e : exn)
| MsgTxtDeleted (record_id : string)
| MsgDeleteFailed (e : exn)
| MsgCertFilesExist (domain : string)
| MsgCertFilesMissing (domain : string)
| MsgUseEccDir (dir : string)
| MsgUseRsaDir (dir : string)
| MsgIssueStart (domain : string)
| MsgForceRenewMode
| MsgUseServer (server : string)
| MsgUseDefaultServer
| MsgRunAcmeFirst
| MsgExtractFailed
| MsgAcmeStdout (out : string)
| MsgAcmeStderr (err : string)
| MsgTxtValue (value : string)
| MsgAddRecordFailed
| MsgRunAcmeSecond
| MsgIssueSucceeded
| MsgIssueFailed (err : string)
| MsgIssueException (e : exn)
| MsgUploadStart
| MsgCertRead
| MsgCertReadFailed (e : exn)
| MsgUploaded (cert_id : option string)
| MsgUploadFailed (status : Z) (body : string)
| MsgUploadException (e : exn)
| MsgCdnUpdateStart (domain : string)
| MsgCdnUpdated
| MsgCdnUpdateFailed (status : Z) (body : string)
| MsgCdnException (e : exn)
| MsgBanner
| MsgProcessStart (domain : string)
| MsgNoUpdateNeeded (domain : string)
| MsgForceRenewal (domain : string)
| MsgRenewalFailed (domain : string)
| MsgSkipIssue (domain : string)
| MsgFirstIssue (domain : string)
| MsgIssueFailedFor (domain : string)
| MsgUploadFailedFor (domain : string)
| MsgDomainDone (domain : string)
| MsgTaskStart
| MsgRunTime (stamp : string)
| MsgNoDomains
| MsgDomainException (domain : string) (e : exn)
| MsgTaskDone
| MsgSuccessCount (n : nat)
| MsgFailCount (n : nat).

(** The state a method runs in: the attribute [cert_records], the file
    behind it, and what was called and logged so far (oldest first). *)
Record World := {
  cert_records : gmap string (gmap string pyval);
  cert_file : FileState;
  calls : list Call;
  logs : list (Level * LogMsg)
}.

(** ** The monad of methods: state and exceptions *)

Definition M (A : Type) : Type := World -> Result A * World.

Definition ret {A} (a : A) : M A := fun w => (Ok a, w).

Definition bind {A B} (m : M A) (f : A -> M B) : M B :=
  fun w =>
    match m w with
    | (Ok a, w') => f a w'
    | (Raise e, w') => (Raise e, w')
    end.

Declare Scope M_scope.
Delimit Scope M_scope with M.
Notation "x ← y ; z" := (bind y (fun x => z))
  (at level 20, y at level 100, z at level 200, only parsing) : M_scope.
Notation "' x ← y ; z" := (bind y (fun x => z))
  (at level 20, x pattern, y at level 100, z at level 200, only parsing) : M_scope.
Notation "x ;; z" := (bind x (fun _ => z))
  (at level 100, z at level 200, only parsing, right associativity) : M_scope.

(** [raise e]. *)
Definition raise {A} (e : exn) : M A := fun w => (Raise e, w).

(** [try: body except Exception as e: handler(e)]. *)
Definition try_except {A} (body : M A) (handler : exn -> M A) : M A :=
  fun w =>
    match body w with
    | (Ok a, w') => (Ok a, w')
    | (Raise e, w') => handler e w'
    end.

(** A pure library call that may raise. *)
Definition lift {A} (r : Result A) : M A := fun w => (r, w).

Definition gets {A} (f : World -> A) : M A := fun w => (Ok (f w), w).

Definition set_cert_records (r : gmap string (gmap string pyval)) : M unit :=
  fun w => (Ok tt, {| cert_records := r; cert_file := cert_file w;
                      calls := calls w; logs := logs w |}).

Definition set_cert_file (f : FileState) : M unit :=
  fun w => (Ok tt, {| cert_records := cert_records w; cert_file := f;
                      calls := calls w; logs := logs w |}).

(** [logger.info], [logger.warning], [logger.error]. *)
Definition log (lvl : Level) (msg : LogMsg) : M unit :=
  fun w => (Ok tt, {| cert_records := cert_records w; cert_file := cert_file w;
                      calls := calls w; logs := logs w ++ [(lvl, msg)] |}).

(** A call that leaves the process: the world answers from the history,
    and the call joins the history. *)
Definition extern {A} (c : Call) (answer : list Call -> Result A) : M A :=
  fun w => (answer (calls w),
            {| cert_records := cert_records w; cert_file := cert_file w;
               calls := calls w ++ [c]; logs := logs w |}).

(** ** The methods of [SSLCertificateManager] *)

Section Manager.

Variable cfg : Config.
Variable env : Env.

Local Open Scope M_scope.

(** [datetime.now()]: the local wall clock, a naive value. *)
Definition datetime_now : M PyDatetime.datetime :=
  extern CNow (fun h => Ok (PyDatetime.naive (env_now env h))).

(** [os.path.exists(path)] and [os.path.join(a, b)]. *)
Definition path_exists (path : string) : M bool :=
  extern (CExists path) (fun h => Ok (env_exists env h path)).

Definition path_join (a b : string) : string :=
  if PyStr.startswith b "/" then b
  else if negb (PyStr.truthy a) || PyStr.endswith a "/" then a +:+ b
  else a +:+ "/" +:+ b.

(** [_save_cert_records] (lines 91-95). *)
Definition _save_cert_records : M unit :=
  records ← gets cert_records;
  outcome ← extern (CWriteRecords records) (fun h => Ok (env_write env h));
  match outcome with
  | Written =>
      set_cert_file (FileContent records);;
      log INFO MsgRecordsSaved
  | OpenFailed e => raise e
  | DumpFailed e => set_cert_file FilePartial;; raise e
  end.

(** [datetime.fromisoformat(v)]: a [TypeError] for a value that is no
    string, a [ValueError] for a string outside the format. *)
Definition fromisoformat_value (v : pyval) : Result PyDatetime.datetime :=
  match v with
  | PStr s =>
      match PyDatetime.fromisoformat s with
      | Some d => Ok d
      | None => Raise (Exn "ValueError" "Invalid isoformat string")
      end
  | _ => Raise (Exn "TypeError" "fromisoformat: argument must be str")
  end.

(** [expiry_date - now]. *)
Definition datetime_sub_result (a b : PyDatetime.datetime) : Result PyDatetime.timedelta :=
  match PyDatetime.datetime_sub a b with
  | Some delta => Ok delta
  | None => Raise (Exn "TypeError" "can't subtract offset-naive and offset-aware datetimes")
  end.

Definition threshold_days : Z := default 30%Z (renewal_days_before_expiry cfg).

(** [check_cert_expiry] (lines 97-126). *)
Definition check_cert_expiry (domain : string) : M bool :=
  records ← gets cert_records;
  match records !! domain with
  | None => log INFO (MsgNoRecord domain);; ret true
  | Some record =>
      let expiry_date_str := py_get record "expiry_date" in
      if negb (pyval_truthy expiry_date_str) then
        log INFO (MsgExpiryMissing domain);; ret true
      else
        try_except
          (expiry_date ← lift (fromisoformat_value expiry_date_str);
           now ← datetime_now;
           delta ← lift (datetime_sub_result expiry_date now);
           let days_remaining := PyDatetime.days delta in
           log INFO (MsgDaysRemaining domain days_remaining);;
           if (days_remaining <=? threshold_days)%Z then
             log INFO (MsgWithinThreshold threshold_days);; ret true
           else
             log INFO (MsgNotYet days_remaining);; ret false)
          (fun e => log ERROR (MsgExpiryParseFailed e);; ret true)
  end.

(** [get_root_domain] (lines 128-133): the last two labels. *)
Definition get_root_domain (domain : string) : string :=
  let parts := PyStr.split "." domain in
  if (2 <=? length parts)%nat
  then PyStr.join "." (skipn (length parts - 2) parts)
  else domain.

(** The relative record name computed at lines 138-141. *)
Definition challenge_record_name (domain root_domain : string) : string :=
  let record_name :=
    PyStr.replace ("_acme-challenge." +:+ domain) ("." +:+ root_domain) EmptyString in
  if PyStr.endswith record_name root_domain
  then PyStr.take (String.length record_name - (String.length root_domain + 1)) record_name
  else record_name.

(** [_find_dns_record] (lines 181-198): the identifier of the first record
    the query returns. *)
Definition _find_dns_record (domain rr record_type : string) : M (option string) :=
  try_except
    (records ← extern (CDescribeDomainRecords domain rr record_type)
                      (fun h => env_describe env h domain rr record_type);
     match records with
     | record_id :: _ => ret (Some record_id)
     | [] => ret None
     end)
    (fun e => log ERROR (MsgFindFailed e);; ret None).

(** [add_dns_txt_record] (lines 135-179).  [if existing_record_id:] holds
    for an identifier that is a non-empty string. *)
Definition add_dns_txt_record (domain record_value : string) : M (option string) :=
  let root_domain := get_root_domain domain in
  let record_name := challenge_record_name domain root_domain in
  log INFO (MsgAddTxt record_name root_domain record_value);;
  try_except
    (existing_record_id ← _find_dns_record root_domain record_name "TXT";
     match existing_record_id with
     | Some (String c s as rid) =>
         log INFO (MsgUpdateExisting rid);;
         extern (CUpdateDomainRecord rid record_name "TXT" record_value)
                (fun h => env_update_record env h rid record_name "TXT" record_value);;
         ret (Some rid)
     | _ =>
         record_id ← extern (CAddDomainRecord root_domain record_name "TXT" record_value)
                            (fun h => env_add_record env h root_domain record_name
                                        "TXT" record_value);
         log INFO (MsgTxtAdded record_id);;
         log INFO MsgWaitDns;;
         extern (CSleep 60) (fun _ => Ok tt);;
         ret (Some record_id)
     end)
    (fun e => log ERROR (MsgAddTxtFailed e);; ret None).

(** [delete_dns_txt_record] (lines 200-211). *)
Definition delete_dns_txt_record (record_id : string) : M unit :=
  if negb (PyStr.truthy record_id) then ret tt
  else
    try_except
      (extern (CDeleteDomainRecord record_id)
              (fun h => env_delete_record env h record_id);;
       log INFO (MsgTxtDeleted record_id))
      (fun e => log ERROR (MsgDeleteFailed e)).

(** The dictionary [get_certificate_paths] returns. *)
Record CertPaths := {
  path_cert : string;
  path_key : string;
  path_ca : string
}.

Definition acme_home_dir : string :=
  env_expanduser env (default "~/.acme.sh" (acme_home cfg)).

(** [get_certificate_paths] (lines 353-373): the ECC directory when it
    exists, else the RSA one. *)
Definition get_certificate_paths (domain : string) : M CertPaths :=
  let cert_dir_ecc := path_join acme_home_dir (domain +:+ "_ecc") in
  let cert_dir_rsa := path_join acme_home_dir domain in
  ecc ← path_exists cert_dir_ecc;
  cert_dir ← (if ecc return M string
              then log INFO (MsgUseEccDir cert_dir_ecc);; ret cert_dir_ecc
              else log INFO (MsgUseRsaDir cert_dir_rsa);; ret cert_dir_rsa);
  ret {| path_cert := path_join cert_dir "fullchain.cer";
          path_key := path_join cert_dir (domain +:+ ".key");
          path_ca := path_join cert_dir "ca.cer" |}.

(** [check_certificate_exists] (lines 213-223). *)
Definition check_certificate_exists (domain : string) : M bool :=
  cert_paths ← get_certificate_paths domain;
  has_cert ← path_exists (path_cert cert_paths);
  both ← (if has_cert return M bool
          then path_exists (path_key cert_paths) else ret false);
  if both then log INFO (MsgCertFilesExist domain);; ret true
  else log INFO (MsgCertFilesMissing domain);; ret false.

Definition manual_mode_flag : string :=
  "--yes-I-know-dns-manual-mode-enough-go-ahead-please".

(** Lines 232-269 of [issue_certificate]: the command of the first run. *)
Definition issue_command (domain : string) (force_renew : bool) : M (list string) :=
  log INFO (MsgIssueStart domain);;
  let email_ := default EmptyString (email cfg) in
  let acme_server_ := default "letsencrypt" (acme_server cfg) in
  cert_exists ← check_certificate_exists domain;
  cmd ← (if cert_exists && force_renew return M (list string) then
           log INFO MsgForceRenewMode;;
           ret [acme_home_dir +:+ "/acme.sh"; "--renew"; "--force"; "-d"; domain;
                 manual_mode_flag]
         else
           ret [acme_home_dir +:+ "/acme.sh"; "--issue"; "--dns"; "-d"; domain;
                 manual_mode_flag]);
  let cmd := if PyStr.truthy email_ then cmd ++ ["--accountemail"; email_] else cmd in
  if PyStr.truthy acme_server_ &&
     negb (String.eqb (PyStr.lower acme_server_) "letsencrypt")
  then log INFO (MsgUseServer acme_server_);; ret (cmd ++ ["--server"; acme_server_])
  else log INFO MsgUseDefaultServer;; ret cmd.

Definition renew_command (domain : string) : list string :=
  [acme_home_dir +:+ "/acme.sh"; "--renew"; "-d"; domain; manual_mode_flag].

Definition run_subprocess (cmd : list string) : M CompletedProcess :=
  extern (CRun cmd) (fun h => env_run env h cmd).

(** Lines 271-327 of [issue_certificate]: the [try] block and its
    handler.  [if not txt_value:] and [if not record_id:] hold for None and
    for the empty string. *)
Definition issue_attempt (domain : string) (cmd : list string) : M bool :=
  try_except
    (log INFO MsgRunAcmeFirst;;
     result ← run_subprocess cmd;
     let txt_value := _extract_txt_value (stdout result +:+ stderr result) in
     match txt_value with
     | Some (String c s as txt) =>
         log INFO (MsgTxtValue txt);;
         record_id ← add_dns_txt_record domain txt;
         match record_id with
         | Some (String c' s' as rid) =>
             log INFO MsgRunAcmeSecond;;
             result_renew ← run_subprocess (renew_command domain);
             delete_dns_txt_record rid;;
             if (returncode result_renew =? 0)%Z then
               log INFO MsgIssueSucceeded;; ret true
             else
               log ERROR (MsgIssueFailed (stderr result_renew));; ret false
         | _ =>
             log ERROR MsgAddRecordFailed;; ret false
         end
     | _ =>
         log ERROR MsgExtractFailed;;
         log ERROR (MsgAcmeStdout (stdout result));;
         log ERROR (MsgAcmeStderr (stderr result));;
         ret false
     end)
    (fun e => log ERROR (MsgIssueException e);; ret false).

(** [issue_certificate] (lines 225-327). *)
Definition issue_certificate (domain : string) (force_renew : bool) : M bool :=
  cmd ← issue_command domain force_renew;
  issue_attempt domain cmd.

Definition qiniu_token (url : string) : string :=
  "QBox " +:+ env_token_of_request env url.

(** [update_cdn_ssl_config] (lines 433-466). *)
Definition update_cdn_ssl_config (domain : string) (cert_id : option string) : M bool :=
  log INFO (MsgCdnUpdateStart domain);;
  try_except
    (let url := "http://api.qiniu.com/domain/" +:+ domain +:+ "/httpsconf" in
     let force := default false (force_https cfg) in
     let token := qiniu_token url in
     response ← extern (CPutHttpsConf url token cert_id force)
                       (fun h => env_put env h url token cert_id force);
     if (status_code response =? 200)%Z then
       log INFO MsgCdnUpdated;; ret true
     else
       log ERROR (MsgCdnUpdateFailed (status_code response) (text response));;
       ret false)
    (fun e => log ERROR (MsgCdnException e);; ret false).

(** [strftime('%Y%m%d%H%M%S')]. *)
Definition compact_stamp (t : PyDatetime.datetime) : string :=
  PyDatetime.fmt_digits 4 (PyDatetime.year t) +:+
  PyDatetime.fmt_digits 2 (PyDatetime.month t) +:+
  PyDatetime.fmt_digits 2 (PyDatetime.day t) +:+
  PyDatetime.fmt_digits 2 (PyDatetime.hour t) +:+
  PyDatetime.fmt_digits 2 (PyDatetime.minute t) +:+
  PyDatetime.fmt_digits 2 (PyDatetime.second t).

Definition read_file (path : string) : M string :=
  extern (CReadFile path) (fun h => env_read_file env h path).

(** [upload_cert_to_qiniu] (lines 375-431). *)
Definition upload_cert_to_qiniu (domain : string) : M bool :=
  log INFO MsgUploadStart;;
  cert_paths ← get_certificate_paths domain;
  contents ← try_except
    (cert_content ← read_file (path_cert cert_paths);
     key_content ← read_file (path_key cert_paths);
     log INFO MsgCertRead;;
     ret (Some (cert_content, key_content)))
    (fun e => log ERROR (MsgCertReadFailed e);; ret None);
  match contents with
  | None => ret false
  | Some (cert_content, key_content) =>
      try_except
        (now ← datetime_now;
         let cert_name := domain +:+ "_" +:+ compact_stamp now in
         let url := "http://api.qiniu.com/sslcert" in
         let token := qiniu_token url in
         response ← extern (CPostSslCert url token cert_name domain key_content cert_content)
                           (fun h => env_post env h url token cert_name domain
                                       key_content cert_content);
         if (status_code response =? 200)%Z then
           cert_id ← lift (json_certID response);
           log INFO (MsgUploaded cert_id);;
           update_cdn_ssl_config domain cert_id
         else
           log ERROR (MsgUploadFailed (status_code response) (text response));;
           ret false)
        (fun e => log ERROR (MsgUploadException e);; ret false)
  end.

(** [datetime.now() + timedelta(days=90)]. *)
Definition datetime_add_result (d : PyDatetime.datetime) (delta : PyDatetime.timedelta)
  : Result PyDatetime.datetime :=
  match PyDatetime.datetime_add d delta with
  | Some r => Ok r
  | None => Raise (Exn "OverflowError" "date value out of range")
  end.

Definition new_record (expiry_date updated_at : PyDatetime.datetime) : gmap string pyval :=
  <["expiry_date" := PStr (PyDatetime.isoformat expiry_date)]>
    (<["updated_at" := PStr (PyDatetime.isoformat updated_at)]>
       (<["status" := PStr "active"]> ∅)).

(** [update_cert_record] (lines 468-479). *)
Definition update_cert_record (domain : string) : M unit :=
  now ← datetime_now;
  expiry_date ← lift (datetime_add_result now (PyDatetime.new_timedelta 90 0 0));
  updated_at ← datetime_now;
  records ← gets cert_records;
  set_cert_records (<[domain := new_record expiry_date updated_at]> records);;
  _save_cert_records.

(** The test of line 502: the record exists and its status is [active]. *)
Definition has_active_record (records : gmap string (gmap string pyval)) (domain : string)
  : bool :=
  match records !! domain with
  | Some record => bool_decide (py_get record "status" = PStr "active")
  | None => false
  end.

(** Lines 518-527 of [process_domain]: upload, then record. *)
Definition publish_and_record (domain : string) : M bool :=
  uploaded ← upload_cert_to_qiniu domain;
  if negb uploaded then
    log ERROR (MsgUploadFailedFor domain);; ret false
  else
    update_cert_record domain;;
    log INFO (MsgDomainDone domain);;
    ret true.

(** The two call sites of [issue_certificate] in [process_domain] (lines
    505-507 and 514-516): when issuance fails, the error [failure] is
    logged and false returned; otherwise the domain is published. *)
Definition issue_then_publish (domain : string) (force_renew : bool) (failure : LogMsg)
  : M bool :=
  issued ← issue_certificate domain force_renew;
  if negb issued then
    log ERROR failure;; ret false
  else publish_and_record domain.

(** [process_domain] (lines 481-527). *)
Definition process_domain (domain : string) : M bool :=
  log INFO MsgBanner;;
  log INFO (MsgProcessStart domain);;
  log INFO MsgBanner;;
  need_renewal ← check_cert_expiry domain;
  if negb need_renewal then
    log INFO (MsgNoUpdateNeeded domain);; ret true
  else
    cert_exists ← check_certificate_exists domain;
    records ← gets cert_records;
    if cert_exists then
      if has_active_record records domain then
        log INFO (MsgForceRenewal domain);;
        issue_then_publish domain true (MsgRenewalFailed domain)
      else
        log INFO (MsgSkipIssue domain);;
        publish_and_record domain
    else
      log INFO (MsgFirstIssue domain);;
      issue_then_publish domain false (MsgIssueFailedFor domain).

(** The [for] loop of [run] (lines 545-553) with its two counters. *)
Fixpoint run_loop (todo : list string) (success_count fail_count : nat) : M (nat * nat) :=
  match todo with
  | [] => ret (success_count, fail_count)
  | domain :: rest =>
      counted ← try_except
        (ok ← process_domain domain;
         if ok then ret (S success_count, fail_count)
         else ret (success_count, S fail_count))
        (fun e =>
           log ERROR (MsgDomainException domain e);;
           ret (success_count, S fail_count));
      run_loop rest (fst counted) (snd counted)
  end.

(** [strftime('%Y-%m-%d %H:%M:%S')]. *)
Definition readable_stamp (t : PyDatetime.datetime) : string :=
  PyDatetime.fmt_digits 4 (PyDatetime.year t) +:+ "-" +:+
  PyDatetime.fmt_digits 2 (PyDatetime.month t) +:+ "-" +:+
  PyDatetime.fmt_digits 2 (PyDatetime.day t) +:+ " " +:+
  PyDatetime.fmt_digits 2 (PyDatetime.hour t) +:+ ":" +:+
  PyDatetime.fmt_digits 2 (PyDatetime.minute t) +:+ ":" +:+
  PyDatetime.fmt_digits 2 (PyDatetime.second t).

(** [run] (lines 529-559): the tally it logs, or nothing when no domain is
    configured. *)
Definition run : M (option (nat * nat)) :=
  log INFO MsgBanner;;
  log INFO MsgTaskStart;;
  now ← datetime_now;
  log INFO (MsgRunTime (readable_stamp now));;
  log INFO MsgBanner;;
  match domains cfg with
  | [] => log WARNING MsgNoDomains;; ret None
  | _ :: _ =>
      tally ← run_loop (domains cfg) 0 0;
      log INFO MsgBanner;;
      log INFO MsgTaskDone;;
      log INFO (MsgSuccessCount (fst tally));;
      log INFO (MsgFailCount (snd tally));;
      log INFO MsgBanner;;
      ret (Some tally)
  end.

End Manager.

(** ** Vocabulary of the statements *)

(** The check that [month_day_of_yday] lands on the right day: a month,
    a day of that month, and as many days before them as asked. *)
Definition month_day_check (leap : bool) (n : Z) : bool :=
  let '(m, d) := PyDatetime.month_day_of_yday leap n in
  ((1 <=? m) && (m <=? 12) && (1 <=? d) &&
   (d <=? PyDatetime.DAYS_IN_MONTH m + (if (m =? 2) && leap then 1 else 0)) &&
   (PyDatetime.DAYS_BEFORE_MONTH m + (if (2 <? m) && leap then 1 else 0) + d =? n + 1))%Z.

(** What a computation leaves alone: the observation [f] of the world is
    the same after it as before it, however it ends. *)
Definition preserves {X A} (f : World -> X) (m : M A) : Prop :=
  forall w, f (snd (m w)) = f w.

(** The certificate record store: the mapping in memory and the file. *)
Definition store (w : World) : gmap string (gmap string pyval) * FileState :=
  (cert_records w, cert_file w).

(** The commands handed to [subprocess.run] so far. *)
Definition run_of (c : Call) : list (list string) :=
  match c with CRun cmd => [cmd] | _ => [] end.

Definition runs (w : World) : list (list string) := flat_map run_of (calls w).

(** The domains whose processing was announced in the log so far. *)
Definition start_of (entry : Level * LogMsg) : list string :=
  match snd entry with MsgProcessStart d => [d] | _ => [] end.

Definition starts (w : World) : list string := flat_map start_of (logs w).

(** The world after one more log line, and after one more call. *)
Definition logged (w : World) (lvl : Level) (msg : LogMsg) : World :=
  {| cert_records := cert_records w; cert_file := cert_file w;
     calls := calls w; logs := logs w ++ [(lvl, msg)] |}.

Definition called (w : World) (c : Call) : World :=
  {| cert_records := cert_records w; cert_file := cert_file w;
     calls := calls w ++ [c]; logs := logs w |}.

(** What [datetime.now()] returns when it is called in the world [w]. *)
Definition clock (env : Env) (w : World) : PyDatetime.datetime :=
  PyDatetime.naive (env_now env (calls w)).

(** The whole days from [now] until the expiry date a record holds, as the
    [try] block of [check_cert_expiry] computes them; [None] when the block
    raises: the value is no string, or no date in ISO format, or a date
    with a UTC offset, which cannot be subtracted from the naive [now]. *)
Definition days_until (expiry : pyval) (now : PyDatetime.datetime) : option Z :=
  match fromisoformat_value expiry with
  | Ok e =>
      match PyDatetime.datetime_sub e now with
      | Some delta => Some (PyDatetime.days delta)
      | None => None
      end
  | Raise _ => None
  end.

(** The condition under which a certificate needs renewal: no record, or
    an expiry date that is absent (missing or falsy) or unparseable, or at
    most [threshold_days] whole days left. *)
Definition renewal_condition (cfg : Config) (env : Env) (domain : string) (w : World) : Prop :=
  cert_records w !! domain = None \/
  exists record, cert_records w !! domain = Some record /\
    (pyval_truthy (py_get record "expiry_date") = false \/
     days_until (py_get record "expiry_date") (clock env w) = None \/
     exists k, days_until (py_get record "expiry_date") (clock env w) = Some k /\
               (k <= threshold_days cfg)%Z).

(** The same condition with the [try] block spelled out.  A record needs
    renewal when its [expiry_date] is falsy; when it is no string, so that
    [fromisoformat] raises a [TypeError]; when it is a string that
    [fromisoformat] rejects; when it is read as a date that carries a UTC
    offset, which cannot be subtracted from the naive [datetime.now()]; or
    when it is read as a naive date at most [threshold_days] whole days
    after now, the days being the floor of the distance on the time
    line. *)
Definition renewal_due (cfg : Config) (env : Env) (domain : string) (w : World) : Prop :=
  cert_records w !! domain = None \/
  exists record, cert_records w !! domain = Some record /\
    (pyval_truthy (py_get record "expiry_date") = false \/
     (forall s, py_get record "expiry_date" <> PStr s) \/
     exists s, py_get record "expiry_date" = PStr s /\
       (PyDatetime.fromisoformat s = None \/
        exists e, PyDatetime.fromisoformat s = Some e /\
          (PyDatetime.utcoffset e <> None \/
           ((PyDatetime.timestamp e - PyDatetime.timestamp (clock env w))
              / PyDatetime.DAY_US <= threshold_days cfg)%Z))).

(** The condition in the words of the specification: no record, an
    [expiry_date] that is absent or that cannot be parsed, or a date at
    most [threshold_days] whole days after now. *)
Definition stated_renewal_condition (cfg : Config) (env : Env) (domain : string) (w : World)
  : Prop :=
  cert_records w !! domain = None \/
  exists record, cert_records w !! domain = Some record /\
    (pyval_truthy (py_get record "expiry_date") = false \/
     (forall e, fromisoformat_value (py_get record "expiry_date") <> Ok e) \/
     exists e, fromisoformat_value (py_get record "expiry_date") = Ok e /\
       ((PyDatetime.timestamp e - PyDatetime.timestamp (clock env w))
          / PyDatetime.DAY_US <= threshold_days cfg)%Z).

(** The world after the three banner lines that open [process_domain]. *)
Definition announced (domain : string) (w : World) : World :=
  logged (logged (logged w INFO MsgBanner) INFO (MsgProcessStart domain)) INFO MsgBanner.

(** The world in which [issue_certificate] gives up on the challenge:
    [w] is the world after the command was built; acme.sh was run once, and
    the error and the raw output of that run were logged. *)
Definition extract_failed (w : World) (cmd : list string) (result : CompletedProcess)
  : World :=
  logged (logged (logged (called (logged w INFO MsgRunAcmeFirst) (CRun cmd))
                    ERROR MsgExtractFailed)
            ERROR (MsgAcmeStdout (stdout result)))
    ERROR (MsgAcmeStderr (stderr result)).

(** A computation that returns false leaves the record store as it
    was. *)
Definition false_keeps_store (m : M bool) : Prop :=
  forall w w', m w = (Ok false, w') -> store w' = store w.

(** A computation only adds to the history of calls. *)
Definition grows {A} (m : M A) : Prop :=
  forall w, exists more, calls (snd (m w)) = calls w ++ more.

(** The methods, for unfolding a computation down to its primitives. *)
Ltac unfold_methods :=
  unfold process_domain, issue_then_publish, publish_and_record, update_cert_record,
    _save_cert_records,
    upload_cert_to_qiniu, update_cdn_ssl_config, issue_certificate, issue_attempt,
    issue_command, run_subprocess, read_file, check_certificate_exists,
    get_certificate_paths, path_exists, delete_dns_txt_record, add_dns_txt_record,
    _find_dns_record, check_cert_expiry, datetime_now.

(** ** Sample worlds, for the concrete runs below *)

Definition sample_now : PyDatetime.datetime :=
  PyDatetime.mk_datetime 2025 1 15 10 30 0 0 None.

Definition is_run (c : Call) : bool :=
  match c with CRun _ => true | _ => false end.

Definition is_delete (c : Call) : bool :=
  match c with CDeleteDomainRecord _ => true | _ => false end.

(** A world in which the clock stands still, every path exists or none
    does, acme.sh prints [first_output] on its first run and ends as
    [second_run] says on a later one, the DNS query answers [described],
    and the update of a DNS record and the write of the record file end as
    the arguments say. *)
Definition sample_env (files_exist : bool) (first_output : string)
    (second_run : Result CompletedProcess)
    (described : Result (list string)) (updated : Result unit)
    (written : WriteOutcome) : Env :=
  {| env_now := fun _ => sample_now;
     env_exists := fun _ _ => files_exist;
     env_expanduser := fun _ => "/root/.acme.sh";
     env_run := fun h _ =>
       if existsb is_run h then second_run
       else Ok {| returncode := 0; stdout := first_output; stderr := EmptyString |};
     env_describe := fun _ _ _ _ => described;
     env_update_record := fun _ _ _ _ _ => updated;
     env_add_record := fun _ _ _ _ _ => Ok "9001";
     env_delete_record := fun _ _ => Ok tt;
     env_read_file := fun _ path => Ok ("content of " +:+ path);
     env_token_of_request := fun _ => "token";
     env_post := fun _ _ _ _ _ _ _ =>
       Ok {| status_code := 200; text := EmptyString; json_certID := Ok (Some "cert-1") |};
     env_put := fun _ _ _ _ _ =>
       Ok {| status_code := 200; text := EmptyString; json_certID := Ok None |};
     env_write := fun _ => written |}.

Definition sample_cfg : Config :=
  {| domains := ["www.example.com"];
     renewal_days_before_expiry := None;
     acme_home := None;
     email := None;
     acme_server := None;
     force_https := None |}.

Definition empty_world : World :=
  {| cert_records := ∅; cert_file := FileAbsent; calls := []; logs := [] |}.

(** What acme.sh prints in manual DNS mode. *)
Definition challenge_output : string :=
  PyStr.join (String PyStr.newline EmptyString)
    ["Add the following TXT record:";
     "Domain: '_acme-challenge.www.example.com'";
     "TXT value: 'abc123'";
     "Please add the TXT records to the domains, and re-run with --renew."].

Definition renew_succeeds : Result CompletedProcess :=
  Ok {| returncode := 0; stdout := "Cert success."; stderr := EmptyString |}.

Definition renew_fails : Result CompletedProcess :=
  Ok {| returncode := 1; stdout := EmptyString; stderr := "Verify error" |}.

(** Nothing on disk; issuance and publishing succeed. *)
Definition env_fresh : Env :=
  sample_env false challenge_output renew_succeeds (Ok []) (Ok tt) Written.

(** The artifacts are on disk; everything succeeds. *)
Definition env_artifacts : Env :=
  sample_env true challenge_output renew_succeeds (Ok []) (Ok tt) Written.

(** The second run of acme.sh ends with a non-zero exit code. *)
Definition env_renew_fails : Env :=
  sample_env false challenge_output renew_fails (Ok []) (Ok tt) Written.

(** The second run of acme.sh raises: its output is no UTF-8. *)
Definition env_renew_raises : Env :=
  sample_env false challenge_output
    (Raise (Exn "UnicodeDecodeError" "invalid start byte")) (Ok []) (Ok tt) Written.

(** acme.sh prints no challenge at all. *)
Definition env_no_challenge : Env :=
  sample_env false "acme.sh: command failed" renew_succeeds (Ok []) (Ok tt) Written.

(** The TXT record exists already; the update succeeds, or raises. *)
Definition env_record_exists : Env :=
  sample_env false challenge_output renew_succeeds (Ok ["4711"]) (Ok tt) Written.

Definition env_update_raises : Env :=
  sample_env false challenge_output renew_succeeds (Ok ["4711"])
    (Raise (Exn "ServerException" "Throttling.User")) Written.

(** The artifacts are on disk, and the record file cannot be opened, or
    cannot be written to the end. *)
Definition env_open_fails : Env :=
  sample_env true challenge_output renew_succeeds (Ok []) (Ok tt)
    (OpenFailed (Exn "PermissionError" "cert_records.json")).

Definition env_dump_fails : Env :=
  sample_env true challenge_output renew_succeeds (Ok []) (Ok tt)
    (DumpFailed (Exn "OSError" "No space left on device")).

(** A store that holds an active record for the sample domain, expiring on
    the given date. *)
Definition world_with_expiry (expiry : string) : World :=
  {| cert_records :=
       {[ "www.example.com" :=
            <["expiry_date" := PStr expiry]>
              (<["updated_at" := PStr "2024-11-01T00:00:00"]>
                 (<["status" := PStr "active"]> ∅)) ]};
     cert_file := FileAbsent; calls := []; logs := [] |}.

(** ** Vocabulary of the further properties *)

(** The text between the first occurrence of [q] in a line and the next
    one, or the end of the line. *)
Definition between_first_two (q : ascii) (line : string) : string :=
  text_before_first q (text_after_first q line).

Definition has_quote (line : string) : bool :=
  PyStr.mem PyStr.squote line || PyStr.mem PyStr.dquote line.

(** The quoted part of a line: between single quotes when the line has
    one, else between double quotes. *)
Definition first_quoted (line : string) : string :=
  if PyStr.mem PyStr.squote line then between_first_two PyStr.squote line
  else between_first_two PyStr.dquote line.

(** A string without its last character. *)
Definition but_last (s : string) : string := PyStr.take (String.length s - 1) s.

(** [old] occurs in [s] at the very end only: not in [s] short of its last
    character. *)
Definition occurs_only_at_end (old s : string) : bool :=
  negb (PyStr.contains old (but_last s)).

(** A value the program takes for missing: None or the empty string. *)
Definition unusable (v : option string) : bool :=
  match v with
  | Some (String _ _) => false
  | _ => true
  end.

(** A computation that ends in a value in every world. *)
Definition never_raises {A} (m : M A) : Prop :=
  forall w, exists a w', m w = (Ok a, w').

(** The calls of one kind made so far. *)
Definition trace_of (sel : Call -> bool) (w : World) : list Call :=
  List.filter sel (calls w).

(** The requests to the CDN, the requests to the DNS provider, and the
    writes of the record file. *)
Definition is_http (c : Call) : bool :=
  match c with CPostSslCert _ _ _ _ _ _ | CPutHttpsConf _ _ _ _ => true | _ => false end.

Definition is_dns (c : Call) : bool :=
  match c with
  | CDescribeDomainRecords _ _ _ | CUpdateDomainRecord _ _ _ _
  | CAddDomainRecord _ _ _ _ | CDeleteDomainRecord _ => true
  | _ => false
  end.

Definition is_write (c : Call) : bool :=
  match c with CWriteRecords _ => true | _ => false end.

(** The two addresses of the CDN interface. *)
Definition sslcert_url : string := "http://api.qiniu.com/sslcert".

Definition httpsconf_url (domain : string) : string :=
  "http://api.qiniu.com/domain/" +:+ domain +:+ "/httpsconf".

(** A file system that does not change while the program runs. *)
Definition stable_files (env : Env) : Prop :=
  forall h h' path, env_exists env h path = env_exists env h' path.

(** The directory [get_certificate_paths] chooses on a file system that
    stays as it is: the ECC one when it exists. *)
Definition chosen_dir (cfg : Config) (env : Env) (domain : string) : string :=
  if env_exists env [] (path_join (acme_home_dir cfg env) (domain +:+ "_ecc"))
  then path_join (acme_home_dir cfg env) (domain +:+ "_ecc")
  else path_join (acme_home_dir cfg env) domain.

(** The world after the first run of acme.sh has printed the challenge
    value [txt]. *)
Definition challenge_read (w : World) (cmd : list string) (txt : string) : World :=
  logged (called (logged w INFO MsgRunAcmeFirst) (CRun cmd)) INFO (MsgTxtValue txt).

(** The world [update_cert_record] leaves in memory once both clock
    readings are taken: the record of the domain replaced. *)
Definition recorded (w : World) (domain : string) (record : gmap string pyval) : World :=
  {| cert_records := <[domain := record]> (cert_records w);
     cert_file := cert_file w;
     calls := calls w ++ [CNow; CNow];
     logs := logs w |}.

(** A world with another content of the record file. *)
Definition with_file (w : World) (f : FileState) : World :=
  {| cert_records := cert_records w; cert_file := f; calls := calls w; logs := logs w |}.

(** An exception of the computation comes out of [update_cert_record],
    after an upload that succeeded. *)
Definition raised_after_upload (cfg : Config) (env : Env) (domain : string) (m : M bool)
  : Prop :=
  forall w e w', m w = (Raise e, w') ->
    exists w0 w1,
      upload_cert_to_qiniu cfg env domain w0 = (Ok true, w1) /\
      update_cert_record env domain w1 = (Raise e, w').

(** A true result of the computation comes after an upload that succeeded
    and a record that was saved. *)
Definition true_after_publish (cfg : Config) (env : Env) (domain : string) (m : M bool)
  : Prop :=
  forall w w', m w = (Ok true, w') ->
    exists w0 w1 w2,
      upload_cert_to_qiniu cfg env domain w0 = (Ok true, w1) /\
      update_cert_record env domain w1 = (Ok tt, w2) /\
      w' = logged w2 INFO (MsgDomainDone domain).

(** The record of one domain in memory. *)
Definition record_of (domain : string) (w : World) : option (gmap string pyval) :=
  cert_records w !! domain.

(** A computation that drops no record: a domain that has one before has
    one after. *)
Definition keeps_records {A} (m : M A) : Prop :=
  forall w domain,
    is_Some (cert_records w !! domain) -> is_Some (cert_records (snd (m w)) !! domain).

(** A store with a record for a domain that is not configured. *)
Definition world_with_stale_record : World :=
  {| cert_records := {[ "old.example.org" := new_record sample_now sample_now ]};
     cert_file := FileAbsent; calls := []; logs := [] |}.

(** acme.sh prints a challenge line with nothing between the quotes. *)
Definition env_empty_value : Env :=
  sample_env false "TXT value: ''" renew_succeeds (Ok []) (Ok tt) Written.

(** The DNS query fails. *)
Definition env_query_raises : Env :=
  sample_env false challenge_output renew_succeeds
    (Raise (Exn "ClientException" "SDK.HttpError")) (Ok tt) Written.

(** The artifacts are listed but cannot be read. *)
Definition env_unreadable : Env :=
  {| env_now := env_now env_artifacts;
     env_exists := env_exists env_artifacts;
     env_expanduser := env_expanduser env_artifacts;
     env_run := env_run env_artifacts;
     env_describe := env_describe env_artifacts;
     env_update_record := env_update_record env_artifacts;
     env_add_record := env_add_record env_artifacts;
     env_delete_record := env_delete_record env_artifacts;
     env_read_file := fun _ path => Raise (Exn "PermissionError" path);
     env_token_of_request := env_token_of_request env_artifacts;
     env_post := env_post env_artifacts;
     env_put := env_put env_artifacts;
     env_write := env_write env_artifacts |}.

(** Issuance succeeds, but the challenge record cannot be deleted. *)
Definition env_delete_raises : Env :=
  {| env_now := env_now env_fresh;
     env_exists := env_exists env_fresh;
     env_expanduser := env_expanduser env_fresh;
     env_run := env_run env_fresh;
     env_describe := env_describe env_fresh;
     env_update_record := env_update_record env_fresh;
     env_add_record := env_add_record env_fresh;
     env_delete_record := fun _ _ => Raise (Exn "ServerException" "DomainRecordLocked");
     env_read_file := env_read_file env_fresh;
     env_token_of_request := env_token_of_request env_fresh;
     env_post := env_post env_fresh;
     env_put := env_put env_fresh;
     env_write := env_write env_fresh |}.

(** A configuration that renews 45 days ahead. *)
Definition early_cfg : Config :=
  {| domains := ["www.example.com"];
     renewal_days_before_expiry := Some 45%Z;
     acme_home := None;
     email := None;
     acme_server := None;
     force_https := None |}.

(* ===================================================================== *)
(** * Part II: properties *)
(* ===================================================================== *)

(** ** First runs of the definitions *)

Example extract_quoted :
  _extract_txt_value
    "Please add the following TXT record: _acme-challenge.foo TXT value: 'abc123' ..."
  = Some "abc123".
Proof. reflexivity. Qed.

Example extract_second_field :
  _extract_txt_value "_acme-challenge.www = 'abc' " = Some "abc".
Proof. reflexivity. Qed.

Example isoformat_example :
  PyDatetime.isoformat (PyDatetime.mk_datetime 2025 3 9 7 5 0 1234 None)
  = "2025-03-09T07:05:00.001234".
Proof. reflexivity. Qed.

Example fromisoformat_example :
  PyDatetime.fromisoformat "2025-03-09T07:05:00.001234"
  = Some (PyDatetime.mk_datetime 2025 3 9 7 5 0 1234 None).
Proof. reflexivity. Qed.

Example fromisoformat_aware :
  PyDatetime.fromisoformat "2099-01-01T00:00:00+08:00"
  = Some (PyDatetime.mk_datetime 2099 1 1 0 0 0 0 (Some 28800000000%Z)).
Proof. reflexivity. Qed.

Example ord2ymd_example :
  PyDatetime.ord2ymd 739000 = (2024, 4, 24)%Z /\
  PyDatetime.ymd2ord 2024 4 24 = 739000%Z /\
  PyDatetime.ord2ymd 3652059 = (9999, 12, 31)%Z /\
  PyDatetime.ord2ymd 1 = (1, 1, 1)%Z /\
  PyDatetime.ord2ymd 730485 = (2000, 12, 31)%Z.
Proof. repeat split; reflexivity. Qed.

(** ** Strings *)

Section PyStrFacts.

Lemma split_nonempty sep s : PyStr.split sep s <> [].
Proof.
  destruct s as [|c s]; simpl; [discriminate|].
  destruct (Ascii.eqb c sep); [discriminate|].
  destruct (PyStr.split sep s); discriminate.
Qed.

(** One character is a substring exactly when it is a member. *)
Lemma contains_char c s :
  PyStr.contains (String c EmptyString) s = PyStr.mem c s.
Proof.
  induction s as [|d s IH]; simpl; [reflexivity|].
  rewrite IH. destruct (ascii_dec c d) as [->|Hne].
  - rewrite Ascii.eqb_refl. destruct s; reflexivity.
  - apply Ascii.eqb_neq in Hne. rewrite Hne. reflexivity.
Qed.

(** The first two pieces of a split, in the words of a reader: the text
    before the first separator, and the text after it up to the next. *)
Lemma split_head sep s :
  exists rest, PyStr.split sep s = text_before_first sep s :: rest.
Proof.
  induction s as [|c s [rest IH]]; simpl.
  - eexists; reflexivity.
  - destruct (Ascii.eqb c sep).
    + eexists; reflexivity.
    + rewrite IH. eexists; reflexivity.
Qed.

Lemma split_second sep s :
  PyStr.mem sep s = true ->
  exists rest,
    PyStr.split sep s =
    text_before_first sep s :: text_before_first sep (text_after_first sep s) :: rest.
Proof.
  induction s as [|c s IH]; simpl; [discriminate|].
  rewrite Ascii.eqb_sym. destruct (Ascii.eqb c sep) eqn:E; simpl.
  - intros _. destruct (split_head sep s) as [rest ->]. eexists; reflexivity.
  - intros H. destruct (IH H) as [rest ->]. eexists; reflexivity.
Qed.

Lemma split_no_sep sep s :
  PyStr.mem sep s = false -> PyStr.split sep s = [s].
Proof.
  induction s as [|c s IH]; simpl; [reflexivity|].
  rewrite Ascii.eqb_sym. destruct (Ascii.eqb c sep); simpl; [discriminate|].
  intros H. rewrite (IH H). reflexivity.
Qed.

End PyStrFacts.

(** ** The extractor *)

Section Extractor.

Lemma scan_txt_marker_unmarked lines :
  forallb (fun line => negb (has_txt_marker line)) lines = true ->
  scan_txt_marker lines = None.
Proof.
  induction lines as [|l ls IH]; simpl; [reflexivity|].
  intros H. apply andb_prop in H as [Hl Hls].
  apply negb_true_iff in Hl. rewrite Hl. auto.
Qed.

Lemma extract_unmarked output :
  no_txt_marker output = true ->
  _extract_txt_value output = scan_challenge (PyStr.split PyStr.newline output).
Proof.
  intros H. unfold _extract_txt_value.
  rewrite (scan_txt_marker_unmarked _ H). reflexivity.
Qed.

(** The second loop's body in the reader's words. *)
Lemma challenge_value_spec line :
  challenge_value line =
  if has_challenge_marker line && PyStr.truthy (second_field_value line)
  then Some (second_field_value line) else None.
Proof.
  unfold challenge_value. destruct (has_challenge_marker line) eqn:Hm; [|reflexivity].
  unfold has_challenge_marker in Hm. apply andb_prop in Hm as [_ Heq].
  rewrite contains_char in Heq.
  destruct (split_second _ _ Heq) as [rest ->].
  fold (second_field_value line). simpl.
  destruct (PyStr.truthy (second_field_value line)); reflexivity.
Qed.

Lemma challenge_value_truthy line v :
  challenge_value line = Some v -> PyStr.truthy v = true.
Proof.
  rewrite challenge_value_spec.
  destruct (has_challenge_marker line); simpl; [|discriminate].
  destruct (PyStr.truthy (second_field_value line)) eqn:E; [|discriminate].
  intros [= <-]. exact E.
Qed.

Lemma scan_challenge_truthy lines v :
  scan_challenge lines = Some v -> PyStr.truthy v = true.
Proof.
  induction lines as [|l ls IH]; simpl; [discriminate|].
  destruct (challenge_value l) eqn:E.
  - intros [= <-]. eapply challenge_value_truthy; eassumption.
  - exact IH.
Qed.

Lemma scan_challenge_skip before lines :
  forallb (fun l => negb (has_challenge_marker l && PyStr.truthy (second_field_value l)))
          before = true ->
  scan_challenge (before ++ lines) = scan_challenge lines.
Proof.
  induction before as [|l ls IH]; simpl; [reflexivity|].
  intros H. apply andb_prop in H as [Hl Hls].
  rewrite challenge_value_spec. apply negb_true_iff in Hl. rewrite Hl. auto.
Qed.

Lemma scan_challenge_unmarked lines :
  forallb (fun line => negb (has_challenge_marker line)) lines = true ->
  scan_challenge lines = None.
Proof.
  induction lines as [|l ls IH]; simpl; [reflexivity|].
  intros H. apply andb_prop in H as [Hl Hls].
  unfold challenge_value. apply negb_true_iff in Hl. rewrite Hl. auto.
Qed.

Lemma truthy_nonempty s : PyStr.truthy s = true <-> s <> EmptyString.
Proof. destruct s; simpl; split; congruence. Qed.

End Extractor.

(** C4, as stated, fails: on a line with two [=] signs the code returns the
    text between them, not the text after the first one.  The output below
    has one line, carries no TXT-value marker and matches the second
    heuristic; the text after its first [=] is [abc=def] and the code
    returns [abc]. *)
Lemma extract_after_first_eq_counterexample :
  no_txt_marker "_acme-challenge.www=abc=def" = true /\
  PyStr.split PyStr.newline "_acme-challenge.www=abc=def" = ["_acme-challenge.www=abc=def"] /\
  has_challenge_marker "_acme-challenge.www=abc=def" = true /\
  spec_challenge_value "_acme-challenge.www=abc=def" = "abc=def" /\
  _extract_txt_value "_acme-challenge.www=abc=def" = Some "abc".
Proof. repeat split; reflexivity. Qed.

(** C4, amended.  For every captured output in which no line carries the
    TXT-value marker: at the first line that contains [_acme-challenge] and
    an [=] and whose second [=]-separated field (the text after the first
    [=] up to the next [=] or the end of the line), trimmed and stripped of
    quotes, is not empty, [_extract_txt_value] returns that field; lines
    before it that match the heuristic with an empty field are passed
    over. *)
Theorem extract_second_field_value output before line after :
  PyStr.split PyStr.newline output = before ++ line :: after ->
  no_txt_marker output = true ->
  forallb (fun l => negb (has_challenge_marker l && PyStr.truthy (second_field_value l)))
          before = true ->
  has_challenge_marker line = true ->
  second_field_value line <> EmptyString ->
  _extract_txt_value output = Some (second_field_value line).
Proof.
  intros Hsplit Hno Hbefore Hmark Hne.
  rewrite (extract_unmarked _ Hno), Hsplit, (scan_challenge_skip _ _ Hbefore).
  simpl. rewrite challenge_value_spec, Hmark.
  apply truthy_nonempty in Hne. rewrite Hne. reflexivity.
Qed.

Lemma extract_second_field_value_witness :
  _extract_txt_value
    (String.append "_acme-challenge.a ="
       (String PyStr.newline "_acme-challenge.www = 'abc'=def"))
  = Some "abc".
Proof.
  apply (extract_second_field_value _ ["_acme-challenge.a ="]
           "_acme-challenge.www = 'abc'=def" []);
    [reflexivity | reflexivity | reflexivity | reflexivity | discriminate].
Defined.

(** C10.  For every captured output in which no line carries the TXT-value
    marker, [_extract_txt_value] returns either nothing or a string that
    is not empty; and a line that matches the [_acme-challenge] heuristic
    with an empty value is passed over: the result is the one the other
    lines give. *)
Theorem extract_never_empty output :
  no_txt_marker output = true ->
  (_extract_txt_value output = None \/
   exists v, _extract_txt_value output = Some v /\ v <> EmptyString) /\
  forall before line after,
    PyStr.split PyStr.newline output = before ++ line :: after ->
    has_challenge_marker line = true ->
    second_field_value line = EmptyString ->
    _extract_txt_value output = scan_challenge (before ++ after).
Proof.
  intros H. rewrite (extract_unmarked _ H). split.
  - destruct (scan_challenge _) as [v|] eqn:E; [right|left; reflexivity].
    exists v. split; [reflexivity|].
    apply truthy_nonempty. eapply scan_challenge_truthy; eassumption.
  - intros before line after -> Hmark Hempty.
    induction before as [|l ls IH]; cbn [app scan_challenge].
    + rewrite challenge_value_spec, Hmark, Hempty. reflexivity.
    + rewrite IH. reflexivity.
Qed.

Lemma extract_never_empty_witness :
  (_extract_txt_value (String.append "_acme-challenge.a = ''"
                         (String PyStr.newline "_acme-challenge.b=xyz")) = None \/
   exists v, _extract_txt_value (String.append "_acme-challenge.a = ''"
                         (String PyStr.newline "_acme-challenge.b=xyz")) = Some v
             /\ v <> EmptyString) /\
  _extract_txt_value (String.append "_acme-challenge.a = ''"
                        (String PyStr.newline "_acme-challenge.b=xyz"))
  = scan_challenge ["_acme-challenge.b=xyz"].
Proof.
  destruct (extract_never_empty
              (String.append "_acme-challenge.a = ''"
                 (String PyStr.newline "_acme-challenge.b=xyz")) eq_refl)
    as [Hvalue Hskip].
  split; [exact Hvalue|].
  apply (Hskip [] "_acme-challenge.a = ''" ["_acme-challenge.b=xyz"]); reflexivity.
Defined.

(** ** The calendar *)

Section Calendar.

Import PyDatetime.
Local Open Scope Z_scope.

Lemma month_day_check_all leap :
  forallb (fun k => month_day_check leap (Z.of_nat k)) (seq 0 365) = true.
Proof. destruct leap; vm_compute; reflexivity. Qed.

Lemma month_day_of_yday_ok leap n :
  0 <= n < 365 -> month_day_check leap n = true.
Proof.
  intros H. pose proof (month_day_check_all leap) as Hall.
  rewrite forallb_forall in Hall.
  specialize (Hall (Z.to_nat n)). rewrite Z2Nat.id in Hall by lia.
  apply Hall. apply in_seq. lia.
Qed.


Lemma year_decomp a b c e :
  0 <= a -> 0 <= b <= 3 -> 0 <= c <= 24 -> 0 <= e <= 3 ->
  days_before_year (400 * a + 100 * b + 4 * c + e + 1)
    = 146097 * a + 36524 * b + 1461 * c + 365 * e /\
  is_leap (400 * a + 100 * b + 4 * c + e + 1)
    = (e =? 3) && (negb (c =? 24) || (b =? 3)).
Proof.
  intros Ha Hb Hc He. split.
  - unfold days_before_year.
    replace (400 * a + 100 * b + 4 * c + e + 1 - 1) with (400 * a + 100 * b + 4 * c + e) by lia.
    assert ((400 * a + 100 * b + 4 * c + e) / 4 = 100 * a + 25 * b + c)
      by (symmetry; apply (Z.div_unique _ _ _ e); lia).
    assert ((400 * a + 100 * b + 4 * c + e) / 100 = 4 * a + b)
      by (symmetry; apply (Z.div_unique _ _ _ (4 * c + e)); lia).
    assert ((400 * a + 100 * b + 4 * c + e) / 400 = a)
      by (symmetry; apply (Z.div_unique _ _ _ (100 * b + 4 * c + e)); lia).
    lia.
  - unfold is_leap.
    assert (H4 : (400 * a + 100 * b + 4 * c + e + 1) mod 4 = (e + 1) mod 4).
    { replace (400 * a + 100 * b + 4 * c + e + 1)
        with (e + 1 + (100 * a + 25 * b + c) * 4) by lia.
      apply Z.mod_add. lia. }
    assert (H100 : (400 * a + 100 * b + 4 * c + e + 1) mod 100 = (4 * c + e + 1) mod 100).
    { replace (400 * a + 100 * b + 4 * c + e + 1)
        with (4 * c + e + 1 + (4 * a + b) * 100) by lia.
      apply Z.mod_add. lia. }
    assert (H400 : (400 * a + 100 * b + 4 * c + e + 1) mod 400
                   = (100 * b + 4 * c + e + 1) mod 400).
    { replace (400 * a + 100 * b + 4 * c + e + 1)
        with (100 * b + 4 * c + e + 1 + a * 400) by lia.
      apply Z.mod_add. lia. }
    rewrite H4, H100, H400.
    destruct (Z.eqb_spec e 3) as [->|He3].
    + change ((3 + 1) mod 4) with 0. simpl.
      destruct (Z.eqb_spec c 24) as [->|Hc24].
      * change ((4 * 24 + 3 + 1) mod 100) with 0. simpl.
        destruct (Z.eqb_spec b 3) as [->|Hb3]; [reflexivity|].
        apply Z.eqb_neq. rewrite Z.mod_small by lia. lia.
      * simpl. replace ((4 * c + 3 + 1) mod 100 =? 0) with false; [reflexivity|].
        symmetry. apply Z.eqb_neq. rewrite Z.mod_small by lia. lia.
    + replace ((e + 1) mod 4 =? 0) with false; [reflexivity|].
      symmetry. apply Z.eqb_neq. rewrite Z.mod_small by lia. lia.
Qed.

Lemma ord2ymd_spec ordinal :
  1 <= ordinal <= MAXORDINAL ->
  let '(y, m, d) := ord2ymd ordinal in
  ymd2ord y m d = ordinal /\ check_date_fields y m d = true.
Proof.
  intros Hord. unfold ord2ymd, MAXORDINAL, DI400Y, DI100Y, DI4Y in *.
  set (n := ordinal - 1).
  pose proof (Z.div_mod n 146097 ltac:(lia)) as E400.
  pose proof (Z.mod_pos_bound n 146097 ltac:(lia)) as B400.
  set (n400 := n / 146097) in *. set (r400 := n mod 146097) in *.
  pose proof (Z.div_mod r400 36524 ltac:(lia)) as E100.
  pose proof (Z.mod_pos_bound r400 36524 ltac:(lia)) as B100.
  set (n100 := r400 / 36524) in *. set (r100 := r400 mod 36524) in *.
  pose proof (Z.div_mod r100 1461 ltac:(lia)) as E4.
  pose proof (Z.mod_pos_bound r100 1461 ltac:(lia)) as B4.
  set (n4 := r100 / 1461) in *. set (r4 := r100 mod 1461) in *.
  pose proof (Z.div_mod r4 365 ltac:(lia)) as E1.
  pose proof (Z.mod_pos_bound r4 365 ltac:(lia)) as B1.
  set (n1 := r4 / 365) in *. set (r1 := r4 mod 365) in *.
  assert (Hn : n = ordinal - 1) by reflexivity.
  clearbody n n400 r400 n100 r100 n4 r4 n1 r1.
  assert (0 <= n400 <= 24) by lia.
  assert (0 <= n100 <= 4) by lia.
  assert (0 <= n4 <= 24) by lia.
  assert (0 <= n1 <= 4) by lia.
  destruct ((n1 =? 4) || (n100 =? 4)) eqn:Especial.
  - assert (Hdec : exists b c, 0 <= b <= 3 /\ 0 <= c <= 24 /\
               (negb (c =? 24) || (b =? 3)) = true /\
               n400 * 400 + 1 + n100 * 100 + n4 * 4 + n1 - 1
                 = 400 * n400 + 100 * b + 4 * c + 3 + 1 /\
               n = 146097 * n400 + 36524 * b + 1461 * c + 1460).
    { apply orb_true_iff in Especial as [E|E]; apply Z.eqb_eq in E.
      - exists n100, n4. assert (n4 <> 24) by lia. assert (n100 <= 3) by lia.
        repeat split; try lia.
      - exists 3, 24. repeat split; try lia. }
    destruct Hdec as (b & c & Hb & Hc & Hleap & -> & Hn').
    destruct (year_decomp n400 b c 3 ltac:(lia) Hb Hc ltac:(lia)) as [Hdby Hl].
    rewrite Hleap in Hl. simpl in Hl.
    unfold ymd2ord, check_date_fields, days_before_month, days_in_month, MINYEAR, MAXYEAR.
    rewrite Hdby, Hl. simpl. split; [lia|].
    repeat (apply andb_true_iff; split); apply Z.leb_le; lia.
  - apply orb_false_iff in Especial as [E1' E100'].
    apply Z.eqb_neq in E1'. apply Z.eqb_neq in E100'.
    pose proof (month_day_of_yday_ok
                  ((n1 =? 3) && (negb (n4 =? 24) || (n100 =? 3))) r1 ltac:(lia)) as Hmd.
    unfold month_day_check in Hmd.
    destruct (month_day_of_yday _ r1) as [m d].
    destruct (year_decomp n400 n100 n4 n1 ltac:(lia) ltac:(lia) ltac:(lia) ltac:(lia))
      as [Hdby Hl].
    replace (n400 * 400 + 1 + n100 * 100 + n4 * 4 + n1)
      with (400 * n400 + 100 * n100 + 4 * n4 + n1 + 1) by lia.
    apply andb_true_iff in Hmd as [Hmd Hsum].
    apply andb_true_iff in Hmd as [Hmd Hdmax].
    apply andb_true_iff in Hmd as [Hmd Hdmin].
    apply andb_true_iff in Hmd as [Hmmin Hmmax].
    unfold ymd2ord, check_date_fields, days_before_month, days_in_month, MINYEAR, MAXYEAR.
    rewrite Hdby, Hl.
    apply Z.eqb_eq in Hsum. apply Z.leb_le in Hdmax.
    split; [lia|].
    repeat (apply andb_true_iff; split); try assumption; try (apply Z.leb_le; lia).
    apply Z.leb_le.
    destruct ((m =? 2) && ((n1 =? 3) && (negb (n4 =? 24) || (n100 =? 3)))) eqn:Em.
    + apply andb_true_iff in Em as [Em _]. apply Z.eqb_eq in Em. subst m.
      simpl in Hdmax. lia.
    + lia.
Qed.

Lemma append_cons c s t : String c s +:+ t = String c (s +:+ t).
Proof. reflexivity. Qed.

Lemma append_empty_l s : EmptyString +:+ s = s.
Proof. reflexivity. Qed.

Lemma append_empty_r s : s +:+ EmptyString = s.
Proof. induction s as [|c s IH]; [reflexivity|]. rewrite append_cons, IH. reflexivity. Qed.

Lemma digit_value_digit_char v :
  0 <= v < 10 -> digit_value (digit_char v) = Some v.
Proof.
  intros H.
  assert (Hv : v = 0 \/ v = 1 \/ v = 2 \/ v = 3 \/ v = 4 \/ v = 5 \/ v = 6 \/ v = 7
               \/ v = 8 \/ v = 9) by lia.
  repeat (destruct Hv as [->|Hv]; [reflexivity|]). subst v. reflexivity.
Qed.

Lemma parse_digits_acc_fmt w : forall acc n rest,
  0 <= n ->
  parse_digits_acc w acc (fmt_digits w n +:+ rest)
  = Some (acc * 10 ^ Z.of_nat w + n mod 10 ^ Z.of_nat w, rest).
Proof.
  induction w as [|w IH]; intros acc n rest Hn.
  - simpl. rewrite Z.mod_1_r. f_equal. f_equal. lia.
  - cbn [fmt_digits parse_digits_acc]. rewrite append_cons.
    rewrite digit_value_digit_char by (apply Z.mod_pos_bound; lia).
    rewrite IH by assumption. f_equal. f_equal.
    rewrite Nat2Z.inj_succ, Z.pow_succ_r by lia.
    assert (Hp : 0 < 10 ^ Z.of_nat w) by (apply Z.pow_pos_nonneg; lia).
    rewrite (Z.mul_comm 10 (10 ^ Z.of_nat w)).
    rewrite Z.rem_mul_r by lia. lia.
Qed.

Lemma parse_digits_fmt w n rest :
  0 <= n < 10 ^ Z.of_nat w ->
  parse_digits w (fmt_digits w n +:+ rest) = Some (n, rest).
Proof.
  intros H. unfold parse_digits. rewrite parse_digits_acc_fmt by lia.
  rewrite Z.mod_small by lia. reflexivity.
Qed.


Lemma days_in_month_le_31 y m : days_in_month y m <= 31.
Proof.
  unfold days_in_month. destruct ((m =? 2) && is_leap y); [lia|].
  unfold DAYS_IN_MONTH.
  destruct m as [|p|p]; try lia.
  do 4 (destruct p as [p|p|]; try lia).
Qed.

Lemma all_chars_app P s t :
  all_chars P (s +:+ t) = all_chars P s && all_chars P t.
Proof.
  induction s as [|c s IH]; [reflexivity|].
  rewrite append_cons. cbn [all_chars]. rewrite IH, andb_assoc. reflexivity.
Qed.

Lemma is_digit_digit_char v : is_digit (digit_char (v mod 10)) = true.
Proof.
  unfold is_digit. rewrite digit_value_digit_char by (apply Z.mod_pos_bound; lia).
  reflexivity.
Qed.

Lemma all_chars_fmt_digits P w n :
  (forall c, is_digit c = true -> P c = true) ->
  all_chars P (fmt_digits w n) = true.
Proof.
  intros HP. induction w as [|w IH]; [reflexivity|].
  cbn [fmt_digits all_chars]. rewrite IH, HP by apply is_digit_digit_char. reflexivity.
Qed.

Lemma length_fmt_digits w n : String.length (fmt_digits w n) = w.
Proof. induction w as [|w IH]; [reflexivity|]. cbn [fmt_digits String.length]. now rewrite IH. Qed.

Lemma string_length_app s t : String.length (s +:+ t) = (String.length s + String.length t)%nat.
Proof.
  induction s as [|c s IH]; [reflexivity|].
  rewrite append_cons. cbn [String.length]. now rewrite IH.
Qed.

Lemma iso_char_low c : iso_char c = true -> (nat_of_ascii c <? 128)%nat = true.
Proof. destruct c as [[] [] [] [] [] [] [] []]; vm_compute; congruence. Qed.

Lemma time_char_no_tz c : time_char c = true -> is_tz_char c = false.
Proof. destruct c as [[] [] [] [] [] [] [] []]; vm_compute; congruence. Qed.

Lemma is_digit_not_W c : is_digit c = true -> Ascii.eqb c "W" = false.
Proof. destruct c as [[] [] [] [] [] [] [] []]; vm_compute; congruence. Qed.

Lemma find_separator_calendar s :
  String.length s <> 7%nat ->
  peek (skip 4 s) = "-"%char ->
  is_digit (peek (skip 5 s)) = true ->
  find_isoformat_datetime_separator s = Some 10%nat.
Proof.
  intros Hlen H4 H5. unfold find_isoformat_datetime_separator.
  apply Nat.eqb_neq in Hlen. rewrite Hlen, H4, (is_digit_not_W _ H5). reflexivity.
Qed.

Lemma utf8_iso_chars s : all_chars iso_char s = true -> utf8 s = s.
Proof.
  induction s as [|c s IH]; [reflexivity|].
  cbn [all_chars utf8]. intros [Hc Hs]%andb_true_iff.
  rewrite (iso_char_low c Hc), IH by assumption. reflexivity.
Qed.

Lemma find_tzinfo_time_chars s :
  all_chars time_char s = true -> find_tzinfo s = String.length s.
Proof.
  induction s as [|c s IH]; [reflexivity|].
  cbn [all_chars find_tzinfo String.length]. intros [Hc Hs]%andb_true_iff.
  rewrite (time_char_no_tz c Hc), IH by assumption. reflexivity.
Qed.

Lemma skip_length_app s t : skip (String.length s) (s +:+ t) = t.
Proof. induction s as [|c s IH]; [reflexivity|]. exact IH. Qed.

Lemma skip_length s : skip (String.length s) s = EmptyString.
Proof. rewrite <- (append_empty_r s) at 2. apply skip_length_app. Qed.

Lemma skip_add n k s : skip (n + k) s = skip k (skip n s).
Proof. revert s. induction n as [|n IH]; intros s; [reflexivity|]. apply IH. Qed.

Lemma skip_fmt_digits w k n rest :
  skip (w + k) (fmt_digits w n +:+ rest) = skip k rest.
Proof.
  rewrite skip_add. rewrite <- (length_fmt_digits w n) at 1.
  now rewrite skip_length_app.
Qed.

Lemma peek_fmt_digits w n rest :
  is_digit (peek (fmt_digits (S w) n +:+ rest)) = true.
Proof. cbn [fmt_digits]. rewrite append_cons. apply is_digit_digit_char. Qed.

Lemma isoformat_time_chars hh mi ss us :
  all_chars time_char (isoformat_time hh mi ss us) = true.
Proof.
  assert (Hd : forall c, is_digit c = true -> time_char c = true)
    by (intros c Hc; unfold time_char; now rewrite Hc).
  unfold isoformat_time.
  rewrite !all_chars_app, !(all_chars_fmt_digits time_char _ _ Hd).
  destruct (us =? 0); [reflexivity|].
  rewrite all_chars_app, (all_chars_fmt_digits time_char _ _ Hd). reflexivity.
Qed.

Lemma isoformat_time_length hh mi ss us :
  String.length (isoformat_time hh mi ss us) = if us =? 0 then 8%nat else 15%nat.
Proof.
  unfold isoformat_time. rewrite !string_length_app, !length_fmt_digits.
  destruct (us =? 0); [reflexivity|].
  rewrite string_length_app, length_fmt_digits. reflexivity.
Qed.

Lemma isoformat_time_chars_iso hh mi ss us :
  all_chars iso_char (isoformat_time hh mi ss us) = true.
Proof.
  assert (Hd : forall c, is_digit c = true -> iso_char c = true)
    by (intros c Hc; unfold iso_char; now rewrite Hc).
  unfold isoformat_time.
  rewrite !all_chars_app, !(all_chars_fmt_digits iso_char _ _ Hd).
  destruct (us =? 0); [reflexivity|].
  rewrite all_chars_app, (all_chars_fmt_digits iso_char _ _ Hd). reflexivity.
Qed.

Lemma isoformat_split d :
  isoformat d
  = fmt_digits 4 (year d) +:+ "-" +:+ fmt_digits 2 (month d) +:+ "-" +:+
    fmt_digits 2 (day d) +:+ "T" +:+
    isoformat_time (hour d) (minute d) (second d) (microsecond d).
Proof. reflexivity. Qed.

(** The time of day that [isoformat] writes is read back. *)
Lemma parse_isoformat_time_isoformat hh mi ss us :
  0 <= hh <= 23 -> 0 <= mi <= 59 -> 0 <= ss <= 59 -> 0 <= us <= 999999 ->
  parse_isoformat_time (isoformat_time hh mi ss us) = Some (hh, mi, ss, us, None).
Proof.
  intros Hhh Hmi Hss Hus. unfold parse_isoformat_time.
  rewrite (find_tzinfo_time_chars _ (isoformat_time_chars hh mi ss us)).
  cbv zeta. rewrite skip_length, isoformat_time_length.
  unfold isoformat_time, parse_hh_mm_ss_ff.
  cbn [hh_mm_ss_loop].
  rewrite parse_digits_fmt by (change (10 ^ Z.of_nat 2) with 100; lia).
  rewrite append_cons, append_empty_l.
  cbn [peek advance Nat.eqb set_field Ascii.eqb Bool.eqb andb orb negb].
  destruct (Z.eqb_spec us 0) as [->|Hne].
  - change (Z.of_nat 8 - 3 <=? 0) with false. cbn match.
    rewrite parse_digits_fmt by (change (10 ^ Z.of_nat 2) with 100; lia).
    rewrite append_cons, append_empty_l.
    cbn [peek advance Nat.eqb set_field Ascii.eqb Bool.eqb andb orb negb].
    change (Z.of_nat 8 - 3 - 3 <=? 0) with false. cbn match.
    rewrite parse_digits_fmt by (change (10 ^ Z.of_nat 2) with 100; lia).
    reflexivity.
  - change (Z.of_nat 15 - 3 <=? 0) with false. cbn match.
    rewrite parse_digits_fmt by (change (10 ^ Z.of_nat 2) with 100; lia).
    rewrite append_cons, append_empty_l.
    cbn [peek advance Nat.eqb set_field Ascii.eqb Bool.eqb andb orb negb].
    change (Z.of_nat 15 - 3 - 3 <=? 0) with false. cbn match.
    rewrite parse_digits_fmt by (change (10 ^ Z.of_nat 2) with 100; lia).
    rewrite append_cons, append_empty_l.
    cbn [peek advance Nat.eqb set_field Ascii.eqb Bool.eqb andb orb negb].
    change (Z.of_nat 15 - 3 - 3 - 3 <=? 0) with false. cbn match.
    unfold parse_fraction.
    change (Z.to_nat (Z.min (Z.of_nat 15 - 3 - 3 - 3) 6)) with 6%nat.
    rewrite <- (append_empty_r (fmt_digits 6 us)).
    rewrite parse_digits_fmt by (change (10 ^ Z.of_nat 6) with 1000000; lia).
    reflexivity.
Qed.

(** What [isoformat] writes for a valid naive value, [fromisoformat] reads
    back. *)
Lemma fromisoformat_isoformat d :
  valid_datetime d = true -> utcoffset d = None ->
  fromisoformat (isoformat d) = Some d.
Proof.
  destruct d as [y m dd hh mi ss us off].
  unfold valid_datetime; cbn [year month day hour minute second microsecond utcoffset].
  intros Hv ->.
  assert (Hkeep : id (check_date_fields y m dd && check_time_fields hh mi ss us = true))
    by exact Hv.
  apply andb_true_iff in Hv as [Hd Ht].
  unfold check_date_fields, check_time_fields, MINYEAR, MAXYEAR in Hd, Ht.
  repeat match goal with
         | H : _ && _ = true |- _ => apply andb_true_iff in H as [? ?]
         | H : (_ <=? _) = true |- _ => apply Z.leb_le in H
         end.
  pose proof (days_in_month_le_31 y m).
  unfold id in Hkeep.
  assert (Hdig : forall c, is_digit c = true -> iso_char c = true)
    by (intros c Hc; unfold iso_char; now rewrite Hc).
  unfold fromisoformat. rewrite isoformat_split;
    cbn [year month day hour minute second microsecond utcoffset].
  rewrite utf8_iso_chars
    by (rewrite !all_chars_app, !(all_chars_fmt_digits iso_char _ _ Hdig),
          isoformat_time_chars_iso; reflexivity).
  set (time := isoformat_time hh mi ss us).
  assert (Hlen : String.length
                   (fmt_digits 4 y +:+ "-" +:+ fmt_digits 2 m +:+ "-" +:+
                    fmt_digits 2 dd +:+ "T" +:+ time)
                 = (11 + String.length time)%nat).
  { rewrite !string_length_app, !length_fmt_digits. reflexivity. }
  rewrite Hlen.
  replace (11 + String.length time <? 7)%nat with false
    by (symmetry; apply Nat.ltb_ge; lia).
  (* the separator *)
  rewrite (find_separator_calendar _); cycle 1.
  - rewrite Hlen. lia.
  - exact (f_equal peek (skip_fmt_digits 4 0 y _)).
  - change 5%nat with (4 + 1)%nat. rewrite skip_fmt_digits.
    change (is_digit (peek (fmt_digits 2 m +:+ "-" +:+ fmt_digits 2 dd +:+ "T" +:+ time)) = true).
    apply peek_fmt_digits.
  - replace (10 <? 11 + String.length time)%nat with true
      by (symmetry; apply Nat.ltb_lt; lia).
    assert (Hskip : skip 10 (fmt_digits 4 y +:+ "-" +:+ fmt_digits 2 m +:+ "-" +:+
                             fmt_digits 2 dd +:+ "T" +:+ time) = String "T" time).
    { change 10%nat with (4 + 6)%nat. rewrite skip_fmt_digits.
      change (skip (2 + 3) (fmt_digits 2 m +:+ "-" +:+ fmt_digits 2 dd +:+ "T" +:+ time)
              = String "T" time).
      rewrite skip_fmt_digits.
      change (skip (2 + 0) (fmt_digits 2 dd +:+ "T" +:+ time) = String "T" time).
      rewrite skip_fmt_digits. reflexivity. }
    cbv zeta. rewrite Hskip. cbn [peek]. change (utf8_width "T") with 1%nat.
    cbn [skip advance].
    subst time. rewrite parse_isoformat_time_isoformat by lia.
    (* the date *)
    unfold parse_isoformat_date.
    rewrite parse_digits_fmt by (change (10 ^ Z.of_nat 4) with 10000; lia).
    rewrite append_cons, append_empty_l.
    cbn [peek advance Ascii.eqb Bool.eqb].
    rewrite is_digit_not_W by apply peek_fmt_digits.
    rewrite parse_digits_fmt by (change (10 ^ Z.of_nat 2) with 100; lia).
    rewrite append_cons, append_empty_l; cbn [expect Ascii.eqb Bool.eqb].
    rewrite parse_digits_fmt by (change (10 ^ Z.of_nat 2) with 100; lia).
    rewrite Hkeep. reflexivity.
Qed.

Lemma new_timedelta_normal d s us :
  0 <= s < 86400 -> 0 <= us < 1000000 ->
  new_timedelta d s us = mk_timedelta d s us.
Proof.
  intros Hs Hus. unfold new_timedelta.
  rewrite (Z.div_small us), (Z.mod_small us) by lia.
  rewrite Z.add_0_r, (Z.div_small s), (Z.mod_small s) by lia.
  f_equal. lia.
Qed.

Lemma valid_time_bounds d :
  valid_datetime d = true ->
  0 <= hour d <= 23 /\ 0 <= minute d <= 59 /\ 0 <= second d <= 59 /\
  0 <= microsecond d <= 999999.
Proof.
  unfold valid_datetime, check_time_fields. intros H.
  apply andb_true_iff in H as [_ H].
  repeat match goal with
         | H : _ && _ = true |- _ => apply andb_true_iff in H as [? ?]
         | H : (_ <=? _) = true |- _ => apply Z.leb_le in H
         end.
  lia.
Qed.

Lemma valid_date_fields d :
  valid_datetime d = true -> check_date_fields (year d) (month d) (day d) = true.
Proof. unfold valid_datetime. intros H. apply andb_true_iff in H as [H _]. exact H. Qed.

(** Adding whole days moves a valid value along the time line by that many
    days, as long as the result stays within the supported years. *)
Lemma datetime_add_days d k :
  valid_datetime d = true ->
  1 <= toordinal d + k <= MAXORDINAL ->
  exists r, datetime_add d (new_timedelta k 0 0) = Some r /\
            valid_datetime r = true /\ utcoffset r = utcoffset d /\
            timestamp r = timestamp d + k * DAY_US.
Proof.
  intros Hv Hord. pose proof (valid_time_bounds d Hv) as (Hh & Hm & Hs & Hus).
  unfold datetime_add.
  rewrite (new_timedelta_normal k 0 0) by lia.
  rewrite (new_timedelta_normal (toordinal d)) by lia.
  unfold timedelta_add. cbn [days seconds microseconds].
  rewrite !Z.add_0_r.
  rewrite new_timedelta_normal by lia. cbn [days seconds microseconds].
  assert (Hlt : (0 <? toordinal d + k) && (toordinal d + k <=? MAXORDINAL) = true).
  { apply andb_true_iff. split; [apply Z.ltb_lt | apply Z.leb_le]; lia. }
  rewrite Hlt.
  pose proof (ord2ymd_spec (toordinal d + k) Hord) as Hspec.
  destruct (ord2ymd (toordinal d + k)) as [[y m] dd].
  destruct Hspec as [Hback Hdate].
  assert (Ehh : (hour d * 3600 + minute d * 60 + second d) / 3600 = hour d)
    by (symmetry; apply (Z.div_unique _ _ _ (minute d * 60 + second d)); lia).
  assert (Erem : (hour d * 3600 + minute d * 60 + second d) mod 3600
                 = minute d * 60 + second d)
    by (symmetry; apply (Z.mod_unique _ _ (hour d)); lia).
  assert (Emm : (minute d * 60 + second d) / 60 = minute d)
    by (symmetry; apply (Z.div_unique _ _ _ (second d)); lia).
  assert (Ess : (minute d * 60 + second d) mod 60 = second d)
    by (symmetry; apply (Z.mod_unique _ _ (minute d)); lia).
  rewrite Ehh, Erem, Emm, Ess.
  eexists. split; [reflexivity|].
  unfold valid_datetime, timestamp, toordinal, DAY_US.
  cbn [year month day hour minute second microsecond utcoffset].
  rewrite Hdate, Hback.
  split; [|split; [reflexivity|unfold toordinal; lia]].
  unfold valid_datetime in Hv. apply andb_true_iff in Hv as [_ Ht]. exact Ht.
Qed.

(** The whole days between two naive values: the floor of the distance on
    the time line. *)
Lemma datetime_sub_days a b :
  utcoffset a = None -> utcoffset b = None ->
  exists delta, datetime_sub a b = Some delta /\
                days delta = (timestamp a - timestamp b) / DAY_US.
Proof.
  intros Ha Hb. unfold datetime_sub. rewrite Ha, Hb.
  eexists. split; [reflexivity|].
  unfold new_timedelta, timestamp, DAY_US. cbn [days].
  set (dd := toordinal a - toordinal b).
  set (ds := second a + minute a * 60 + hour a * 3600
             - (second b + minute b * 60 + hour b * 3600)).
  set (du := microsecond a - microsecond b).
  replace ((((toordinal a - 1) * 24 + hour a) * 60 + minute a) * 60 * 1000000
           + second a * 1000000 + microsecond a
           - ((((toordinal b - 1) * 24 + hour b) * 60 + minute b) * 60 * 1000000
              + second b * 1000000 + microsecond b))
    with (du + (dd * 86400 + ds) * 1000000) by (unfold dd, ds, du; lia).
  rewrite (Z.mul_comm 86400 1000000), <- Z.div_div by lia.
  rewrite Z.div_add by lia.
  replace (du / 1000000 + (dd * 86400 + ds)) with (ds + du / 1000000 + dd * 86400) by lia.
  rewrite Z.div_add by lia. lia.
Qed.

End Calendar.

(** ** The renewal check *)

Section RenewalCheck.

Local Open Scope Z_scope.

Lemma check_cert_expiry_iff cfg env d w :
  exists b w', check_cert_expiry cfg env d w = (Ok b, w') /\
               (b = true <-> renewal_condition cfg env d w).
Proof.
  unfold check_cert_expiry, renewal_condition, days_until, clock, bind, gets.
  destruct (cert_records w !! d) as [record|] eqn:Hrec.
  2:{ eexists _, _. split; [reflexivity|]. split; auto. }
  destruct (pyval_truthy (py_get record "expiry_date")) eqn:Htruthy; simpl.
  2:{ eexists _, _. split; [reflexivity|]. split; [|reflexivity].
      intros _. right. exists record. split; [reflexivity|]. left. assumption. }
  unfold try_except, bind, lift, datetime_now, extern, log, ret; simpl.
  destruct (fromisoformat_value (py_get record "expiry_date")) as [e|exc] eqn:Hparse; simpl.
  2:{ eexists _, _. split; [reflexivity|]. split; [|reflexivity].
      intros _. right. exists record. split; [reflexivity|]. right. left.
      rewrite Hparse. reflexivity. }
  unfold datetime_sub_result.
  destruct (PyDatetime.datetime_sub e (PyDatetime.naive (env_now env (calls w))))
    as [delta|] eqn:Hsub; simpl.
  2:{ eexists _, _. split; [reflexivity|]. split; [|reflexivity].
      intros _. right. exists record. split; [reflexivity|]. right. left.
      rewrite Hparse, Hsub. reflexivity. }
  destruct (PyDatetime.days delta <=? threshold_days cfg) eqn:Hle; simpl.
  - eexists _, _. split; [reflexivity|]. split; [|reflexivity].
    intros _. right. exists record. split; [reflexivity|]. right. right.
    exists (PyDatetime.days delta). rewrite Hparse, Hsub.
    split; [reflexivity|]. apply Z.leb_le. exact Hle.
  - eexists _, _. split; [reflexivity|]. split; [discriminate|].
    intros [Hnone|(r & Hr & Hcases)]; [discriminate|].
    injection Hr as <-. rewrite Hparse, Hsub in Hcases.
    destruct Hcases as [Hf|[Hn|(k & Hk & Hkle)]]; try congruence.
    injection Hk as <-. apply Z.leb_gt in Hle. lia.
Qed.

End RenewalCheck.

(** ** Running a computation step by step *)

Section Steps.

Context {A B : Type}.

Lemma bind_ret (a : A) (k : A -> M B) w : bind (ret a) k w = k a w.
Proof. reflexivity. Qed.

Lemma bind_log lvl msg (k : unit -> M B) w :
  bind (log lvl msg) k w = k tt (logged w lvl msg).
Proof. reflexivity. Qed.

Lemma bind_gets (g : World -> A) (k : A -> M B) w : bind (gets g) k w = k (g w) w.
Proof. reflexivity. Qed.

Lemma bind_extern c (answer : list Call -> Result A) (k : A -> M B) w :
  bind (extern c answer) k w =
  match answer (calls w) with
  | Ok a => k a (called w c)
  | Raise e => (Raise e, called w c)
  end.
Proof. unfold bind, extern. destruct (answer (calls w)); reflexivity. Qed.

Lemma bind_lift (r : Result A) (k : A -> M B) w :
  bind (lift r) k w = match r with Ok a => k a w | Raise e => (Raise e, w) end.
Proof. unfold bind, lift. destruct r; reflexivity. Qed.

Lemma bind_bind {C} (m : M A) (k : A -> M B) (h : B -> M C) w :
  bind (bind m k) h w = bind m (fun a => bind (k a) h) w.
Proof. unfold bind. destruct (m w) as [[a|e] w1]; reflexivity. Qed.

End Steps.

Lemma log_logged lvl msg w : log lvl msg w = (Ok tt, logged w lvl msg).
Proof. reflexivity. Qed.

Lemma starts_logged w lvl msg : starts (logged w lvl msg) = starts w ++ start_of (lvl, msg).
Proof.
  unfold starts, logged. cbn [logs]. rewrite flat_map_app. cbn.
  rewrite app_nil_r. reflexivity.
Qed.

Lemma starts_called w c : starts (called w c) = starts w.
Proof. reflexivity. Qed.

Lemma logs_logged w lvl msg : logs (logged w lvl msg) = logs w ++ [(lvl, msg)].
Proof. reflexivity. Qed.

Lemma runs_called w c : runs (called w c) = runs w ++ run_of c.
Proof.
  unfold runs, called. cbn [calls]. rewrite flat_map_app. cbn.
  rewrite app_nil_r. reflexivity.
Qed.

Lemma runs_logged w lvl msg : runs (logged w lvl msg) = runs w.
Proof. reflexivity. Qed.

Lemma try_except_run {A} (body : M A) (handler : exn -> M A) w :
  try_except body handler w =
  match body w with
  | (Ok a, w') => (Ok a, w')
  | (Raise e, w') => handler e w'
  end.
Proof. reflexivity. Qed.

Section Frame.

Context {X : Type} (f : World -> X).

Lemma preserves_ret {A} (a : A) : preserves f (ret a).
Proof. intros w. reflexivity. Qed.

Lemma preserves_raise {A} e : preserves f (@raise A e).
Proof. intros w. reflexivity. Qed.

Lemma preserves_lift {A} (r : Result A) : preserves f (lift r).
Proof. intros w. reflexivity. Qed.

Lemma preserves_gets {A} (g : World -> A) : preserves f (gets g).
Proof. intros w. reflexivity. Qed.

Lemma preserves_bind {A B} (m : M A) (k : A -> M B) :
  preserves f m -> (forall a, preserves f (k a)) -> preserves f (bind m k).
Proof.
  intros Hm Hk w. unfold bind. specialize (Hm w).
  destruct (m w) as [[a|e] w1]; simpl in *; [|exact Hm].
  rewrite Hk. exact Hm.
Qed.

Lemma preserves_try_except {A} (body : M A) (handler : exn -> M A) :
  preserves f body -> (forall e, preserves f (handler e)) ->
  preserves f (try_except body handler).
Proof.
  intros Hm Hk w. unfold try_except. specialize (Hm w).
  destruct (body w) as [[a|e] w1]; simpl in *; [exact Hm|].
  rewrite Hk. exact Hm.
Qed.

End Frame.

Lemma store_log lvl msg : preserves store (log lvl msg).
Proof. intros w. reflexivity. Qed.

Lemma store_extern {A} c (answer : list Call -> Result A) : preserves store (extern c answer).
Proof. intros w. reflexivity. Qed.

Lemma runs_log lvl msg : preserves runs (log lvl msg).
Proof. intros w. reflexivity. Qed.

Lemma runs_extern {A} c (answer : list Call -> Result A) :
  run_of c = [] -> preserves runs (extern c answer).
Proof.
  intros Hc w. unfold runs, extern. simpl.
  rewrite flat_map_app. simpl. rewrite Hc. rewrite !app_nil_r. reflexivity.
Qed.

Lemma runs_set_cert_records r : preserves runs (set_cert_records r).
Proof. intros w. reflexivity. Qed.

Lemma runs_set_cert_file r : preserves runs (set_cert_file r).
Proof. intros w. reflexivity. Qed.

Lemma starts_log lvl msg : start_of (lvl, msg) = [] -> preserves starts (log lvl msg).
Proof.
  intros Hc w. unfold starts, log. simpl.
  rewrite flat_map_app. simpl. rewrite Hc. rewrite !app_nil_r. reflexivity.
Qed.

Lemma starts_extern {A} c (answer : list Call -> Result A) : preserves starts (extern c answer).
Proof. intros w. reflexivity. Qed.

Lemma starts_set_cert_records r : preserves starts (set_cert_records r).
Proof. intros w. reflexivity. Qed.

Lemma starts_set_cert_file r : preserves starts (set_cert_file r).
Proof. intros w. reflexivity. Qed.

Create HintDb frame.
#[export] Hint Resolve preserves_ret preserves_raise preserves_lift preserves_gets
  store_log store_extern runs_log runs_set_cert_records runs_set_cert_file
  starts_extern starts_set_cert_records starts_set_cert_file : frame.

Ltac frame_step :=
  first
    [ progress intros
    | solve [auto with frame nocore]
    | apply preserves_bind
    | apply preserves_try_except
    | apply runs_extern; reflexivity
    | apply starts_log; reflexivity
    | match goal with
      | |- preserves _ (match ?x with _ => _ end) => destruct x
      end ].

Ltac frame := repeat frame_step.

Section Frames.

Variable cfg : Config.
Variable env : Env.

(** The record store is touched by [update_cert_record] only. *)
Lemma store_check_cert_expiry d : preserves store (check_cert_expiry cfg env d).
Proof. unfold_methods. frame. Qed.

Lemma store_check_certificate_exists d :
  preserves store (check_certificate_exists cfg env d).
Proof. unfold_methods. frame. Qed.

Lemma store_issue_certificate d force :
  preserves store (issue_certificate cfg env d force).
Proof. unfold_methods. frame. Qed.

Lemma store_upload_cert_to_qiniu d : preserves store (upload_cert_to_qiniu cfg env d).
Proof. unfold_methods. frame. Qed.

(** acme.sh is run by [issue_certificate] only. *)
Lemma runs_check_cert_expiry d : preserves runs (check_cert_expiry cfg env d).
Proof. unfold_methods. frame. Qed.

Lemma runs_check_certificate_exists d :
  preserves runs (check_certificate_exists cfg env d).
Proof. unfold_methods. frame. Qed.

Lemma runs_publish_and_record d : preserves runs (publish_and_record cfg env d).
Proof. unfold_methods. frame. Qed.

(** [process_domain] announces its domain once, and nothing below it
    announces any. *)
Lemma process_domain_starts d w :
  starts (snd (process_domain cfg env d w)) = starts w ++ [d].
Proof.
  unfold process_domain. rewrite !bind_log.
  match goal with
  | |- starts (snd (?m ?w0)) = _ =>
      assert (Hrest : preserves starts m) by (unfold_methods; frame);
      rewrite (Hrest w0)
  end.
  rewrite !starts_logged. cbn [start_of snd]. rewrite !app_nil_r. reflexivity.
Qed.

End Frames.

(** ** The tally of [run] *)

Section Tally.

Variable cfg : Config.
Variable env : Env.

(** One turn of the loop of [run]: the domain is counted once, as a
    success when [process_domain] returns true and as a failure when it
    returns false or raises, and the loop goes on with the next domain. *)
Lemma run_loop_cons d rest s f w :
  run_loop cfg env (d :: rest) s f w =
  match process_domain cfg env d w with
  | (Ok true, w1) => run_loop cfg env rest (S s) f w1
  | (Ok false, w1) => run_loop cfg env rest s (S f) w1
  | (Raise e, w1) =>
      run_loop cfg env rest s (S f) (logged w1 ERROR (MsgDomainException d e))
  end.
Proof.
  cbn [run_loop]. unfold bind at 1, try_except, bind at 1.
  destruct (process_domain cfg env d w) as [[[|]|e] w1]; reflexivity.
Qed.

Lemma run_loop_tally todo : forall s f w,
  exists s' f' w',
    run_loop cfg env todo s f w = (Ok (s', f'), w') /\
    s' + f' = s + f + length todo /\
    starts w' = starts w ++ todo.
Proof.
  induction todo as [|d rest IH]; intros s f w.
  - exists s, f, w. cbn. rewrite app_nil_r. split; [reflexivity|]. split; [lia|reflexivity].
  - rewrite run_loop_cons.
    pose proof (process_domain_starts cfg env d w) as Hst.
    destruct (process_domain cfg env d w) as [[[|]|e] w1]; simpl in Hst.
    + destruct (IH (S s) f w1) as (s' & f' & w' & -> & Hsum & Hstarts).
      exists s', f', w'. rewrite Hstarts, Hst, <- app_assoc. cbn [length].
      split; [reflexivity|]. split; [lia|reflexivity].
    + destruct (IH s (S f) w1) as (s' & f' & w' & -> & Hsum & Hstarts).
      exists s', f', w'. rewrite Hstarts, Hst, <- app_assoc. cbn [length].
      split; [reflexivity|]. split; [lia|reflexivity].
    + destruct (IH s (S f) (logged w1 ERROR (MsgDomainException d e)))
        as (s' & f' & w' & -> & Hsum & Hstarts).
      exists s', f', w'. rewrite Hstarts.
      rewrite starts_logged, Hst. cbn [start_of snd]. rewrite app_nil_r, <- app_assoc.
      cbn [length].
      split; [reflexivity|]. split; [lia|reflexivity].
Qed.

(** C9.  [run] always completes.  With no domain configured it logs no
    tally.  Otherwise the two counters it logs add up to the number of
    configured domains, every configured domain was taken up, once and in
    order, and each turn of the loop counts its domain as a success when
    [process_domain] returns true and as a failure both when it returns
    false and when it raises; the loop goes on with the remaining domains
    in each case. *)
Theorem run_counts_every_domain w :
  (exists tally w',
     run cfg env w = (Ok tally, w') /\
     match tally with
     | None => domains cfg = []
     | Some (success_count, fail_count) =>
         success_count + fail_count = length (domains cfg) /\
         starts w' = starts w ++ domains cfg /\
         exists before,
           logs w' = before ++ [(INFO, MsgSuccessCount success_count);
                                (INFO, MsgFailCount fail_count);
                                (INFO, MsgBanner)]
     end) /\
  (forall d rest s f w0,
     run_loop cfg env (d :: rest) s f w0 =
     match process_domain cfg env d w0 with
     | (Ok true, w1) => run_loop cfg env rest (S s) f w1
     | (Ok false, w1) => run_loop cfg env rest s (S f) w1
     | (Raise e, w1) =>
         run_loop cfg env rest s (S f) (logged w1 ERROR (MsgDomainException d e))
     end).
Proof.
  split; [|intros; apply run_loop_cons].
  unfold run, datetime_now.
  rewrite !bind_log, bind_extern, !bind_log.
  destruct (domains cfg) as [|d0 rest] eqn:Hdom.
  - rewrite bind_log. eexists _, _. split; reflexivity.
  - match goal with
    | |- context [bind (run_loop cfg env ?todo 0 0) _ ?w0] =>
        destruct (run_loop_tally todo 0 0 w0) as (s' & f' & w' & Hloop & Hsum & Hstarts)
    end.
    unfold bind at 1. rewrite Hloop. rewrite !bind_log.
    eexists _, _. split; [reflexivity|]. cbn [fst snd length] in *.
    split; [lia|]. split.
    + rewrite !starts_logged, Hstarts.
      repeat (rewrite starts_logged || rewrite starts_called).
      cbn [start_of snd]. rewrite !app_nil_r. reflexivity.
    + exists (logs w' ++ [(INFO, MsgBanner); (INFO, MsgTaskDone)]).
      rewrite !logs_logged, <- !app_assoc. reflexivity.
Qed.

End Tally.

(** ** Frames of the orchestration *)

Section FalseKeeps.

Lemma false_keeps_ret b : false_keeps_store (ret b).
Proof. intros w w' [= _ <-]. reflexivity. Qed.

Lemma false_keeps_bind {A} (m : M A) (k : A -> M bool) :
  preserves store m -> (forall a, false_keeps_store (k a)) ->
  false_keeps_store (bind m k).
Proof.
  intros Hm Hk w w' H. unfold bind in H. specialize (Hm w).
  destruct (m w) as [[a|e] w1]; [|discriminate].
  simpl in Hm. rewrite <- Hm. eapply Hk. exact H.
Qed.

End FalseKeeps.

Section Grows.

Lemma grows_ret {A} (a : A) : grows (ret a).
Proof. intros w. exists []. rewrite app_nil_r. reflexivity. Qed.

Lemma grows_raise {A} e : grows (@raise A e).
Proof. intros w. exists []. rewrite app_nil_r. reflexivity. Qed.

Lemma grows_lift {A} (r : Result A) : grows (lift r).
Proof. intros w. exists []. rewrite app_nil_r. reflexivity. Qed.

Lemma grows_gets {A} (g : World -> A) : grows (gets g).
Proof. intros w. exists []. rewrite app_nil_r. reflexivity. Qed.

Lemma grows_log lvl msg : grows (log lvl msg).
Proof. intros w. exists []. rewrite app_nil_r. reflexivity. Qed.

Lemma grows_set_cert_records r : grows (set_cert_records r).
Proof. intros w. exists []. rewrite app_nil_r. reflexivity. Qed.

Lemma grows_set_cert_file r : grows (set_cert_file r).
Proof. intros w. exists []. rewrite app_nil_r. reflexivity. Qed.

Lemma grows_extern {A} c (answer : list Call -> Result A) : grows (extern c answer).
Proof. intros w. exists [c]. reflexivity. Qed.

Lemma grows_bind {A B} (m : M A) (k : A -> M B) :
  grows m -> (forall a, grows (k a)) -> grows (bind m k).
Proof.
  intros Hm Hk w. unfold bind. destruct (Hm w) as [more1 H1].
  destruct (m w) as [[a|e] w1]; simpl in *; [|eauto].
  destruct (Hk a w1) as [more2 H2]. exists (more1 ++ more2).
  rewrite H2, H1, app_assoc. reflexivity.
Qed.

Lemma grows_try_except {A} (body : M A) (handler : exn -> M A) :
  grows body -> (forall e, grows (handler e)) -> grows (try_except body handler).
Proof.
  intros Hm Hk w. unfold try_except. destruct (Hm w) as [more1 H1].
  destruct (body w) as [[a|e] w1]; simpl in *; [eauto|].
  destruct (Hk e w1) as [more2 H2]. exists (more1 ++ more2).
  rewrite H2, H1, app_assoc. reflexivity.
Qed.

Lemma runs_grow {A} (m : M A) w :
  grows m -> exists more, runs (snd (m w)) = runs w ++ more.
Proof.
  intros H. destruct (H w) as [more Hmore]. exists (flat_map run_of more).
  unfold runs. rewrite Hmore, flat_map_app. reflexivity.
Qed.

End Grows.

#[export] Hint Resolve grows_ret grows_raise grows_lift grows_gets grows_log
  grows_set_cert_records grows_set_cert_file grows_extern : frame.

Ltac grows_step :=
  first
    [ progress intros
    | solve [auto with frame nocore]
    | apply grows_bind
    | apply grows_try_except
    | match goal with
      | |- grows (match ?x with _ => _ end) => destruct x
      end ].

Ltac grows_tac := repeat grows_step.

Section Orchestration.

Variable cfg : Config.
Variable env : Env.

(** Building the command never raises and runs nothing. *)
Lemma issue_command_total d force w :
  exists cmd w1, issue_command cfg env d force w = (Ok cmd, w1) /\ runs w1 = runs w.
Proof.
  assert (Hruns : preserves runs (issue_command cfg env d force))
    by (unfold_methods; frame).
  specialize (Hruns w).
  unfold issue_command, check_certificate_exists, get_certificate_paths, path_exists in *.
  rewrite bind_log in *.
  repeat (rewrite bind_bind in * || rewrite bind_extern in * || rewrite bind_log in *
          || rewrite bind_ret in * ||
          match goal with
          | |- context [if ?b then _ else _] => destruct b
          end); eexists _, _; (split; [reflexivity|exact Hruns]).
Qed.

Lemma grows_publish_and_record d : grows (publish_and_record cfg env d).
Proof. unfold_methods. grows_tac. Qed.

(** Issuance always starts acme.sh: the first thing it adds to the history
    of runs is the command it built. *)
Lemma issue_certificate_runs d force w :
  exists cmd w1 more,
    issue_command cfg env d force w = (Ok cmd, w1) /\
    runs (snd (issue_certificate cfg env d force w)) = runs w ++ cmd :: more.
Proof.
  unfold issue_certificate.
  destruct (issue_command_total d force w) as (cmd & w1 & Hcmd & Hruns).
  unfold bind at 1. rewrite Hcmd. exists cmd, w1.
  unfold issue_attempt, run_subprocess.
  rewrite try_except_run, bind_log, bind_extern.
  destruct (env_run env (calls (logged w1 INFO MsgRunAcmeFirst)) cmd) as [result|e].
  - match goal with
    | |- context [snd (let (_, _) := ?k ?w0 in _)] =>
        assert (Hg : grows k) by (unfold_methods; grows_tac);
        destruct (runs_grow k w0 Hg) as [more Hmore];
        destruct (k w0) as [[b|e] w2]
    end; cbn [snd] in *.
    + exists more. split; [reflexivity|].
      rewrite Hmore, runs_called, runs_logged, Hruns, <- app_assoc. reflexivity.
    + exists more. split; [reflexivity|].
      rewrite bind_log. cbn [snd ret].
      rewrite runs_logged, Hmore, runs_called, runs_logged, Hruns, <- app_assoc.
      reflexivity.
  - exists []. split; [reflexivity|]. rewrite bind_log. cbn [snd ret].
    rewrite runs_logged, runs_called, runs_logged, Hruns. reflexivity.
Qed.

(** [publish_and_record] returns false only when the upload failed, before
    the store is touched. *)
Lemma false_keeps_publish_and_record d :
  false_keeps_store (publish_and_record cfg env d).
Proof.
  unfold publish_and_record. apply false_keeps_bind.
  - apply store_upload_cert_to_qiniu.
  - intros [|]; cbn [negb].
    + intros w w' H. unfold bind in H.
      destruct (update_cert_record env d w) as [[[]|e] w1]; discriminate.
    + apply false_keeps_bind; [apply store_log|]. intros _. apply false_keeps_ret.
Qed.

Lemma false_keeps_process_domain d : false_keeps_store (process_domain cfg env d).
Proof.
  unfold process_domain, issue_then_publish.
  repeat first
    [ apply false_keeps_ret
    | apply false_keeps_publish_and_record
    | apply false_keeps_bind;
      [ first [ apply store_log | apply store_check_cert_expiry
              | apply store_check_certificate_exists | apply store_issue_certificate
              | apply preserves_gets ]
      | intros ? ]
    | match goal with
      | |- false_keeps_store (if ?b then _ else _) => destruct b
      end ].
Qed.

(** C8, amended.  For every domain whose cycle fails, that is, for which
    [process_domain] returns false or raises: when it returns false the
    certificate record store, both the mapping in memory and the file
    behind it, is as it was before; and in either case the loop of [run]
    counts one failure, leaves the store as [process_domain] left it, and
    goes on with the next configured domain. *)
Theorem failed_domain_keeps_store d rest s f w r w1 :
  process_domain cfg env d w = (r, w1) ->
  r <> Ok true ->
  (r = Ok false -> store w1 = store w) /\
  exists w2, run_loop cfg env (d :: rest) s f w = run_loop cfg env rest s (S f) w2 /\
             store w2 = store w1.
Proof.
  intros Hrun Hfail. split.
  - intros ->. eapply false_keeps_process_domain. exact Hrun.
  - rewrite run_loop_cons, Hrun. destruct r as [[|]|e].
    + congruence.
    + exists w1. split; reflexivity.
    + eexists. split; reflexivity.
Qed.

(** When [update_cert_record] completes, the record of the domain is
    active and the file holds the whole mapping. *)
Lemma update_cert_record_done d w w' :
  update_cert_record env d w = (Ok tt, w') ->
  has_active_record (cert_records w') d = true /\
  cert_file w' = FileContent (cert_records w').
Proof.
  unfold update_cert_record, _save_cert_records, datetime_now.
  rewrite bind_extern, bind_lift.
  destruct (datetime_add_result _ _) as [expiry|e]; [|discriminate].
  rewrite bind_extern, bind_gets.
  unfold bind at 1. cbn [set_cert_records]. rewrite bind_gets, bind_extern.
  cbn [cert_records calls].
  destruct (env_write env _) as [|e|e].
  - unfold bind at 1. cbn [set_cert_file]. rewrite log_logged.
    intros [= <-]. cbn [cert_records cert_file logged called].
    split; [|reflexivity].
    unfold has_active_record. rewrite lookup_insert_eq.
    unfold py_get, new_record.
    rewrite lookup_insert_ne by discriminate.
    rewrite lookup_insert_ne by discriminate.
    rewrite lookup_insert_eq. reflexivity.
  - discriminate.
  - unfold bind, set_cert_file, raise. discriminate.
Qed.

(** C2, amended.  For every domain for which renewal is needed and the
    certificate file and the key file exist on disk: when the record of the
    domain exists with status [active], [process_domain] goes on as a
    forced renewal, [issue_certificate(domain, force_renew=True)], which
    runs acme.sh with the command built for that mode; otherwise it runs
    acme.sh not at all and goes straight on to publishing.  In that second
    case, when the upload succeeds, [update_cert_record] runs: if it
    completes, the record is active in memory and written to the file and
    [process_domain] returns true; if it raises, [process_domain] raises
    the same exception. *)
Theorem process_domain_existing_artifacts d w w1 w2 :
  check_cert_expiry cfg env d (announced d w) = (Ok true, w1) ->
  check_certificate_exists cfg env d w1 = (Ok true, w2) ->
  if has_active_record (cert_records w) d then
    process_domain cfg env d w
      = issue_then_publish cfg env d true (MsgRenewalFailed d)
          (logged w2 INFO (MsgForceRenewal d)) /\
    exists cmd w3 more,
      issue_command cfg env d true (logged w2 INFO (MsgForceRenewal d)) = (Ok cmd, w3) /\
      runs (snd (process_domain cfg env d w)) = runs w ++ cmd :: more
  else
    process_domain cfg env d w
      = publish_and_record cfg env d (logged w2 INFO (MsgSkipIssue d)) /\
    runs (snd (process_domain cfg env d w)) = runs w /\
    forall w3,
      upload_cert_to_qiniu cfg env d (logged w2 INFO (MsgSkipIssue d)) = (Ok true, w3) ->
      match update_cert_record env d w3 with
      | (Ok _, w4) =>
          process_domain cfg env d w = (Ok true, logged w4 INFO (MsgDomainDone d)) /\
          has_active_record (cert_records w4) d = true /\
          cert_file w4 = FileContent (cert_records w4)
      | (Raise e, w4) => process_domain cfg env d w = (Raise e, w4)
      end.
Proof.
  intros Hcheck Hexists.
  pose proof (store_check_cert_expiry cfg env d (announced d w)) as Hs1.
  pose proof (store_check_certificate_exists cfg env d w1) as Hs2.
  pose proof (runs_check_cert_expiry cfg env d (announced d w)) as Hr1.
  pose proof (runs_check_certificate_exists cfg env d w1) as Hr2.
  rewrite Hcheck in Hs1, Hr1. rewrite Hexists in Hs2, Hr2. cbn [snd] in *.
  assert (Hrec : cert_records w2 = cert_records w).
  { apply (f_equal fst) in Hs1, Hs2. cbn in Hs1, Hs2. congruence. }
  assert (Hruns : runs w2 = runs w).
  { rewrite Hr2, Hr1. reflexivity. }
  assert (Hpd : process_domain cfg env d w =
                if has_active_record (cert_records w) d
                then issue_then_publish cfg env d true (MsgRenewalFailed d)
                       (logged w2 INFO (MsgForceRenewal d))
                else publish_and_record cfg env d (logged w2 INFO (MsgSkipIssue d))).
  { unfold process_domain. rewrite !bind_log.
    unfold announced in Hcheck. unfold bind at 1. rewrite Hcheck. cbn [negb].
    unfold bind at 1. rewrite Hexists. rewrite bind_gets, Hrec.
    destruct (has_active_record (cert_records w) d); rewrite bind_log; reflexivity. }
  destruct (has_active_record (cert_records w) d).
  - split; [exact Hpd|]. rewrite Hpd. unfold issue_then_publish.
    destruct (issue_certificate_runs d true (logged w2 INFO (MsgForceRenewal d)))
      as (cmd & w3 & more & Hcmd & Hissue).
    rewrite runs_logged, Hruns in Hissue. exists cmd, w3.
    unfold bind at 1.
    destruct (issue_certificate cfg env d true _) as [[[|]|e] w4]; cbn [snd negb] in *.
    + destruct (runs_grow _ w4 (grows_publish_and_record d)) as [more' Hmore'].
      exists (more ++ more'). split; [exact Hcmd|].
      rewrite Hmore', Hissue, <- app_assoc. reflexivity.
    + exists more. split; [exact Hcmd|].
      rewrite bind_log. cbn [snd ret]. rewrite runs_logged. exact Hissue.
    + exists more. split; [exact Hcmd|exact Hissue].
  - split; [exact Hpd|]. split.
    + rewrite Hpd, runs_publish_and_record, runs_logged. exact Hruns.
    + intros w3 Hup.
      assert (Hpub : publish_and_record cfg env d (logged w2 INFO (MsgSkipIssue d)) =
                     match update_cert_record env d w3 with
                     | (Ok _, w4) => (Ok true, logged w4 INFO (MsgDomainDone d))
                     | (Raise e, w4) => (Raise e, w4)
                     end).
      { unfold publish_and_record. unfold bind at 1. rewrite Hup. cbn [negb].
        unfold bind at 1.
        destruct (update_cert_record env d w3) as [[[]|e] w4]; reflexivity. }
      rewrite Hpd, Hpub.
      destruct (update_cert_record env d w3) as [[[]|e] w4] eqn:Hupd; [|reflexivity].
      split; [reflexivity|].
      eapply update_cert_record_done. exact Hupd.
Qed.

End Orchestration.

(** ** The challenge *)

Lemma extract_no_marker output :
  no_txt_marker output = true -> no_challenge_marker output = true ->
  _extract_txt_value output = None.
Proof.
  intros H1 H2. rewrite (extract_unmarked _ H1).
  apply scan_challenge_unmarked. exact H2.
Qed.

Section Challenge.

Variable cfg : Config.
Variable env : Env.

(** C5.  When no line of the captured output matches either heuristic,
    [_extract_txt_value] returns nothing, without raising, and
    [issue_certificate] returns false: after the run of acme.sh it logs the
    could-not-extract error together with the raw standard output and
    standard error, and calls nothing else.  The cycle of the domain then
    fails: the step of [process_domain] that called [issue_certificate]
    logs its failure and returns false, publishing nothing. *)
Theorem issue_certificate_no_challenge_value d force w cmd w1 result :
  issue_command cfg env d force w = (Ok cmd, w1) ->
  env_run env (calls w1) cmd = Ok result ->
  no_txt_marker (stdout result +:+ stderr result) = true ->
  no_challenge_marker (stdout result +:+ stderr result) = true ->
  _extract_txt_value (stdout result +:+ stderr result) = None /\
  issue_certificate cfg env d force w = (Ok false, extract_failed w1 cmd result) /\
  forall failure,
    issue_then_publish cfg env d force failure w
    = (Ok false, logged (extract_failed w1 cmd result) ERROR failure).
Proof.
  intros Hcmd Hrun Hno1 Hno2.
  pose proof (extract_no_marker _ Hno1 Hno2) as Hnone.
  assert (Hissue : issue_certificate cfg env d force w
                   = (Ok false, extract_failed w1 cmd result)).
  { unfold issue_certificate. unfold bind at 1. rewrite Hcmd.
    unfold issue_attempt, run_subprocess.
    rewrite try_except_run, bind_log, bind_extern.
    change (calls (logged w1 INFO MsgRunAcmeFirst)) with (calls w1).
    rewrite Hrun, Hnone, !bind_log. reflexivity. }
  split; [exact Hnone|]. split; [exact Hissue|].
  intros failure. unfold issue_then_publish. unfold bind at 1.
  rewrite Hissue. cbn [negb]. rewrite bind_log. reflexivity.
Qed.

(** What [issue_attempt] does once the challenge record is in place: when
    the second run of acme.sh returns, with whatever exit code, the record
    is deleted before the result is reported; when the second run raises,
    the handler reports failure and the record is never deleted. *)
Lemma issue_attempt_cleanup d cmd w result txt rid w_add :
  env_run env (calls w) cmd = Ok result ->
  _extract_txt_value (stdout result +:+ stderr result) = Some txt ->
  txt <> EmptyString ->
  add_dns_txt_record env d txt
    (logged (called (logged w INFO MsgRunAcmeFirst) (CRun cmd)) INFO (MsgTxtValue txt))
    = (Ok (Some rid), w_add) ->
  rid <> EmptyString ->
  match env_run env (calls w_add) (renew_command cfg env d) with
  | Ok result_renew =>
      exists w',
        issue_attempt cfg env d cmd w = (Ok (returncode result_renew =? 0)%Z, w') /\
        calls w' = calls w_add ++ [CRun (renew_command cfg env d); CDeleteDomainRecord rid]
  | Raise e =>
      issue_attempt cfg env d cmd w =
        (Ok false,
         logged (called (logged w_add INFO MsgRunAcmeSecond) (CRun (renew_command cfg env d)))
           ERROR (MsgIssueException e))
  end.
Proof.
  intros Hrun Htxt Htne Hadd Hrne.
  destruct txt as [|c s]; [congruence|].
  destruct rid as [|c' s']; [congruence|].
  assert (Hstart : issue_attempt cfg env d cmd w =
            match env_run env (calls w_add) (renew_command cfg env d) with
            | Ok result_renew =>
                match bind (delete_dns_txt_record env (String c' s'))
                        (fun _ => if (returncode result_renew =? 0)%Z
                                  then bind (log INFO MsgIssueSucceeded) (fun _ => ret true)
                                  else bind (log ERROR (MsgIssueFailed (stderr result_renew)))
                                            (fun _ => ret false))
                        (called (logged w_add INFO MsgRunAcmeSecond)
                           (CRun (renew_command cfg env d))) with
                | (Ok a, w') => (Ok a, w')
                | (Raise e, w') =>
                    bind (log ERROR (MsgIssueException e)) (fun _ => ret false) w'
                end
            | Raise e =>
                (Ok false,
                 logged (called (logged w_add INFO MsgRunAcmeSecond)
                           (CRun (renew_command cfg env d)))
                   ERROR (MsgIssueException e))
            end).
  { unfold issue_attempt, run_subprocess.
    rewrite try_except_run, bind_log, bind_extern.
    change (calls (logged w INFO MsgRunAcmeFirst)) with (calls w).
    rewrite Hrun, Htxt, bind_log. unfold bind at 1. rewrite Hadd.
    rewrite bind_log, bind_extern.
    change (calls (logged w_add INFO MsgRunAcmeSecond)) with (calls w_add).
    destruct (env_run env (calls w_add) (renew_command cfg env d)); reflexivity. }
  rewrite Hstart.
  destruct (env_run env (calls w_add) (renew_command cfg env d)) as [result_renew|e];
    [|reflexivity].
  unfold delete_dns_txt_record. cbn [PyStr.truthy negb].
  unfold bind at 1. rewrite try_except_run, bind_extern.
  destruct (env_delete_record env _ _) as [[]|e];
    destruct (returncode result_renew =? 0)%Z;
    rewrite ?log_logged, ?bind_log; cbn [ret];
    eexists; (split; [reflexivity|]);
    cbn [calls logged called]; rewrite <- app_assoc; reflexivity.
Qed.

(** C6, amended.  When the provider query returns a record with a
    non-empty identifier, [add_dns_txt_record] issues an update call that
    carries this identifier and no create call; it returns the identifier
    when the update call returns, and None when the update call raises. *)
Theorem add_dns_txt_record_existing d v w rid others :
  env_describe env (calls w) (get_root_domain d)
    (challenge_record_name d (get_root_domain d)) "TXT" = Ok (rid :: others) ->
  rid <> EmptyString ->
  exists r w',
    add_dns_txt_record env d v w = (Ok r, w') /\
    calls w' = calls w ++
      [CDescribeDomainRecords (get_root_domain d)
         (challenge_record_name d (get_root_domain d)) "TXT";
       CUpdateDomainRecord rid (challenge_record_name d (get_root_domain d)) "TXT" v] /\
    match env_update_record env
            (calls w ++ [CDescribeDomainRecords (get_root_domain d)
                           (challenge_record_name d (get_root_domain d)) "TXT"])
            rid (challenge_record_name d (get_root_domain d)) "TXT" v with
    | Ok _ => r = Some rid
    | Raise _ => r = None
    end.
Proof.
  intros Hdesc Hne.
  unfold add_dns_txt_record, _find_dns_record.
  rewrite bind_log, try_except_run. unfold bind at 1.
  rewrite try_except_run, bind_extern.
  change (calls (logged w INFO (MsgAddTxt (challenge_record_name d (get_root_domain d))
                                  (get_root_domain d) v))) with (calls w).
  rewrite Hdesc. cbn [ret].
  destruct rid as [|c s]; [congruence|].
  rewrite bind_log, bind_extern. cbn [calls logged called].
  destruct (env_update_record env _ _ _ _ _) as [[]|e].
  - eexists _, _. split; [reflexivity|]. cbn [calls logged called].
    rewrite <- app_assoc. split; reflexivity.
  - cbv beta iota. rewrite bind_log. eexists _, _. split; [reflexivity|]. cbn [calls logged called].
    rewrite <- app_assoc. split; reflexivity.
Qed.

End Challenge.

(** ** Expiry dates *)

Section Expiry.

Local Open Scope Z_scope.

Variable cfg : Config.
Variable env : Env.

Lemma timestamp_naive t : PyDatetime.timestamp (PyDatetime.naive t) = PyDatetime.timestamp t.
Proof. reflexivity. Qed.

Lemma valid_naive t : PyDatetime.valid_datetime (PyDatetime.naive t) = PyDatetime.valid_datetime t.
Proof. reflexivity. Qed.

(** A naive expiry date that lies [k] whole days and a fraction of a day
    after [now] leaves [k] days. *)
Lemma days_until_naive s e now k :
  PyDatetime.fromisoformat s = Some e ->
  PyDatetime.utcoffset e = None ->
  PyDatetime.utcoffset now = None ->
  k * PyDatetime.DAY_US <= PyDatetime.timestamp e - PyDatetime.timestamp now
    < (k + 1) * PyDatetime.DAY_US ->
  days_until (PStr s) now = Some k.
Proof.
  intros Hparse He Hnow Hk. unfold days_until, fromisoformat_value. rewrite Hparse.
  destruct (datetime_sub_days e now He Hnow) as (delta & -> & ->).
  f_equal. symmetry. apply (Z.div_unique _ _ _
    (PyDatetime.timestamp e - PyDatetime.timestamp now - k * PyDatetime.DAY_US));
    unfold PyDatetime.DAY_US in *; lia.
Qed.

Lemma truthy_parsed s e : PyDatetime.fromisoformat s = Some e -> PyStr.truthy s = true.
Proof. destruct s; [discriminate|reflexivity]. Qed.

(** The answer of [check_cert_expiry] for a record with a naive expiry
    date, from the days left. *)
Lemma check_cert_expiry_days d w record s e k :
  cert_records w !! d = Some record ->
  record !! "expiry_date" = Some (PStr s) ->
  PyDatetime.fromisoformat s = Some e ->
  PyDatetime.utcoffset e = None ->
  k * PyDatetime.DAY_US <= PyDatetime.timestamp e - PyDatetime.timestamp (clock env w)
    < (k + 1) * PyDatetime.DAY_US ->
  exists w', check_cert_expiry cfg env d w = (Ok (k <=? threshold_days cfg), w').
Proof.
  intros Hrec Hfield Hparse He Hk.
  destruct (check_cert_expiry_iff cfg env d w) as (b & w' & Hrun & Hiff).
  exists w'. rewrite Hrun. f_equal. f_equal.
  assert (Hget : py_get record "expiry_date" = PStr s)
    by (unfold py_get; rewrite Hfield; reflexivity).
  assert (Hdays : days_until (PStr s) (clock env w) = Some k)
    by (eapply days_until_naive; eauto).
  destruct (Z.leb_spec k (threshold_days cfg)) as [Hle|Hgt].
  - apply Hiff. right. exists record. split; [exact Hrec|]. right. right.
    exists k. rewrite Hget. split; [exact Hdays|exact Hle].
  - destruct b; [|reflexivity]. exfalso.
    destruct Hiff as [Hiff _]. destruct (Hiff eq_refl) as [Hnone|(r & Hr & Hcases)].
    + congruence.
    + assert (r = record) by congruence. subst r. rewrite Hget in Hcases.
      destruct Hcases as [Hf|[Hn|(k' & Hk' & Hle')]].
      * cbn in Hf. rewrite (truthy_parsed _ _ Hparse) in Hf. discriminate.
      * congruence.
      * assert (k' = k) by congruence. lia.
Qed.

(** The condition of [check_cert_expiry_iff], with the [try] block spelled
    out. *)
Lemma renewal_condition_due d w :
  renewal_condition cfg env d w <-> renewal_due cfg env d w.
Proof.
  assert (Hnow : PyDatetime.utcoffset (clock env w) = None) by reflexivity.
  unfold renewal_condition, renewal_due.
  split; (intros [H|(record & Hrec & H)];
          [left; exact H|right; exists record; split; [exact Hrec|]]).
  - destruct H as [Hfalsy|H]; [left; exact Hfalsy|right].
    destruct (py_get record "expiry_date") as [| | |s]; try (left; intros s; discriminate).
    right. exists s. split; [reflexivity|].
    unfold days_until, fromisoformat_value in H.
    destruct (PyDatetime.fromisoformat s) as [e|]; [|left; reflexivity].
    right. exists e. split; [reflexivity|].
    destruct (PyDatetime.utcoffset e) as [off|] eqn:He; [left; discriminate|right].
    destruct (datetime_sub_days e (clock env w) He Hnow) as (delta & Hsub & Hdays).
    rewrite Hsub in H. destruct H as [H|(k & Hk & Hle)]; [discriminate|].
    injection Hk as <-. rewrite <- Hdays. exact Hle.
  - destruct H as [Hfalsy|[Hother|(s & Hs & H)]]; [left; exact Hfalsy| |]; right.
    + left. unfold days_until, fromisoformat_value.
      destruct (py_get record "expiry_date") as [| | |s]; try reflexivity.
      destruct (Hother s eq_refl).
    + rewrite Hs. unfold days_until, fromisoformat_value.
      destruct H as [Hnone|(e & Hparse & H)]; [left; rewrite Hnone; reflexivity|].
      rewrite Hparse.
      destruct (PyDatetime.utcoffset e) as [off|] eqn:He.
      * left. unfold PyDatetime.datetime_sub. rewrite He, Hnow. reflexivity.
      * destruct H as [H|Hle]; [destruct (H eq_refl)|].
        destruct (datetime_sub_days e (clock env w) He Hnow) as (delta & Hsub & Hdays).
        right. exists (PyDatetime.days delta). rewrite Hsub.
        split; [reflexivity|]. rewrite Hdays. exact Hle.
Qed.

(** C1, amended.  [check_cert_expiry] never raises, and it returns true
    exactly when the domain has no record, or the [expiry_date] of its
    record is absent (missing or falsy), or is no string or a string that
    [datetime.fromisoformat] rejects, or is read as a date that carries a
    UTC offset, or is read as a naive date at most the threshold of the
    configuration (30 when it sets none) in whole days after now.  In
    particular, for an expiry date read as a naive date it returns true
    when the date lies exactly the threshold in days after now, and false
    when it lies one day more than the threshold after now.  The claim as
    stated leaves out the date with a UTC offset, for which the program
    answers true however distant the date is. *)
Theorem check_cert_expiry_spec d w :
  (exists b w', check_cert_expiry cfg env d w = (Ok b, w') /\
                (b = true <-> renewal_due cfg env d w)) /\
  (forall record s e,
     cert_records w !! d = Some record ->
     record !! "expiry_date" = Some (PStr s) ->
     PyDatetime.fromisoformat s = Some e ->
     PyDatetime.utcoffset e = None ->
     (PyDatetime.timestamp e
        = PyDatetime.timestamp (clock env w) + threshold_days cfg * PyDatetime.DAY_US ->
      exists w', check_cert_expiry cfg env d w = (Ok true, w')) /\
     (PyDatetime.timestamp e
        = PyDatetime.timestamp (clock env w)
          + (threshold_days cfg + 1) * PyDatetime.DAY_US ->
      exists w', check_cert_expiry cfg env d w = (Ok false, w'))).
Proof.
  split.
  { destruct (check_cert_expiry_iff cfg env d w) as (b & w' & Hrun & Hiff).
    exists b, w'. split; [exact Hrun|].
    rewrite Hiff. apply renewal_condition_due. }
  intros record s e Hrec Hfield Hparse He. split; intros Hts.
  - destruct (check_cert_expiry_days d w record s e (threshold_days cfg)
                Hrec Hfield Hparse He) as [w' Hrun].
    { unfold PyDatetime.DAY_US in *. lia. }
    exists w'. rewrite Hrun, Z.leb_refl. reflexivity.
  - destruct (check_cert_expiry_days d w record s e (threshold_days cfg + 1)
                Hrec Hfield Hparse He) as [w' Hrun].
    { unfold PyDatetime.DAY_US in *. lia. }
    exists w'. rewrite Hrun. f_equal. f_equal. apply Z.leb_gt. lia.
Qed.

End Expiry.

Section RoundTrip.

Local Open Scope Z_scope.

Variable cfg : Config.
Variable env : Env.

(** What [update_cert_record] leaves in memory, however the write to the
    file ends: the record of the domain holds the ISO form of the clock
    reading plus 90 days, and the history has grown. *)
Lemma update_cert_record_memory d w r w1 :
  PyDatetime.valid_datetime (env_now env (calls w)) = true ->
  PyDatetime.toordinal (env_now env (calls w)) + 90 <= PyDatetime.MAXORDINAL ->
  update_cert_record env d w = (r, w1) ->
  exists expiry record,
    cert_records w1 !! d = Some record /\
    record !! "expiry_date" = Some (PStr (PyDatetime.isoformat expiry)) /\
    PyDatetime.valid_datetime expiry = true /\
    PyDatetime.utcoffset expiry = None /\
    PyDatetime.timestamp expiry = PyDatetime.timestamp (clock env w) + 90 * PyDatetime.DAY_US.
Proof.
  intros Hvalid Hrange Hrun.
  assert (Hord : 1 <= PyDatetime.toordinal (PyDatetime.naive (env_now env (calls w))) + 90
                 <= PyDatetime.MAXORDINAL).
  { change (PyDatetime.toordinal (PyDatetime.naive (env_now env (calls w))))
      with (PyDatetime.toordinal (env_now env (calls w))).
    split; [|exact Hrange].
    pose proof (valid_date_fields _ Hvalid) as Hd.
    unfold PyDatetime.check_date_fields, PyDatetime.MINYEAR in Hd.
    repeat match goal with
           | H : _ && _ = true |- _ => apply andb_true_iff in H as [? ?]
           | H : (_ <=? _) = true |- _ => apply Z.leb_le in H
           end.
    unfold PyDatetime.toordinal, PyDatetime.ymd2ord, PyDatetime.days_before_year,
      PyDatetime.days_before_month.
    assert (0 <= PyDatetime.DAYS_BEFORE_MONTH (PyDatetime.month (env_now env (calls w)))).
    { destruct (PyDatetime.month (env_now env (calls w))) as [|p|p]; try lia.
      unfold PyDatetime.DAYS_BEFORE_MONTH.
      do 4 (destruct p as [p|p|]; try lia). }
    destruct (_ && _); Z.div_mod_to_equations; lia. }
  destruct (datetime_add_days (PyDatetime.naive (env_now env (calls w))) 90
              ltac:(rewrite valid_naive; exact Hvalid) Hord)
    as (expiry & Hadd & Hev & Heo & Hets).
  unfold update_cert_record, _save_cert_records, datetime_now in Hrun.
  rewrite bind_extern, bind_lift in Hrun. unfold datetime_add_result in Hrun.
  rewrite Hadd in Hrun.
  rewrite bind_extern, bind_gets in Hrun.
  unfold bind at 1 in Hrun. cbn [set_cert_records] in Hrun.
  rewrite bind_gets, bind_extern in Hrun. cbn [cert_records calls] in Hrun.
  exists expiry. eexists.
  assert (Hrec : cert_records w1 !! d = Some (new_record expiry
            (PyDatetime.naive (env_now env (calls (called w CNow)))))).
  { destruct (env_write env _) as [|e|e].
    - unfold bind at 1 in Hrun. cbn [set_cert_file] in Hrun. rewrite log_logged in Hrun.
      injection Hrun as _ <-. cbn [cert_records logged]. apply lookup_insert_eq.
    - injection Hrun as _ <-. cbn [cert_records]. apply lookup_insert_eq.
    - unfold bind, set_cert_file, raise in Hrun.
      injection Hrun as _ <-. cbn [cert_records]. apply lookup_insert_eq. }
  split; [exact Hrec|]. split; [apply lookup_insert_eq|].
  split; [exact Hev|]. split; [exact Heo|].
  rewrite Hets. reflexivity.
Qed.

(** C7.  After [update_cert_record], which records an expiry 90 days after
    the clock reading, [check_cert_expiry] with the threshold 30 returns
    false, whenever the clock at the check stands less than 59 days after
    the clock at the update (the clock being a valid date before
    9999-10-03, so that 90 days later is a date). *)
Theorem update_then_check_false d w r w1 :
  threshold_days cfg = 30 ->
  PyDatetime.valid_datetime (env_now env (calls w)) = true ->
  PyDatetime.toordinal (env_now env (calls w)) + 90 <= PyDatetime.MAXORDINAL ->
  update_cert_record env d w = (r, w1) ->
  PyDatetime.timestamp (clock env w1)
    <= PyDatetime.timestamp (clock env w) + 59 * PyDatetime.DAY_US ->
  exists w2, check_cert_expiry cfg env d w1 = (Ok false, w2).
Proof.
  intros Hthreshold Hvalid Hrange Hrun Hsoon.
  destruct (update_cert_record_memory d w r w1 Hvalid Hrange Hrun)
    as (expiry & record & Hrec & Hfield & Hev & Heo & Hets).
  pose proof (fromisoformat_isoformat expiry Hev Heo) as Hparse.
  set (delta := PyDatetime.timestamp expiry - PyDatetime.timestamp (clock env w1)).
  assert (Hdelta : 31 * PyDatetime.DAY_US <= delta) by (unfold delta; lia).
  destruct (check_cert_expiry_days cfg env d w1 record _ expiry (delta / PyDatetime.DAY_US)
              Hrec Hfield Hparse Heo) as [w2 Hcheck].
  { fold delta. unfold PyDatetime.DAY_US in *. Z.div_mod_to_equations. lia. }
  exists w2. rewrite Hcheck, Hthreshold. f_equal. f_equal. apply Z.leb_gt.
  unfold PyDatetime.DAY_US in *. Z.div_mod_to_equations. lia.
Qed.

End RoundTrip.

(** ** Concrete runs *)

(** The boundary of C1 on a concrete store: with the clock at
    2025-01-15T10:30:00 and the default threshold, an expiry date exactly
    30 days later needs renewal, one a day later does not, and neither
    does one a microsecond short of it. *)
Example check_cert_expiry_boundary :
  fst (check_cert_expiry sample_cfg env_fresh "www.example.com"
         (world_with_expiry "2025-02-14T10:30:00")) = Ok true /\
  fst (check_cert_expiry sample_cfg env_fresh "www.example.com"
         (world_with_expiry "2025-02-15T10:30:00")) = Ok false /\
  fst (check_cert_expiry sample_cfg env_fresh "www.example.com"
         (world_with_expiry "2025-02-15T10:29:59.999999")) = Ok true.
Proof. repeat split; vm_compute; reflexivity. Qed.

(** An expiry date with a UTC offset makes the subtraction raise, and the
    check answers true. *)
Example check_cert_expiry_aware :
  fst (check_cert_expiry sample_cfg env_fresh "www.example.com"
         (world_with_expiry "2099-01-01T00:00:00+08:00")) = Ok true.
Proof. vm_compute. reflexivity. Qed.

(** The boundary of C1 at the sample store, from the theorem: an expiry
    date exactly 30 days after the clock, and one a day later. *)
Lemma check_cert_expiry_spec_witness :
  (exists w', check_cert_expiry sample_cfg env_fresh "www.example.com"
                (world_with_expiry "2025-02-14T10:30:00") = (Ok true, w')) /\
  (exists w', check_cert_expiry sample_cfg env_fresh "www.example.com"
                (world_with_expiry "2025-02-15T10:30:00") = (Ok false, w')).
Proof.
  split.
  - apply (proj1 (proj2 (check_cert_expiry_spec sample_cfg env_fresh "www.example.com"
                           (world_with_expiry "2025-02-14T10:30:00"))
                    _ "2025-02-14T10:30:00"
                    (PyDatetime.mk_datetime 2025 2 14 10 30 0 0 None)
                    (lookup_singleton_eq _ _) (lookup_insert_eq _ _ _)
                    ltac:(vm_compute; reflexivity) eq_refl)).
    vm_compute. reflexivity.
  - apply (proj2 (proj2 (check_cert_expiry_spec sample_cfg env_fresh "www.example.com"
                           (world_with_expiry "2025-02-15T10:30:00"))
                    _ "2025-02-15T10:30:00"
                    (PyDatetime.mk_datetime 2025 2 15 10 30 0 0 None)
                    (lookup_singleton_eq _ _) (lookup_insert_eq _ _ _)
                    ltac:(vm_compute; reflexivity) eq_refl)).
    vm_compute. reflexivity.
Defined.

(** C1, as stated, fails for an expiry date with a UTC offset: with the
    clock at 2025-01-15T10:30:00 and the default threshold, the date
    2025-02-15T10:30:00+00:00 is present and is parsed, and it lies one day
    beyond the threshold, so that the stated condition does not hold; yet
    the subtraction from the naive [datetime.now()] raises, and the check
    answers true. *)
Lemma check_cert_expiry_offset_counterexample :
  (exists e,
     PyDatetime.fromisoformat "2025-02-15T10:30:00+00:00" = Some e /\
     PyDatetime.timestamp e
     = (PyDatetime.timestamp
          (clock env_fresh (world_with_expiry "2025-02-15T10:30:00+00:00"))
        + (threshold_days sample_cfg + 1) * PyDatetime.DAY_US)%Z) /\
  fst (check_cert_expiry sample_cfg env_fresh "www.example.com"
         (world_with_expiry "2025-02-15T10:30:00+00:00")) = Ok true /\
  ~ stated_renewal_condition sample_cfg env_fresh "www.example.com"
      (world_with_expiry "2025-02-15T10:30:00+00:00").
Proof.
  assert (Hparse : PyDatetime.fromisoformat "2025-02-15T10:30:00+00:00"
                   = Some (PyDatetime.mk_datetime 2025 2 15 10 30 0 0 (Some 0%Z)))
    by (vm_compute; reflexivity).
  split.
  { exists (PyDatetime.mk_datetime 2025 2 15 10 30 0 0 (Some 0%Z)).
    split; [exact Hparse|]. vm_compute. reflexivity. }
  split.
  { vm_compute. reflexivity. }
  intros [Hnone|(record & Hrec & H)].
  { unfold world_with_expiry in Hnone. cbn [cert_records] in Hnone.
    rewrite lookup_singleton_eq in Hnone. discriminate. }
  unfold world_with_expiry in Hrec. cbn [cert_records] in Hrec.
  rewrite lookup_singleton_eq in Hrec. injection Hrec as <-.
  unfold py_get in H. rewrite lookup_insert_eq in H. cbn [from_option id] in H.
  destruct H as [Hfalsy|[Hraise|(e & He & Hle)]].
  - discriminate.
  - apply (Hraise (PyDatetime.mk_datetime 2025 2 15 10 30 0 0 (Some 0%Z))).
    unfold fromisoformat_value. rewrite Hparse. reflexivity.
  - unfold fromisoformat_value in He. rewrite Hparse in He. injection He as <-.
    vm_compute in Hle. apply Hle. reflexivity.
Qed.

(** The forms of ISO 8601 that the library reads besides the one
    [isoformat] writes: a date without hyphens, a time without colons, a
    fraction of any length, a week date; a record that holds one of them is
    checked like any other. *)
Example fromisoformat_forms :
  PyDatetime.fromisoformat "20990101"
  = Some (PyDatetime.mk_datetime 2099 1 1 0 0 0 0 None) /\
  PyDatetime.fromisoformat "2099-01-01T0000"
  = Some (PyDatetime.mk_datetime 2099 1 1 0 0 0 0 None) /\
  PyDatetime.fromisoformat "2099-01-01T00:00:00.5"
  = Some (PyDatetime.mk_datetime 2099 1 1 0 0 0 500000 None) /\
  PyDatetime.fromisoformat "2025-W03-3"
  = Some (PyDatetime.mk_datetime 2025 1 15 0 0 0 0 None) /\
  PyDatetime.fromisoformat "2025-01-15T10:30:00Z"
  = Some (PyDatetime.mk_datetime 2025 1 15 10 30 0 0 (Some 0%Z)) /\
  PyDatetime.fromisoformat "2025-01-15T" = None /\
  PyDatetime.fromisoformat "2025-1-15" = None /\
  fst (check_cert_expiry sample_cfg env_fresh "www.example.com"
         (world_with_expiry "20990101")) = Ok false.
Proof. repeat split; vm_compute; reflexivity. Qed.

(** A first issuance from nothing: one success, no failure, and the file
    written. *)
Example run_fresh_domain :
  exists w, run sample_cfg env_fresh empty_world = (Ok (Some (1, 0)), w) /\
            cert_file w = FileContent (cert_records w) /\
            has_active_record (cert_records w) "www.example.com" = true.
Proof. eexists. split; [vm_compute; reflexivity|]. split; vm_compute; reflexivity. Qed.

(** A domain with an active record that expires in seventeen days, its
    artifacts on disk: the cycle is a forced renewal. *)
Example process_domain_forced_renewal :
  let r := process_domain sample_cfg env_artifacts "www.example.com"
             (world_with_expiry "2025-02-01T00:00:00") in
  fst r = Ok true /\
  runs (snd r) =
    [ ["/root/.acme.sh/acme.sh"; "--renew"; "--force"; "-d"; "www.example.com";
       manual_mode_flag];
      renew_command sample_cfg env_artifacts "www.example.com" ].
Proof. vm_compute. split; reflexivity. Qed.

(** C2, as stated, fails where the record file cannot be opened: renewal
    is needed, the artifacts exist, there is no active record, issuance
    is skipped and the upload succeeds, yet [process_domain] raises and
    [run] counts the domain as a failure, not as a success. *)
Lemma skip_publish_not_counted_counterexample :
  exists w1 w2 w3 e w4,
    check_cert_expiry sample_cfg env_open_fails "www.example.com"
      (announced "www.example.com" empty_world) = (Ok true, w1) /\
    check_certificate_exists sample_cfg env_open_fails "www.example.com" w1 = (Ok true, w2) /\
    has_active_record (cert_records empty_world) "www.example.com" = false /\
    upload_cert_to_qiniu sample_cfg env_open_fails "www.example.com"
      (logged w2 INFO (MsgSkipIssue "www.example.com")) = (Ok true, w3) /\
    process_domain sample_cfg env_open_fails "www.example.com" empty_world = (Raise e, w4) /\
    runs w4 = [] /\
    fst (run sample_cfg env_open_fails empty_world) = Ok (Some (0, 1)).
Proof.
  do 5 eexists.
  split; [vm_compute; reflexivity|].
  split; [vm_compute; reflexivity|].
  split; [vm_compute; reflexivity|].
  split; [vm_compute; reflexivity|].
  split; [vm_compute; reflexivity|].
  split; vm_compute; reflexivity.
Qed.

Lemma process_domain_existing_artifacts_witness :
  exists w1 w2,
    check_cert_expiry sample_cfg env_artifacts "www.example.com"
      (announced "www.example.com" empty_world) = (Ok true, w1) /\
    check_certificate_exists sample_cfg env_artifacts "www.example.com" w1 = (Ok true, w2) /\
    process_domain sample_cfg env_artifacts "www.example.com" empty_world
      = publish_and_record sample_cfg env_artifacts "www.example.com"
          (logged w2 INFO (MsgSkipIssue "www.example.com")) /\
    runs (snd (process_domain sample_cfg env_artifacts "www.example.com" empty_world)) = [].
Proof.
  eexists _, _.
  assert (H1 : check_cert_expiry sample_cfg env_artifacts "www.example.com"
                 (announced "www.example.com" empty_world)
               = (Ok true,
                  snd (check_cert_expiry sample_cfg env_artifacts "www.example.com"
                         (announced "www.example.com" empty_world))))
    by (vm_compute; reflexivity).
  assert (H2 : check_certificate_exists sample_cfg env_artifacts "www.example.com"
                 (snd (check_cert_expiry sample_cfg env_artifacts "www.example.com"
                         (announced "www.example.com" empty_world)))
               = (Ok true,
                  snd (check_certificate_exists sample_cfg env_artifacts "www.example.com"
                         (snd (check_cert_expiry sample_cfg env_artifacts "www.example.com"
                                 (announced "www.example.com" empty_world))))))
    by (vm_compute; reflexivity).
  split; [exact H1|]. split; [exact H2|].
  pose proof (process_domain_existing_artifacts sample_cfg env_artifacts
                "www.example.com" empty_world _ _ H1 H2) as H.
  change (has_active_record (cert_records empty_world) "www.example.com") with false in H.
  destruct H as (Heq & Hruns & _). split; [exact Heq|exact Hruns].
Defined.

(** C3 fails on the code where the second run of acme.sh raises.  In the
    world [env_renew_raises] the first run prints the challenge, the TXT
    record is created under the identifier 9001, and the second run raises:
    [issue_certificate] returns false and has deleted no record.  In the
    world [env_renew_fails], which differs only in that the second run
    returns the exit code 1, the record 9001 is deleted before
    [issue_certificate] returns false. *)
Theorem issue_certificate_raise_skips_cleanup :
  (let w := snd (issue_certificate sample_cfg env_renew_raises "www.example.com" false
                   empty_world) in
   fst (issue_certificate sample_cfg env_renew_raises "www.example.com" false empty_world)
     = Ok false /\
   In (CAddDomainRecord "example.com" "_acme-challenge.www" "TXT" "abc123") (calls w) /\
   existsb is_delete (calls w) = false /\
   last (logs w)
     = Some (ERROR, MsgIssueException (Exn "UnicodeDecodeError" "invalid start byte"))) /\
  (let w := snd (issue_certificate sample_cfg env_renew_fails "www.example.com" false
                   empty_world) in
   fst (issue_certificate sample_cfg env_renew_fails "www.example.com" false empty_world)
     = Ok false /\
   In (CAddDomainRecord "example.com" "_acme-challenge.www" "TXT" "abc123") (calls w) /\
   last (calls w) = Some (CDeleteDomainRecord "9001")).
Proof.
  split; cbv zeta.
  - split; [vm_compute; reflexivity|]. split; [vm_compute; tauto|].
    split; vm_compute; reflexivity.
  - split; [vm_compute; reflexivity|]. split; [vm_compute; tauto|].
    vm_compute; reflexivity.
Qed.

Lemma issue_certificate_no_challenge_value_witness :
  exists cmd w1,
    issue_command sample_cfg env_no_challenge "www.example.com" false empty_world
      = (Ok cmd, w1) /\
    _extract_txt_value "acme.sh: command failed" = None /\
    issue_certificate sample_cfg env_no_challenge "www.example.com" false empty_world =
      (Ok false,
       logged (logged (logged (called (logged w1 INFO MsgRunAcmeFirst) (CRun cmd))
                         ERROR MsgExtractFailed)
                 ERROR (MsgAcmeStdout "acme.sh: command failed"))
         ERROR (MsgAcmeStderr EmptyString)) /\
    fst (process_domain sample_cfg env_no_challenge "www.example.com" empty_world)
      = Ok false.
Proof.
  eexists _, _.
  assert (H1 : issue_command sample_cfg env_no_challenge "www.example.com" false empty_world
               = (Ok ["/root/.acme.sh/acme.sh"; "--issue"; "--dns"; "-d"; "www.example.com";
                      manual_mode_flag],
                  snd (issue_command sample_cfg env_no_challenge "www.example.com" false
                         empty_world)))
    by (vm_compute; reflexivity).
  split; [exact H1|].
  destruct (issue_certificate_no_challenge_value sample_cfg env_no_challenge
              "www.example.com" false empty_world _ _
              {| returncode := 0; stdout := "acme.sh: command failed"; stderr := EmptyString |}
              H1 eq_refl eq_refl eq_refl) as (Hnone & Hissue & _).
  split; [exact Hnone|]. split; [exact Hissue|].
  vm_compute. reflexivity.
Defined.

(** C6, as stated, fails where the update call raises: the query returns
    the record 4711, the update call carries 4711 and no create call is
    made, yet [add_dns_txt_record] returns None. *)
Lemma add_dns_txt_record_update_raises_counterexample :
  env_describe env_update_raises [] "example.com" "_acme-challenge.www" "TXT"
    = Ok ["4711"] /\
  exists w,
    add_dns_txt_record env_update_raises "www.example.com" "abc123" empty_world
      = (Ok None, w) /\
    calls w = [CDescribeDomainRecords "example.com" "_acme-challenge.www" "TXT";
               CUpdateDomainRecord "4711" "_acme-challenge.www" "TXT" "abc123"].
Proof.
  split; [reflexivity|]. eexists. split; vm_compute; reflexivity.
Qed.

Lemma add_dns_txt_record_existing_witness :
  exists w,
    add_dns_txt_record env_record_exists "www.example.com" "abc123" empty_world
      = (Ok (Some "4711"), w) /\
    calls w = [CDescribeDomainRecords "example.com" "_acme-challenge.www" "TXT";
               CUpdateDomainRecord "4711" "_acme-challenge.www" "TXT" "abc123"].
Proof.
  destruct (add_dns_txt_record_existing env_record_exists "www.example.com" "abc123"
              empty_world "4711" [] eq_refl ltac:(discriminate))
    as (r & w & Hrun & Hcalls & Hr).
  change (env_update_record env_record_exists _ _ _ _ _) with (Ok tt : Result unit) in Hr.
  cbv beta iota in Hr. subst r.
  exists w. split; [exact Hrun|]. rewrite Hcalls. vm_compute. reflexivity.
Defined.

Lemma update_then_check_false_witness :
  exists w2,
    check_cert_expiry sample_cfg env_fresh "www.example.com"
      (snd (update_cert_record env_fresh "www.example.com" empty_world)) = (Ok false, w2).
Proof.
  apply (update_then_check_false sample_cfg env_fresh "www.example.com" empty_world
           (fst (update_cert_record env_fresh "www.example.com" empty_world))).
  - reflexivity.
  - reflexivity.
  - vm_compute. discriminate.
  - apply surjective_pairing.
  - vm_compute. discriminate.
Defined.

(** C8, as stated, fails where the cycle fails by an exception from the
    write of the record file: [process_domain] raises, [run] counts the
    domain as a failure, and both the mapping in memory and the file have
    changed for that domain. *)
Lemma failed_cycle_changes_store_counterexample :
  exists e w,
    process_domain sample_cfg env_dump_fails "www.example.com" empty_world = (Raise e, w) /\
    fst (run sample_cfg env_dump_fails empty_world) = Ok (Some (0, 1)) /\
    cert_records empty_world !! "www.example.com" = None /\
    has_active_record (cert_records w) "www.example.com" = true /\
    cert_file empty_world = FileAbsent /\
    cert_file w = FilePartial.
Proof.
  eexists _, _. split; [vm_compute; reflexivity|].
  split; [vm_compute; reflexivity|].
  split; [reflexivity|].
  split; [vm_compute; reflexivity|].
  split; [reflexivity|vm_compute; reflexivity].
Qed.

Lemma failed_domain_keeps_store_witness :
  store (snd (process_domain sample_cfg env_no_challenge "www.example.com" empty_world))
    = store empty_world /\
  exists w2,
    run_loop sample_cfg env_no_challenge ["www.example.com"] 0 0 empty_world
      = run_loop sample_cfg env_no_challenge [] 0 1 w2.
Proof.
  assert (H1 : process_domain sample_cfg env_no_challenge "www.example.com" empty_world
               = (Ok false,
                  snd (process_domain sample_cfg env_no_challenge "www.example.com"
                         empty_world)))
    by (vm_compute; reflexivity).
  destruct (failed_domain_keeps_store sample_cfg env_no_challenge "www.example.com"
              [] 0 0 empty_world _ _ H1 ltac:(discriminate)) as (Hstore & w2 & Hloop & _).
  split; [exact (Hstore eq_refl)|].
  exists w2. exact Hloop.
Defined.

(* ===================================================================== *)
(** * Part III: further properties of the methods *)
(* ===================================================================== *)

(** ** More on strings *)

Section Labels.

Lemma append_assoc (a b c : string) : (a +:+ b) +:+ c = a +:+ (b +:+ c).
Proof.
  induction a as [|x a IH]; [reflexivity|]. rewrite !append_cons, IH. reflexivity.
Qed.

Lemma length_append (a b : string) :
  String.length (a +:+ b) = String.length a + String.length b.
Proof.
  induction a as [|x a IH]; [reflexivity|]. rewrite append_cons. cbn [String.length].
  rewrite IH. reflexivity.
Qed.

Lemma split_app_sep sep x y :
  PyStr.split sep (x +:+ String sep y) = PyStr.split sep x ++ PyStr.split sep y.
Proof.
  induction x as [|c x IH]; rewrite ?append_cons, ?append_empty_l; cbn [PyStr.split].
  - rewrite Ascii.eqb_refl. reflexivity.
  - destruct (Ascii.eqb c sep); [rewrite IH; reflexivity|].
    rewrite IH. pose proof (split_nonempty sep x) as Hne.
    destruct (PyStr.split sep x); [congruence|reflexivity].
Qed.

(** Joining the labels of a name gives the name back. *)
Lemma join_split sep s : PyStr.join (String sep EmptyString) (PyStr.split sep s) = s.
Proof.
  induction s as [|c s IH]; [reflexivity|]. cbn [PyStr.split].
  pose proof (split_nonempty sep s) as Hne.
  destruct (Ascii.eqb c sep) eqn:E.
  - apply Ascii.eqb_eq in E. subst c.
    destruct (PyStr.split sep s) as [|p ps]; [congruence|].
    change (PyStr.join (String sep EmptyString) (EmptyString :: p :: ps))
      with (String sep (PyStr.join (String sep EmptyString) (p :: ps))).
    rewrite IH. reflexivity.
  - destruct (PyStr.split sep s) as [|p ps]; [congruence|].
    destruct ps as [|q qs].
    + cbn in *. rewrite IH. reflexivity.
    + change (PyStr.join (String sep EmptyString) (String c p :: q :: qs))
        with (String c (PyStr.join (String sep EmptyString) (p :: q :: qs))).
      rewrite IH. reflexivity.
Qed.

Lemma split_pieces sep s :
  forallb (fun p => negb (PyStr.mem sep p)) (PyStr.split sep s) = true.
Proof.
  induction s as [|c s IH]; [reflexivity|]. cbn [PyStr.split].
  destruct (Ascii.eqb c sep) eqn:E; [exact IH|].
  pose proof (split_nonempty sep s) as Hne.
  destruct (PyStr.split sep s) as [|p ps]; [congruence|].
  cbn in *. rewrite Ascii.eqb_sym, E. exact IH.
Qed.

Lemma skipn_app_length {A} (l r : list A) : skipn (length l) (l ++ r) = r.
Proof. induction l; [reflexivity|exact IHl]. Qed.

(** The last two labels of a name with at least two. *)
Lemma split_last_two sep s :
  2 <= length (PyStr.split sep s) ->
  exists pre a b,
    PyStr.split sep s = pre ++ [a; b] /\
    PyStr.mem sep a = false /\ PyStr.mem sep b = false.
Proof.
  intros Hlen. pose proof (split_pieces sep s) as Hp.
  destruct (PyStr.split sep s) as [|x l] using rev_ind; [cbn in Hlen; lia|].
  destruct l as [|y l _] using rev_ind; [cbn in Hlen; lia|].
  exists l, y, x. rewrite <- app_assoc. split; [reflexivity|].
  rewrite !forallb_app in Hp. cbn in Hp.
  repeat match goal with
         | H : _ && _ = true |- _ => apply andb_prop in H as [? ?]
         | H : negb _ = true |- _ => apply negb_true_iff in H
         end.
  split; assumption.
Qed.

Lemma get_root_domain_labels d pre a b :
  PyStr.split "." d = pre ++ [a; b] ->
  get_root_domain d = a +:+ "." +:+ b.
Proof.
  intros H. unfold get_root_domain. rewrite H.
  rewrite length_app. cbn [length].
  replace (2 <=? length pre + 2) with true by (symmetry; apply Nat.leb_le; lia).
  replace (length pre + 2 - 2) with (length pre) by lia.
  rewrite skipn_app_length. reflexivity.
Qed.

Lemma split_two_labels a b :
  PyStr.mem "." a = false -> PyStr.mem "." b = false ->
  PyStr.split "." (a +:+ "." +:+ b) = [a; b].
Proof.
  intros Ha Hb. change (a +:+ "." +:+ b) with (a +:+ String "." b).
  rewrite split_app_sep, (split_no_sep _ _ Ha), (split_no_sep _ _ Hb). reflexivity.
Qed.

Lemma drop_app_length a b : PyStr.drop (String.length a) (a +:+ b) = b.
Proof. induction a as [|x a IH]; [destruct b; reflexivity|exact IH]. Qed.

Lemma endswith_app a b : PyStr.endswith (a +:+ b) b = true.
Proof.
  unfold PyStr.endswith. rewrite length_append.
  replace (String.length a + String.length b - String.length b) with (String.length a) by lia.
  rewrite drop_app_length, String.eqb_refl.
  replace (String.length b <=? String.length a + String.length b) with true
    by (symmetry; apply Nat.leb_le; lia).
  reflexivity.
Qed.

Lemma join_app_two pre a b :
  pre <> [] ->
  PyStr.join "." (pre ++ [a; b]) = PyStr.join "." pre +:+ "." +:+ (a +:+ "." +:+ b).
Proof.
  induction pre as [|x pre IH]; [congruence|]. intros _.
  destruct pre as [|y pre].
  - reflexivity.
  - change (PyStr.join "." ((x :: y :: pre) ++ [a; b]))
      with (x +:+ "." +:+ PyStr.join "." ((y :: pre) ++ [a; b])).
    rewrite IH by discriminate.
    change (PyStr.join "." (x :: y :: pre)) with (x +:+ "." +:+ PyStr.join "." (y :: pre)).
    rewrite !append_assoc. reflexivity.
Qed.

End Labels.

Section Replace.

Lemma prefix_cons a o b s :
  String.prefix (String a o) (String b s) = Ascii.eqb a b && String.prefix o s.
Proof.
  cbn [String.prefix]. destruct (ascii_dec a b) as [->|Hne].
  - rewrite Ascii.eqb_refl. reflexivity.
  - apply Ascii.eqb_neq in Hne. rewrite Hne. reflexivity.
Qed.

Lemma prefix_refl_app old y : String.prefix old (old +:+ y) = true.
Proof.
  induction old as [|a o IH]; [destruct y; reflexivity|].
  rewrite append_cons, prefix_cons, Ascii.eqb_refl. exact IH.
Qed.

(** Whether [old] starts a string is decided by the first characters. *)
Lemma prefix_false_app old : forall s t,
  String.prefix old s = false -> String.length old <= String.length s ->
  String.prefix old (s +:+ t) = false.
Proof.
  induction old as [|a o IH]; intros s t Hp Hlen.
  - destruct s; discriminate.
  - destruct s as [|b s]; [cbn in Hlen; lia|].
    rewrite append_cons, prefix_cons in *.
    destruct (Ascii.eqb a b); [|reflexivity]. cbn [andb] in *.
    apply IH; [exact Hp|cbn in Hlen; lia].
Qed.

Lemma replace_from_skip old new : forall s k,
  String.length s <= k -> PyStr.replace_from k old new s = EmptyString.
Proof.
  induction s as [|c s IH]; intros k Hk; [reflexivity|].
  cbn [PyStr.replace_from]. destruct k as [|k]; [cbn in Hk; lia|].
  apply IH. cbn in Hk. lia.
Qed.

Lemma but_last_snoc s : s <> EmptyString -> exists c, s = but_last s +:+ String c EmptyString.
Proof.
  unfold but_last. induction s as [|a s IH]; [congruence|]. intros _.
  destruct s as [|b s].
  - exists a. reflexivity.
  - destruct IH as [c Hc]; [discriminate|]. exists c.
    cbn [String.length Nat.sub] in *. rewrite Nat.sub_0_r in *.
    cbn [PyStr.take]. rewrite append_cons. f_equal. exact Hc.
Qed.

Lemma length_but_last s : String.length (but_last s) = String.length s - 1.
Proof.
  destruct (string_dec s EmptyString) as [->|Hne]; [reflexivity|].
  destruct (but_last_snoc s Hne) as [c Hc].
  rewrite Hc at 2. rewrite length_append. cbn. lia.
Qed.

Lemma but_last_app p old :
  old <> EmptyString -> but_last (p +:+ old) = p +:+ but_last old.
Proof.
  intros Hne. unfold but_last. rewrite length_append.
  induction p as [|a p IH]; [reflexivity|].
  rewrite !append_cons. cbn [String.length].
  destruct old as [|b o]; [congruence|].
  replace (S (String.length p) + String.length (String b o) - 1)
    with (S (String.length p + String.length (String b o) - 1)) by (cbn; lia).
  cbn [PyStr.take]. f_equal. exact IH.
Qed.

(** Replacing an [old] that occurs at the end only cuts it off there. *)
Lemma replace_last old new : forall p,
  old <> EmptyString ->
  PyStr.contains old (p +:+ but_last old) = false ->
  PyStr.replace (p +:+ old) old new = p +:+ new.
Proof.
  intros p Hne. unfold PyStr.replace.
  induction p as [|c p IH]; intros Hno.
  - rewrite !append_empty_l. destruct old as [|a o]; [congruence|].
    cbn [PyStr.replace_from].
    pose proof (prefix_refl_app (String a o) EmptyString) as Hp.
    rewrite append_empty_r in Hp. rewrite Hp.
    rewrite replace_from_skip by (cbn; lia). rewrite append_empty_r. reflexivity.
  - rewrite !append_cons in Hno |- *. cbn [PyStr.contains] in Hno.
    apply orb_false_iff in Hno as [Hp Hrest].
    cbn [PyStr.replace_from].
    destruct (but_last_snoc old Hne) as [z Hz].
    assert (Hpre : String.prefix old (String c (p +:+ old)) = false).
    { rewrite Hz at 2. rewrite <- append_assoc, <- append_cons.
      apply prefix_false_app; [exact Hp|].
      rewrite <- append_cons, length_append, length_but_last.
      cbn [String.length]. lia. }
    rewrite Hpre, IH by exact Hrest. reflexivity.
Qed.

Lemma contains_short old : forall s,
  String.length s < String.length old -> PyStr.contains old s = false.
Proof.
  induction s as [|c s IH]; intros Hlen.
  - destruct old; [cbn in Hlen; lia|reflexivity].
  - cbn [PyStr.contains]. rewrite IH by (cbn in Hlen; lia).
    destruct old as [|a o]; [cbn in Hlen; lia|].
    rewrite prefix_cons.
    assert (Hshort : forall o s, String.length s < String.length o -> String.prefix o s = false).
    { clear. induction o as [|a o IH]; intros s H; [cbn in H; lia|].
      destruct s as [|b s]; [reflexivity|]. rewrite prefix_cons, IH by (cbn in H; lia).
      apply andb_false_r. }
    rewrite Hshort by (cbn in Hlen; lia). rewrite andb_false_r. reflexivity.
Qed.

Lemma mem_drop c : forall n s, PyStr.mem c (PyStr.drop n s) = true -> PyStr.mem c s = true.
Proof.
  induction n as [|n IH]; intros s H; [destruct s; exact H|].
  destruct s as [|d s]; [exact H|]. cbn [PyStr.drop] in H. cbn [PyStr.mem].
  rewrite (IH _ H). apply orb_true_r.
Qed.

Lemma endswith_mem s p c :
  PyStr.endswith s p = true -> PyStr.mem c p = true -> PyStr.mem c s = true.
Proof.
  unfold PyStr.endswith. intros H Hc. apply andb_prop in H as [_ H].
  apply String.eqb_eq in H. rewrite <- H in Hc. eapply mem_drop. exact Hc.
Qed.

Lemma mem_app_sep c a b : PyStr.mem c (a +:+ String c b) = true.
Proof.
  induction a as [|x a IH]; rewrite ?append_cons, ?append_empty_l; cbn [PyStr.mem].
  - rewrite Ascii.eqb_refl. reflexivity.
  - rewrite IH. apply orb_true_r.
Qed.

Lemma get_root_domain_sub sub a b :
  PyStr.mem "." a = false -> PyStr.mem "." b = false ->
  get_root_domain (sub +:+ "." +:+ a +:+ "." +:+ b) = a +:+ "." +:+ b.
Proof.
  intros Ha Hb. apply (get_root_domain_labels _ (PyStr.split "." sub)).
  change (sub +:+ "." +:+ a +:+ "." +:+ b) with (sub +:+ String "." (a +:+ "." +:+ b)).
  rewrite split_app_sep, (split_two_labels _ _ Ha Hb). reflexivity.
Qed.

End Replace.

Section Pieces.

(** A character that is not in a string is in none of its pieces. *)
Lemma split_piece_mem sep c : forall s p,
  PyStr.mem c s = false -> In p (PyStr.split sep s) -> PyStr.mem c p = false.
Proof.
  induction s as [|a s IH]; intros p Hc Hin.
  - destruct Hin as [<-|[]]. reflexivity.
  - cbn [PyStr.mem] in Hc. apply orb_false_iff in Hc as [Hca Hcs].
    cbn [PyStr.split] in Hin. destruct (Ascii.eqb a sep).
    + destruct Hin as [<-|Hin]; [reflexivity|]. apply IH; assumption.
    + pose proof (split_nonempty sep s) as Hne.
      destruct (PyStr.split sep s) as [|q qs]; [congruence|].
      destruct Hin as [<-|Hin].
      * cbn [PyStr.mem]. rewrite Hca. apply IH; [exact Hcs|left; reflexivity].
      * apply IH; [exact Hcs|right; exact Hin].
Qed.

Lemma lstrip_by_mem drop c : forall s,
  PyStr.mem c s = false -> PyStr.mem c (PyStr.lstrip_by drop s) = false.
Proof.
  induction s as [|a s IH]; intros Hc; [reflexivity|].
  cbn [PyStr.lstrip_by]. destruct (drop a); [|exact Hc].
  apply IH. cbn [PyStr.mem] in Hc. apply orb_false_iff in Hc as [_ Hc]. exact Hc.
Qed.

Lemma rstrip_by_mem drop c : forall s,
  PyStr.mem c s = false -> PyStr.mem c (PyStr.rstrip_by drop s) = false.
Proof.
  induction s as [|a s IH]; intros Hc; [reflexivity|].
  cbn [PyStr.mem] in Hc. apply orb_false_iff in Hc as [Hca Hcs].
  specialize (IH Hcs). cbn [PyStr.rstrip_by].
  destruct (PyStr.rstrip_by drop s) as [|b r].
  - destruct (drop a); [reflexivity|]. cbn [PyStr.mem]. rewrite Hca. reflexivity.
  - cbn [PyStr.mem] in *. rewrite Hca. exact IH.
Qed.

Lemma split_pieces_in sep s p : In p (PyStr.split sep s) -> PyStr.mem sep p = false.
Proof.
  intros Hin. pose proof (split_pieces sep s) as Hall.
  rewrite forallb_forall in Hall. apply negb_true_iff. apply Hall. exact Hin.
Qed.

Lemma strip_value_mem c p :
  PyStr.mem c p = false -> PyStr.mem c (PyStr.strip_chars quote_chars (PyStr.strip p)) = false.
Proof.
  intros H. unfold PyStr.strip_chars, PyStr.strip.
  repeat first [apply rstrip_by_mem | apply lstrip_by_mem]. exact H.
Qed.

End Pieces.

(** ** The extractor, first heuristic *)

Section ExtractorMarked.

Lemma quoted_value_spec line :
  quoted_value line = if has_quote line then Some (first_quoted line) else None.
Proof.
  unfold quoted_value, has_quote, first_quoted, between_first_two.
  destruct (PyStr.mem PyStr.squote line) eqn:Hs; cbn [orb].
  - destruct (split_second _ _ Hs) as [rest ->]. reflexivity.
  - rewrite (split_no_sep _ _ Hs).
    destruct (PyStr.mem PyStr.dquote line) eqn:Hd.
    + destruct (split_second _ _ Hd) as [rest ->]. reflexivity.
    + rewrite (split_no_sep _ _ Hd). reflexivity.
Qed.

Lemma scan_txt_marker_skip before lines :
  forallb (fun l => negb (has_txt_marker l && has_quote l)) before = true ->
  scan_txt_marker (before ++ lines) = scan_txt_marker lines.
Proof.
  induction before as [|l ls IH]; cbn [app scan_txt_marker forallb]; [reflexivity|].
  intros H. apply andb_prop in H as [Hl Hls].
  rewrite quoted_value_spec. apply negb_true_iff in Hl.
  destruct (has_txt_marker l), (has_quote l); try discriminate; auto.
Qed.

Lemma quoted_value_piece line v :
  quoted_value line = Some v ->
  In v (PyStr.split PyStr.squote line) \/ In v (PyStr.split PyStr.dquote line).
Proof.
  unfold quoted_value.
  destruct (PyStr.split PyStr.squote line) as [|p0 [|p1 ps]].
  - destruct (PyStr.split PyStr.dquote line) as [|q0 [|q1 qs]]; try discriminate.
    intros [= <-]. right. right. left. reflexivity.
  - destruct (PyStr.split PyStr.dquote line) as [|q0 [|q1 qs]]; try discriminate.
    intros [= <-]. right. right. left. reflexivity.
  - intros [= <-]. left. right. left. reflexivity.
Qed.

Lemma scan_txt_marker_in lines v :
  scan_txt_marker lines = Some v ->
  exists line, In line lines /\ quoted_value line = Some v.
Proof.
  induction lines as [|l ls IH]; cbn [scan_txt_marker]; [discriminate|].
  destruct (has_txt_marker l).
  - destruct (quoted_value l) as [q|] eqn:Hq.
    + intros [= <-]. exists l. split; [left; reflexivity|exact Hq].
    + intros H. destruct (IH H) as (line & Hin & Hv). exists line. split; [right|]; assumption.
  - intros H. destruct (IH H) as (line & Hin & Hv). exists line. split; [right|]; assumption.
Qed.

Lemma challenge_value_piece line v :
  challenge_value line = Some v ->
  exists p1, In p1 (PyStr.split "=" line) /\
             v = PyStr.strip_chars quote_chars (PyStr.strip p1).
Proof.
  unfold challenge_value. destruct (has_challenge_marker line); [|discriminate].
  destruct (PyStr.split "=" line) as [|p0 [|p1 ps]]; try discriminate.
  cbv zeta. destruct (PyStr.truthy _); [|discriminate].
  intros [= <-]. exists p1. split; [right; left; reflexivity|reflexivity].
Qed.

Lemma scan_challenge_in lines v :
  scan_challenge lines = Some v ->
  exists line, In line lines /\ challenge_value line = Some v.
Proof.
  induction lines as [|l ls IH]; cbn [scan_challenge]; [discriminate|].
  destruct (challenge_value l) as [q|] eqn:Hq.
  - intros [= <-]. exists l. split; [left; reflexivity|exact Hq].
  - intros H. destruct (IH H) as (line & Hin & Hv). exists line. split; [right|]; assumption.
Qed.

End ExtractorMarked.

(** X1.  The first heuristic of [_extract_txt_value]: at the first line
    that carries the TXT-value marker and a quote character, it returns the
    text between the first single quote of that line and the next one (or
    the end of the line), or, when the line has no single quote, the text
    between its double quotes.  Marked lines without a quote are passed
    over, and so is every line that matches the second heuristic only,
    wherever it stands. *)
Theorem extract_txt_marker_value output before line after :
  PyStr.split PyStr.newline output = before ++ line :: after ->
  forallb (fun l => negb (has_txt_marker l && has_quote l)) before = true ->
  has_txt_marker line = true ->
  has_quote line = true ->
  _extract_txt_value output = Some (first_quoted line).
Proof.
  intros Hsplit Hbefore Hmark Hquote.
  unfold _extract_txt_value. rewrite Hsplit, (scan_txt_marker_skip _ _ Hbefore).
  cbn [scan_txt_marker]. rewrite Hmark, quoted_value_spec, Hquote. reflexivity.
Qed.

Lemma extract_txt_marker_value_witness :
  _extract_txt_value
    (String.append "_acme-challenge.www = 'zzz'"
       (String PyStr.newline
          (String.append "TXT value: see below"
             (String PyStr.newline "Txt Value: 'abc' or 'def'"))))
  = Some "abc".
Proof.
  apply (extract_txt_marker_value _ ["_acme-challenge.www = 'zzz'"; "TXT value: see below"]
           "Txt Value: 'abc' or 'def'" []); reflexivity.
Defined.

(** X2.  A value [_extract_txt_value] returns is taken from one line: it
    holds no line break; and a value found by the second heuristic holds no
    [=]. *)
Theorem extract_value_single_line output v :
  _extract_txt_value output = Some v ->
  PyStr.mem PyStr.newline v = false /\
  (no_txt_marker output = true -> PyStr.mem "=" v = false).
Proof.
  intros H. split.
  - unfold _extract_txt_value in H. cbv zeta in H.
    destruct (scan_txt_marker (PyStr.split PyStr.newline output)) as [q|] eqn:Hq.
    + injection H as ->. destruct (scan_txt_marker_in _ _ Hq) as (line & Hin & Hv).
      pose proof (split_pieces_in _ _ _ Hin) as Hline.
      destruct (quoted_value_piece _ _ Hv) as [Hp|Hp];
        eapply split_piece_mem; eauto.
    + destruct (scan_challenge_in _ _ H) as (line & Hin & Hv).
      pose proof (split_pieces_in _ _ _ Hin) as Hline.
      destruct (challenge_value_piece _ _ Hv) as (p1 & Hp & ->).
      apply strip_value_mem. eapply split_piece_mem; eauto.
  - intros Hno. rewrite (extract_unmarked _ Hno) in H.
    destruct (scan_challenge_in _ _ H) as (line & Hin & Hv).
    destruct (challenge_value_piece _ _ Hv) as (p1 & Hp & ->).
    apply strip_value_mem. eapply split_pieces_in. exact Hp.
Qed.

Lemma extract_value_single_line_witness :
  _extract_txt_value "_acme-challenge.www = 'abc' " = Some "abc" /\
  PyStr.mem PyStr.newline "abc" = false /\
  PyStr.mem "=" "abc" = false.
Proof.
  split; [reflexivity|].
  destruct (extract_value_single_line "_acme-challenge.www = 'abc' " "abc" eq_refl)
    as [Hline Heq].
  split; [exact Hline|exact (Heq eq_refl)].
Defined.

(** ** Root domain and record name *)

(** X3.  [get_root_domain] is idempotent, its result is a suffix of the
    domain and has at most two labels, and a domain of at most two labels
    is its own root. *)
Theorem get_root_domain_spec d :
  get_root_domain (get_root_domain d) = get_root_domain d /\
  PyStr.endswith d (get_root_domain d) = true /\
  length (PyStr.split "." (get_root_domain d)) <= 2 /\
  (length (PyStr.split "." d) <= 2 -> get_root_domain d = d).
Proof.
  destruct (Nat.leb_spec 2 (length (PyStr.split "." d))) as [Hlen|Hlen].
  - destruct (split_last_two _ _ Hlen) as (pre & a & b & Hsplit & Ha & Hb).
    pose proof (get_root_domain_labels _ _ _ _ Hsplit) as Hroot.
    pose proof (split_two_labels _ _ Ha Hb) as Htwo.
    rewrite Hroot.
    split; [apply (get_root_domain_labels _ [] a b); exact Htwo|].
    pose proof (join_split "." d) as Hjoin. rewrite Hsplit in Hjoin.
    split; [|split].
    + rewrite <- Hjoin. destruct pre as [|x pre].
      * apply (endswith_app EmptyString).
      * rewrite join_app_two by discriminate.
        rewrite <- append_assoc. apply endswith_app.
    + rewrite Htwo. cbn. lia.
    + intros Hle. rewrite Hsplit, length_app in Hle. cbn in Hle.
      destruct pre; [|cbn in Hle; lia]. rewrite <- Hjoin. reflexivity.
  - assert (Hroot : get_root_domain d = d).
    { unfold get_root_domain.
      replace (2 <=? length (PyStr.split "." d)) with false
        by (symmetry; apply Nat.leb_gt; lia).
      reflexivity. }
    rewrite !Hroot. split; [reflexivity|]. split; [apply (endswith_app EmptyString)|].
    split; [lia|reflexivity].
Qed.

(** X4.  For a domain of two labels the relative name of the challenge
    record, as [add_dns_txt_record] computes it, is [_acme-challenge], and
    the root is the domain itself. *)
Theorem challenge_record_name_apex a b :
  PyStr.mem "." a = false -> PyStr.mem "." b = false ->
  get_root_domain (a +:+ "." +:+ b) = a +:+ "." +:+ b /\
  challenge_record_name (a +:+ "." +:+ b) (get_root_domain (a +:+ "." +:+ b))
    = "_acme-challenge".
Proof.
  intros Ha Hb.
  assert (Hroot : get_root_domain (a +:+ "." +:+ b) = a +:+ "." +:+ b)
    by (apply (get_root_domain_labels _ [] a b), split_two_labels; assumption).
  split; [exact Hroot|]. rewrite Hroot. unfold challenge_record_name.
  assert (Hrep : PyStr.replace ("_acme-challenge." +:+ a +:+ "." +:+ b)
                   ("." +:+ a +:+ "." +:+ b) EmptyString = "_acme-challenge").
  { change ("_acme-challenge." +:+ a +:+ "." +:+ b)
      with ("_acme-challenge" +:+ ("." +:+ a +:+ "." +:+ b)).
    rewrite replace_last; [reflexivity|discriminate|].
    change ("." +:+ a +:+ "." +:+ b) with (String "." (a +:+ "." +:+ b)).
    rewrite !append_cons, append_empty_l. cbn [PyStr.contains].
    rewrite !prefix_cons. cbn [Ascii.eqb Bool.eqb andb orb].
    rewrite (append_empty_l (but_last _)).
    apply contains_short. rewrite length_but_last. cbn [String.length]. lia. }
  rewrite Hrep.
  destruct (PyStr.endswith "_acme-challenge" (a +:+ "." +:+ b)) eqn:E; [|reflexivity].
  pose proof (endswith_mem _ _ "." E (mem_app_sep "." a b)) as Hm. discriminate.
Qed.

Lemma challenge_record_name_apex_witness :
  get_root_domain "example.com" = "example.com" /\
  challenge_record_name "example.com" (get_root_domain "example.com") = "_acme-challenge".
Proof. apply (challenge_record_name_apex "example" "com"); reflexivity. Defined.

(** X5.  For a domain [sub.a.b] the root is [a.b], and the relative name
    of the challenge record is [_acme-challenge.sub], so that name and root
    joined by a dot give [_acme-challenge.sub.a.b], provided [.a.b] occurs in
    [_acme-challenge.sub.a.b] at its end only and [_acme-challenge.sub] does
    not itself end in [a.b]. *)
Theorem challenge_record_name_subdomain sub a b :
  PyStr.mem "." a = false -> PyStr.mem "." b = false ->
  occurs_only_at_end ("." +:+ a +:+ "." +:+ b)
    ("_acme-challenge." +:+ sub +:+ "." +:+ a +:+ "." +:+ b) = true ->
  PyStr.endswith ("_acme-challenge." +:+ sub) (a +:+ "." +:+ b) = false ->
  get_root_domain (sub +:+ "." +:+ a +:+ "." +:+ b) = a +:+ "." +:+ b /\
  challenge_record_name (sub +:+ "." +:+ a +:+ "." +:+ b)
    (get_root_domain (sub +:+ "." +:+ a +:+ "." +:+ b))
    = "_acme-challenge." +:+ sub.
Proof.
  intros Ha Hb Honce Hend.
  pose proof (get_root_domain_sub sub a b Ha Hb) as Hroot.
  split; [exact Hroot|]. rewrite Hroot. unfold challenge_record_name.
  assert (Hassoc : "_acme-challenge." +:+ sub +:+ "." +:+ a +:+ "." +:+ b
                   = ("_acme-challenge." +:+ sub) +:+ ("." +:+ a +:+ "." +:+ b))
    by (rewrite append_assoc; reflexivity).
  rewrite Hassoc in *.
  unfold occurs_only_at_end in Honce. apply negb_true_iff in Honce.
  assert (Hold : "." +:+ a +:+ "." +:+ b <> EmptyString)
    by (change ("." +:+ a +:+ "." +:+ b) with (String "." (a +:+ "." +:+ b)); discriminate).
  rewrite but_last_app in Honce by exact Hold.
  rewrite (replace_last _ EmptyString _ Hold Honce).
  rewrite append_empty_r, Hend. reflexivity.
Qed.

Lemma challenge_record_name_subdomain_witness :
  get_root_domain "www.example.com" = "example.com" /\
  challenge_record_name "www.example.com" (get_root_domain "www.example.com")
    = "_acme-challenge.www".
Proof. apply (challenge_record_name_subdomain "www" "example" "com"); reflexivity. Defined.

(** Where the provisos of X5 fail, [str.replace] cuts the root out of
    the middle of the name, or the slice takes too much. *)
Example challenge_record_name_overlap :
  get_root_domain "com.com.co" = "com.co" /\
  challenge_record_name "com.com.co" "com.co" = "_acme-challengem.co" /\
  challenge_record_name "e.e.e" "e.e" = "_acme-challen".
Proof. repeat split; reflexivity. Qed.

(** ** Computations that never raise, and what they leave alone *)

Section NeverRaises.

Lemma never_raises_ret {A} (a : A) : never_raises (ret a).
Proof. intros w. eexists _, _. reflexivity. Qed.

Lemma never_raises_log lvl msg : never_raises (log lvl msg).
Proof. intros w. eexists _, _. reflexivity. Qed.

Lemma never_raises_gets {A} (g : World -> A) : never_raises (gets g).
Proof. intros w. eexists _, _. reflexivity. Qed.

Lemma never_raises_extern {A} c (g : list Call -> A) :
  never_raises (extern c (fun h => Ok (g h))).
Proof. intros w. eexists _, _. reflexivity. Qed.

Lemma never_raises_bind {A B} (m : M A) (k : A -> M B) :
  never_raises m -> (forall a, never_raises (k a)) -> never_raises (bind m k).
Proof.
  intros Hm Hk w. unfold bind. destruct (Hm w) as (a & w1 & ->). apply Hk.
Qed.

(** A [try] block whose handler returns catches everything. *)
Lemma never_raises_try_except {A} (body : M A) (handler : exn -> M A) :
  (forall e, never_raises (handler e)) -> never_raises (try_except body handler).
Proof.
  intros Hk w. unfold try_except. destruct (body w) as [[a|e] w1].
  - eexists _, _. reflexivity.
  - apply Hk.
Qed.

End NeverRaises.

#[export] Hint Resolve never_raises_ret never_raises_log never_raises_gets
  never_raises_extern : frame.

Ltac never_raises_step :=
  first
    [ progress intros
    | solve [auto with frame nocore]
    | apply never_raises_bind
    | apply never_raises_try_except
    | match goal with
      | |- never_raises (match ?x with _ => _ end) => destruct x
      end ].

Ltac never_raises_tac := repeat never_raises_step.

Section Traces.

Context (sel : Call -> bool).

Lemma trace_log lvl msg : preserves (trace_of sel) (log lvl msg).
Proof. intros w. reflexivity. Qed.

Lemma trace_set_cert_records r : preserves (trace_of sel) (set_cert_records r).
Proof. intros w. reflexivity. Qed.

Lemma trace_set_cert_file r : preserves (trace_of sel) (set_cert_file r).
Proof. intros w. reflexivity. Qed.

Lemma trace_extern {A} c (answer : list Call -> Result A) :
  sel c = false -> preserves (trace_of sel) (extern c answer).
Proof.
  intros Hc w. unfold trace_of, extern. cbn [snd calls].
  rewrite List.filter_app. cbn [List.filter]. rewrite Hc. apply app_nil_r.
Qed.

End Traces.

#[export] Hint Resolve trace_log trace_set_cert_records trace_set_cert_file : frame.

Ltac trace_step :=
  first
    [ progress intros
    | solve [auto with frame nocore]
    | apply preserves_bind
    | apply preserves_try_except
    | apply trace_extern; reflexivity
    | apply runs_extern; reflexivity
    | match goal with
      | |- preserves _ (match ?x with _ => _ end) => destruct x
      end ].

Ltac trace_frame := repeat trace_step.

Section Failures.

Variable cfg : Config.
Variable env : Env.

Lemma never_raises_get_certificate_paths d : never_raises (get_certificate_paths cfg env d).
Proof. unfold_methods. never_raises_tac. Qed.

Lemma never_raises_check_certificate_exists d :
  never_raises (check_certificate_exists cfg env d).
Proof. unfold_methods. never_raises_tac. Qed.

Lemma never_raises_issue_certificate d force :
  never_raises (issue_certificate cfg env d force).
Proof. unfold_methods. never_raises_tac. Qed.

Lemma never_raises_upload_cert_to_qiniu d : never_raises (upload_cert_to_qiniu cfg env d).
Proof. unfold_methods. never_raises_tac. Qed.

Lemma never_raises_check_cert_expiry d : never_raises (check_cert_expiry cfg env d).
Proof. unfold_methods. never_raises_tac. Qed.

Lemma never_raises_add_dns_txt_record d v : never_raises (add_dns_txt_record env d v).
Proof. unfold_methods. never_raises_tac. Qed.

Lemma runs_add_dns_txt_record d v : preserves runs (add_dns_txt_record env d v).
Proof. unfold_methods. frame. Qed.

Lemma deletes_add_dns_txt_record d v :
  preserves (trace_of is_delete) (add_dns_txt_record env d v).
Proof. unfold_methods. trace_frame. Qed.

Lemma deletes_issue_command d force :
  preserves (trace_of is_delete) (issue_command cfg env d force).
Proof. unfold_methods. trace_frame. Qed.

End Failures.

(** X6.  A failure of the DNS provider, of acme.sh, of the file system or
    of the CDN inside [_find_dns_record], [add_dns_txt_record],
    [delete_dns_txt_record], [check_certificate_exists],
    [issue_certificate], [update_cdn_ssl_config] or [upload_cert_to_qiniu]
    never leaves the method as an exception: each of them returns a value
    in every world. *)
Theorem failures_are_results cfg env :
  (forall domain rr record_type, never_raises (_find_dns_record env domain rr record_type)) /\
  (forall domain value, never_raises (add_dns_txt_record env domain value)) /\
  (forall record_id, never_raises (delete_dns_txt_record env record_id)) /\
  (forall domain, never_raises (check_certificate_exists cfg env domain)) /\
  (forall domain force_renew, never_raises (issue_certificate cfg env domain force_renew)) /\
  (forall domain cert_id, never_raises (update_cdn_ssl_config cfg env domain cert_id)) /\
  (forall domain, never_raises (upload_cert_to_qiniu cfg env domain)).
Proof.
  repeat split; intros.
  - unfold_methods. never_raises_tac.
  - apply never_raises_add_dns_txt_record.
  - unfold_methods. never_raises_tac.
  - apply never_raises_check_certificate_exists.
  - apply never_raises_issue_certificate.
  - unfold_methods. never_raises_tac.
  - apply never_raises_upload_cert_to_qiniu.
Qed.

(** X7.  [issue_certificate] leaves the record store as it is, sends no
    request to the CDN and writes no record file, however it ends. *)
Theorem issue_certificate_frame cfg env d force :
  preserves store (issue_certificate cfg env d force) /\
  preserves (trace_of is_http) (issue_certificate cfg env d force) /\
  preserves (trace_of is_write) (issue_certificate cfg env d force).
Proof.
  split; [apply store_issue_certificate|].
  split; unfold_methods; trace_frame.
Qed.

(** X8.  [upload_cert_to_qiniu] leaves the record store as it is, runs no
    acme.sh, sends no request to the DNS provider and writes no record
    file, however it ends. *)
Theorem upload_cert_to_qiniu_frame cfg env d :
  preserves store (upload_cert_to_qiniu cfg env d) /\
  preserves runs (upload_cert_to_qiniu cfg env d) /\
  preserves (trace_of is_dns) (upload_cert_to_qiniu cfg env d) /\
  preserves (trace_of is_write) (upload_cert_to_qiniu cfg env d).
Proof.
  split; [apply store_upload_cert_to_qiniu|].
  split; [|split]; unfold_methods; trace_frame.
Qed.

(** ** The DNS record *)

(** X9.  When the provider query finds no record with an identifier, be
    it that it answers with no record or that it raises, which
    [_find_dns_record] turns into None, [add_dns_txt_record] issues a
    create call for the root domain, the record name, the type TXT and the
    value.  When the create call returns, the method waits 60 seconds and
    returns the new identifier; when it raises, the method returns None
    without waiting. *)
Theorem add_dns_txt_record_creates env d v w :
  (forall rid others,
     env_describe env (calls w) (get_root_domain d)
       (challenge_record_name d (get_root_domain d)) "TXT" = Ok (rid :: others) ->
     rid = EmptyString) ->
  exists r w',
    add_dns_txt_record env d v w = (Ok r, w') /\
    match env_add_record env
            (calls w ++ [CDescribeDomainRecords (get_root_domain d)
                           (challenge_record_name d (get_root_domain d)) "TXT"])
            (get_root_domain d) (challenge_record_name d (get_root_domain d)) "TXT" v with
    | Ok rid =>
        r = Some rid /\
        calls w' = calls w ++
          [CDescribeDomainRecords (get_root_domain d)
             (challenge_record_name d (get_root_domain d)) "TXT";
           CAddDomainRecord (get_root_domain d)
             (challenge_record_name d (get_root_domain d)) "TXT" v;
           CSleep 60]
    | Raise _ =>
        r = None /\
        calls w' = calls w ++
          [CDescribeDomainRecords (get_root_domain d)
             (challenge_record_name d (get_root_domain d)) "TXT";
           CAddDomainRecord (get_root_domain d)
             (challenge_record_name d (get_root_domain d)) "TXT" v]
    end.
Proof.
  intros Hnone.
  unfold add_dns_txt_record, _find_dns_record.
  rewrite bind_log, try_except_run. unfold bind at 1.
  rewrite try_except_run, bind_extern.
  change (calls (logged w INFO (MsgAddTxt (challenge_record_name d (get_root_domain d))
                                  (get_root_domain d) v))) with (calls w).
  destruct (env_describe env (calls w) _ _ "TXT") as [[|rid others]|e] eqn:Hdesc;
    [ | rewrite (Hnone rid others eq_refl) | cbv beta iota; rewrite bind_log ];
    cbn [ret]; rewrite bind_extern; cbn [calls logged called];
    (destruct (env_add_record env _ _ _ "TXT" v) as [new_id|e'];
     [ rewrite !bind_log, bind_extern | cbv beta iota; rewrite bind_log ];
     eexists _, _; (split; [reflexivity|]); (split; [reflexivity|]);
     cbn [calls logged called]; rewrite <- !app_assoc; reflexivity).
Qed.

Lemma add_dns_txt_record_creates_witness :
  exists w',
    add_dns_txt_record env_query_raises "www.example.com" "abc123" empty_world
      = (Ok (Some "9001"), w') /\
    calls w' =
      [CDescribeDomainRecords "example.com" "_acme-challenge.www" "TXT";
       CAddDomainRecord "example.com" "_acme-challenge.www" "TXT" "abc123";
       CSleep 60].
Proof.
  destruct (add_dns_txt_record_creates env_query_raises "www.example.com" "abc123"
              empty_world ltac:(intros rid others H; discriminate H))
    as (r & w' & Hrun & Hr).
  change (env_add_record env_query_raises _ _ _ _ _) with (Ok "9001" : Result string) in Hr.
  cbv beta iota in Hr. destruct Hr as [-> Hcalls].
  exists w'. split; [exact Hrun|]. rewrite Hcalls. vm_compute. reflexivity.
Defined.

(** ** The two runs of acme.sh *)

Section Attempt.

Variable cfg : Config.
Variable env : Env.

Lemma issue_attempt_first_raises d cmd w e :
  env_run env (calls w) cmd = Raise e ->
  issue_attempt cfg env d cmd w
  = (Ok false,
     logged (called (logged w INFO MsgRunAcmeFirst) (CRun cmd)) ERROR (MsgIssueException e)).
Proof.
  intros Hrun. unfold issue_attempt, run_subprocess.
  rewrite try_except_run, bind_log, bind_extern.
  change (calls (logged w INFO MsgRunAcmeFirst)) with (calls w).
  rewrite Hrun. cbv beta iota. rewrite bind_log. reflexivity.
Qed.

Lemma issue_attempt_no_value d cmd w result :
  env_run env (calls w) cmd = Ok result ->
  unusable (_extract_txt_value (stdout result +:+ stderr result)) = true ->
  issue_attempt cfg env d cmd w = (Ok false, extract_failed w cmd result).
Proof.
  intros Hrun Hno. unfold issue_attempt, run_subprocess.
  rewrite try_except_run, bind_log, bind_extern.
  change (calls (logged w INFO MsgRunAcmeFirst)) with (calls w).
  rewrite Hrun.
  destruct (_extract_txt_value _) as [[|c s]|]; [|discriminate Hno|];
    rewrite !bind_log; reflexivity.
Qed.

Lemma issue_attempt_no_record d cmd w result txt r w2 :
  env_run env (calls w) cmd = Ok result ->
  _extract_txt_value (stdout result +:+ stderr result) = Some txt ->
  txt <> EmptyString ->
  add_dns_txt_record env d txt (challenge_read w cmd txt) = (Ok r, w2) ->
  unusable r = true ->
  issue_attempt cfg env d cmd w = (Ok false, logged w2 ERROR MsgAddRecordFailed).
Proof.
  intros Hrun Htxt Hne Hadd Hr. unfold issue_attempt, run_subprocess.
  rewrite try_except_run, bind_log, bind_extern.
  change (calls (logged w INFO MsgRunAcmeFirst)) with (calls w).
  rewrite Hrun, Htxt. destruct txt as [|c s]; [congruence|].
  rewrite bind_log. unfold bind at 1. fold (challenge_read w cmd (String c s)).
  rewrite Hadd.
  destruct r as [[|c' s']|]; [|discriminate Hr|]; rewrite bind_log; reflexivity.
Qed.

Lemma unusable_false v : unusable v = false -> exists s, v = Some s /\ s <> EmptyString.
Proof.
  destruct v as [[|c s]|]; try discriminate. intros _.
  eexists. split; [reflexivity|discriminate].
Qed.

End Attempt.

(** X10.  When the first run of acme.sh returns and the value scraped from
    its output is None or the empty string (the first heuristic returns
    what stands between the quotes, be it nothing), [issue_certificate]
    returns false after that one run, having logged the error and the raw
    output and sent nothing to the DNS provider. *)
Theorem issue_certificate_unusable_value cfg env d force w cmd w1 result :
  issue_command cfg env d force w = (Ok cmd, w1) ->
  env_run env (calls w1) cmd = Ok result ->
  unusable (_extract_txt_value (stdout result +:+ stderr result)) = true ->
  issue_certificate cfg env d force w = (Ok false, extract_failed w1 cmd result) /\
  calls (extract_failed w1 cmd result) = calls w1 ++ [CRun cmd] /\
  trace_of is_dns (extract_failed w1 cmd result) = trace_of is_dns w.
Proof.
  intros Hcmd Hrun Hno. split; [|split].
  - unfold issue_certificate. unfold bind at 1. rewrite Hcmd.
    apply issue_attempt_no_value; assumption.
  - reflexivity.
  - assert (Hdns : preserves (trace_of is_dns) (issue_command cfg env d force))
      by (unfold_methods; trace_frame).
    specialize (Hdns w). rewrite Hcmd in Hdns. cbn [snd] in Hdns. rewrite <- Hdns.
    unfold trace_of, extract_failed. cbn [calls logged called].
    rewrite List.filter_app. cbn. apply app_nil_r.
Qed.

Lemma issue_certificate_unusable_value_witness :
  _extract_txt_value "TXT value: ''" = Some EmptyString /\
  fst (issue_certificate sample_cfg env_empty_value "www.example.com" false empty_world)
    = Ok false /\
  trace_of is_dns
    (snd (issue_certificate sample_cfg env_empty_value "www.example.com" false empty_world))
    = [].
Proof.
  split; [reflexivity|].
  assert (H1 : issue_command sample_cfg env_empty_value "www.example.com" false empty_world
               = (Ok ["/root/.acme.sh/acme.sh"; "--issue"; "--dns"; "-d"; "www.example.com";
                      manual_mode_flag],
                  snd (issue_command sample_cfg env_empty_value "www.example.com" false
                         empty_world)))
    by (vm_compute; reflexivity).
  destruct (issue_certificate_unusable_value sample_cfg env_empty_value
              "www.example.com" false empty_world _ _
              {| returncode := 0; stdout := "TXT value: ''"; stderr := EmptyString |}
              H1 eq_refl eq_refl) as (Hissue & _ & Hdns).
  rewrite Hissue. split; [reflexivity|exact Hdns].
Defined.

(** X11.  When the challenge value was read and [add_dns_txt_record]
    returns no identifier, [issue_certificate] logs the error and returns
    false: acme.sh is not run a second time, and no record is deleted. *)
Theorem issue_certificate_dns_failure cfg env d force w cmd w1 result txt r w2 :
  issue_command cfg env d force w = (Ok cmd, w1) ->
  env_run env (calls w1) cmd = Ok result ->
  _extract_txt_value (stdout result +:+ stderr result) = Some txt ->
  txt <> EmptyString ->
  add_dns_txt_record env d txt (challenge_read w1 cmd txt) = (Ok r, w2) ->
  unusable r = true ->
  issue_certificate cfg env d force w = (Ok false, logged w2 ERROR MsgAddRecordFailed) /\
  runs w2 = runs w ++ [cmd] /\
  trace_of is_delete w2 = trace_of is_delete w.
Proof.
  intros Hcmd Hrun Htxt Hne Hadd Hr. split; [|split].
  - unfold issue_certificate. unfold bind at 1. rewrite Hcmd.
    eapply issue_attempt_no_record; eassumption.
  - pose proof (runs_add_dns_txt_record env d txt (challenge_read w1 cmd txt)) as Hruns.
    rewrite Hadd in Hruns. cbn [snd] in Hruns. rewrite Hruns.
    unfold challenge_read. rewrite runs_logged, runs_called, runs_logged.
    destruct (issue_command_total cfg env d force w) as (cmd' & w1' & Hcmd' & Hr1).
    rewrite Hcmd in Hcmd'. injection Hcmd' as <- <-. rewrite Hr1. reflexivity.
  - pose proof (deletes_add_dns_txt_record env d txt (challenge_read w1 cmd txt)) as Hdel.
    rewrite Hadd in Hdel. cbn [snd] in Hdel. rewrite Hdel.
    pose proof (deletes_issue_command cfg env d force w) as Hdel1.
    rewrite Hcmd in Hdel1. cbn [snd] in Hdel1. rewrite <- Hdel1.
    unfold trace_of, challenge_read. cbn [calls logged called].
    rewrite List.filter_app. cbn. apply app_nil_r.
Qed.

Lemma issue_certificate_dns_failure_witness :
  fst (issue_certificate sample_cfg env_update_raises "www.example.com" false empty_world)
    = Ok false /\
  runs (snd (issue_certificate sample_cfg env_update_raises "www.example.com" false
               empty_world))
    = [["/root/.acme.sh/acme.sh"; "--issue"; "--dns"; "-d"; "www.example.com";
        manual_mode_flag]].
Proof.
  assert (H1 : issue_command sample_cfg env_update_raises "www.example.com" false empty_world
               = (Ok ["/root/.acme.sh/acme.sh"; "--issue"; "--dns"; "-d"; "www.example.com";
                      manual_mode_flag],
                  snd (issue_command sample_cfg env_update_raises "www.example.com" false
                         empty_world)))
    by (vm_compute; reflexivity).
  destruct (issue_certificate_dns_failure sample_cfg env_update_raises
              "www.example.com" false empty_world _ _
              {| returncode := 0; stdout := challenge_output; stderr := EmptyString |}
              "abc123" None
              (snd (add_dns_txt_record env_update_raises "www.example.com" "abc123"
                      (challenge_read
                         (snd (issue_command sample_cfg env_update_raises "www.example.com"
                                 false empty_world))
                         ["/root/.acme.sh/acme.sh"; "--issue"; "--dns"; "-d";
                          "www.example.com"; manual_mode_flag] "abc123")))
              H1 eq_refl eq_refl ltac:(discriminate) ltac:(vm_compute; reflexivity) eq_refl)
    as (Hissue & Hruns & _).
  rewrite Hissue. split; [reflexivity|exact Hruns].
Defined.

(** X12.  [issue_certificate] runs acme.sh once or twice: the command it
    built, and then at most the renew command.  It returns true only after
    both runs, when the second one returned the exit code 0, and then the
    last thing it called was the deletion of the challenge record. *)
Theorem issue_certificate_at_most_two_runs cfg env d force w :
  exists b w' cmd,
    issue_certificate cfg env d force w = (Ok b, w') /\
    (runs w' = runs w ++ [cmd] \/ runs w' = runs w ++ [cmd; renew_command cfg env d]) /\
    (b = true ->
     runs w' = runs w ++ [cmd; renew_command cfg env d] /\
     exists rid h result_renew,
       rid <> EmptyString /\
       last (calls w') = Some (CDeleteDomainRecord rid) /\
       env_run env h (renew_command cfg env d) = Ok result_renew /\
       returncode result_renew = 0%Z).
Proof.
  destruct (issue_command_total cfg env d force w) as (cmd & w1 & Hcmd & Hr1).
  assert (Hissue : issue_certificate cfg env d force w = issue_attempt cfg env d cmd w1)
    by (unfold issue_certificate; unfold bind at 1; rewrite Hcmd; reflexivity).
  rewrite Hissue.
  destruct (env_run env (calls w1) cmd) as [result|e] eqn:Hrun.
  2:{ rewrite (issue_attempt_first_raises cfg env d cmd w1 e Hrun).
      eexists _, _, cmd. split; [reflexivity|].
      split; [|discriminate]. left.
      rewrite runs_logged, runs_called, runs_logged, Hr1. reflexivity. }
  destruct (unusable (_extract_txt_value (stdout result +:+ stderr result))) eqn:Hval.
  { rewrite (issue_attempt_no_value cfg env d cmd w1 result Hrun Hval).
    eexists _, _, cmd. split; [reflexivity|].
    split; [|discriminate]. left. unfold extract_failed.
    rewrite !runs_logged, runs_called, runs_logged, Hr1. reflexivity. }
  destruct (unusable_false _ Hval) as (txt & Htxt & Htne).
  destruct (never_raises_add_dns_txt_record env d txt (challenge_read w1 cmd txt))
    as (r & w2 & Hadd).
  pose proof (runs_add_dns_txt_record env d txt (challenge_read w1 cmd txt)) as Hr2.
  rewrite Hadd in Hr2. cbn [snd] in Hr2. unfold challenge_read in Hr2.
  rewrite runs_logged, runs_called, runs_logged, Hr1 in Hr2. cbn [run_of] in Hr2.
  destruct (unusable r) eqn:Hrec.
  { rewrite (issue_attempt_no_record cfg env d cmd w1 result txt r w2 Hrun Htxt Htne Hadd Hrec).
    eexists _, _, cmd. split; [reflexivity|].
    split; [|discriminate]. left. rewrite runs_logged. exact Hr2. }
  destruct (unusable_false _ Hrec) as (rid & -> & Hrne).
  pose proof (issue_attempt_cleanup cfg env d cmd w1 result txt rid w2
                Hrun Htxt Htne Hadd Hrne) as Hclean.
  destruct (env_run env (calls w2) (renew_command cfg env d)) as [result_renew|e] eqn:Hrenew.
  - destruct Hclean as (w' & Hrun' & Hcalls).
    assert (Hruns : runs w' = runs w ++ [cmd; renew_command cfg env d]).
    { unfold runs in *. rewrite Hcalls, flat_map_app, Hr2, <- app_assoc. reflexivity. }
    exists (returncode result_renew =? 0)%Z, w', cmd. split; [exact Hrun'|].
    split; [right; exact Hruns|]. intros Hb. split; [exact Hruns|].
    exists rid, (calls w2), result_renew. split; [exact Hrne|].
    split; [|split; [exact Hrenew|apply Z.eqb_eq; exact Hb]].
    rewrite Hcalls.
    change [CRun (renew_command cfg env d); CDeleteDomainRecord rid]
      with ([CRun (renew_command cfg env d)] ++ [CDeleteDomainRecord rid]).
    rewrite app_assoc. apply last_snoc.
  - rewrite Hclean. eexists _, _, cmd. split; [reflexivity|].
    split; [|discriminate]. right.
    rewrite runs_logged, runs_called, runs_logged, Hr2, <- app_assoc. reflexivity.
Qed.

(** X13.  Once the challenge record is in place and the second run of
    acme.sh returns, [issue_certificate] calls the deletion of the record
    and returns true exactly when the exit code is 0, whether the deletion
    succeeds or raises: a record that cannot be deleted does not fail the
    issuance. *)
Theorem issue_certificate_cleanup cfg env d force w cmd w1 result txt rid w2 result_renew :
  issue_command cfg env d force w = (Ok cmd, w1) ->
  env_run env (calls w1) cmd = Ok result ->
  _extract_txt_value (stdout result +:+ stderr result) = Some txt ->
  txt <> EmptyString ->
  add_dns_txt_record env d txt (challenge_read w1 cmd txt) = (Ok (Some rid), w2) ->
  rid <> EmptyString ->
  env_run env (calls w2) (renew_command cfg env d) = Ok result_renew ->
  exists w',
    issue_certificate cfg env d force w = (Ok (returncode result_renew =? 0)%Z, w') /\
    calls w' = calls w2 ++ [CRun (renew_command cfg env d); CDeleteDomainRecord rid].
Proof.
  intros Hcmd Hrun Htxt Htne Hadd Hrne Hrenew.
  pose proof (issue_attempt_cleanup cfg env d cmd w1 result txt rid w2
                Hrun Htxt Htne Hadd Hrne) as Hclean.
  rewrite Hrenew in Hclean. destruct Hclean as (w' & Hrun' & Hcalls).
  exists w'. split; [|exact Hcalls].
  unfold issue_certificate. unfold bind at 1. rewrite Hcmd. exact Hrun'.
Qed.

Lemma issue_certificate_cleanup_witness :
  exists w',
    issue_certificate sample_cfg env_delete_raises "www.example.com" false empty_world
      = (Ok true, w') /\
    last (calls w') = Some (CDeleteDomainRecord "9001") /\
    last (logs w') = Some (INFO, MsgIssueSucceeded).
Proof.
  assert (H1 : issue_command sample_cfg env_delete_raises "www.example.com" false empty_world
               = (Ok ["/root/.acme.sh/acme.sh"; "--issue"; "--dns"; "-d"; "www.example.com";
                      manual_mode_flag],
                  snd (issue_command sample_cfg env_delete_raises "www.example.com" false
                         empty_world)))
    by (vm_compute; reflexivity).
  destruct (issue_certificate_cleanup sample_cfg env_delete_raises
              "www.example.com" false empty_world _ _
              {| returncode := 0; stdout := challenge_output; stderr := EmptyString |}
              "abc123" "9001"
              (snd (add_dns_txt_record env_delete_raises "www.example.com" "abc123"
                      (challenge_read
                         (snd (issue_command sample_cfg env_delete_raises "www.example.com"
                                 false empty_world))
                         ["/root/.acme.sh/acme.sh"; "--issue"; "--dns"; "-d";
                          "www.example.com"; manual_mode_flag] "abc123")))
              {| returncode := 0; stdout := "Cert success."; stderr := EmptyString |}
              H1 eq_refl eq_refl ltac:(discriminate) ltac:(vm_compute; reflexivity)
              ltac:(discriminate) ltac:(vm_compute; reflexivity))
    as (w' & Hissue & Hcalls).
  exists w'. split; [exact Hissue|]. split.
  - rewrite Hcalls.
    change [CRun (renew_command sample_cfg env_delete_raises "www.example.com");
            CDeleteDomainRecord "9001"]
      with ([CRun (renew_command sample_cfg env_delete_raises "www.example.com")]
            ++ [CDeleteDomainRecord "9001"]).
    rewrite app_assoc. apply last_snoc.
  - assert (Hw : w' = snd (issue_certificate sample_cfg env_delete_raises "www.example.com"
                             false empty_world)) by (rewrite Hissue; reflexivity).
    rewrite Hw. vm_compute. reflexivity.
Defined.

(** ** The upload *)

(** X14.  When [upload_cert_to_qiniu] returns true, it has read the chain
    and the key from the directory [get_certificate_paths] chose, read the
    clock, posted the key as [pri] and the chain as [ca] under the name of
    the domain and the time stamp, and put the HTTPS configuration of the
    domain with the [certID] of the answer to the post (be it absent), in
    this order and nothing else; and both requests were answered with the
    status 200. *)
Theorem upload_cert_to_qiniu_success cfg env d w w' :
  upload_cert_to_qiniu cfg env d w = (Ok true, w') ->
  exists paths w1 cert_content key_content now cert_id,
    get_certificate_paths cfg env d (logged w INFO MsgUploadStart) = (Ok paths, w1) /\
    env_read_file env (calls w1) (path_cert paths) = Ok cert_content /\
    env_read_file env (calls w1 ++ [CReadFile (path_cert paths)]) (path_key paths)
      = Ok key_content /\
    calls w' = calls w1 ++
      [CReadFile (path_cert paths); CReadFile (path_key paths); CNow;
       CPostSslCert sslcert_url (qiniu_token env sslcert_url)
         (d +:+ "_" +:+ compact_stamp now) d key_content cert_content;
       CPutHttpsConf (httpsconf_url d) (qiniu_token env (httpsconf_url d)) cert_id
         (default false (force_https cfg))] /\
    (exists h response,
       env_post env h sslcert_url (qiniu_token env sslcert_url)
         (d +:+ "_" +:+ compact_stamp now) d key_content cert_content = Ok response /\
       status_code response = 200%Z /\ json_certID response = Ok cert_id) /\
    (exists h response,
       env_put env h (httpsconf_url d) (qiniu_token env (httpsconf_url d)) cert_id
         (default false (force_https cfg)) = Ok response /\
       status_code response = 200%Z).
Proof.
  intros H. unfold upload_cert_to_qiniu in H. rewrite bind_log in H.
  unfold bind at 1 in H.
  destruct (never_raises_get_certificate_paths cfg env d (logged w INFO MsgUploadStart))
    as (paths & w1 & Hpaths).
  rewrite Hpaths in H. exists paths, w1.
  unfold bind at 1 in H. rewrite try_except_run in H. unfold read_file in H.
  rewrite bind_extern in H.
  destruct (env_read_file env (calls w1) (path_cert paths)) as [cert_content|e] eqn:Hcert;
    [|cbv beta iota in H; rewrite bind_log in H; discriminate H].
  rewrite bind_extern in H. cbn [calls called] in H.
  destruct (env_read_file env (calls w1 ++ _) (path_key paths)) as [key_content|e] eqn:Hkey;
    [|cbv beta iota in H; rewrite bind_log in H; discriminate H].
  rewrite bind_log in H. cbn [ret] in H. cbv beta iota in H.
  rewrite try_except_run in H. unfold datetime_now in H.
  rewrite bind_extern, bind_extern in H. cbn [calls called logged] in H.
  match type of H with
  | context [env_post env ?h ?u ?t ?n ?c ?k ?ca] =>
      destruct (env_post env h u t n c k ca) as [response|e] eqn:Hpost;
        [|cbv beta iota in H; rewrite bind_log in H; discriminate H]
  end.
  destruct (status_code response =? 200)%Z eqn:Hstatus;
    [|rewrite bind_log in H; discriminate H].
  rewrite bind_lift in H.
  destruct (json_certID response) as [cert_id|e] eqn:Hid;
    [|cbv beta iota in H; rewrite bind_log in H; discriminate H].
  rewrite bind_log in H. unfold update_cdn_ssl_config in H.
  rewrite bind_log, try_except_run, bind_extern in H. cbn [calls called logged] in H.
  match type of H with
  | context [env_put env ?h ?u ?t ?c ?f] =>
      destruct (env_put env h u t c f) as [response2|e] eqn:Hput;
        [|cbv beta iota in H; rewrite bind_log in H; discriminate H]
  end.
  destruct (status_code response2 =? 200)%Z eqn:Hstatus2;
    rewrite bind_log in H; [|discriminate H].
  injection H as <-.
  exists cert_content, key_content,
    (PyDatetime.naive
       (env_now env ((calls w1 ++ [CReadFile (path_cert paths)])
                     ++ [CReadFile (path_key paths)]))), cert_id.
  split; [exact Hpaths|]. split; [reflexivity|]. split; [reflexivity|].
  split; [cbn [calls called logged]; rewrite <- !app_assoc; reflexivity|].
  split.
  - eexists _, response. split; [exact Hpost|]. split; [apply Z.eqb_eq; exact Hstatus|exact Hid].
  - eexists _, response2. split; [exact Hput|apply Z.eqb_eq; exact Hstatus2].
Qed.

Lemma upload_cert_to_qiniu_success_witness :
  exists paths w1 cert_content key_content now cert_id,
    get_certificate_paths sample_cfg env_artifacts "www.example.com"
      (logged empty_world INFO MsgUploadStart) = (Ok paths, w1) /\
    calls (snd (upload_cert_to_qiniu sample_cfg env_artifacts "www.example.com" empty_world))
    = calls w1 ++
      [CReadFile (path_cert paths); CReadFile (path_key paths); CNow;
       CPostSslCert sslcert_url (qiniu_token env_artifacts sslcert_url)
         ("www.example.com" +:+ "_" +:+ compact_stamp now) "www.example.com"
         key_content cert_content;
       CPutHttpsConf (httpsconf_url "www.example.com")
         (qiniu_token env_artifacts (httpsconf_url "www.example.com")) cert_id
         (default false (force_https sample_cfg))].
Proof.
  destruct (upload_cert_to_qiniu_success sample_cfg env_artifacts "www.example.com"
              empty_world
              (snd (upload_cert_to_qiniu sample_cfg env_artifacts "www.example.com"
                      empty_world))
              ltac:(vm_compute; reflexivity))
    as (paths & w1 & cert_content & key_content & now & cert_id & Hp & _ & _ & Hcalls & _).
  exists paths, w1, cert_content, key_content, now, cert_id.
  split; [exact Hp|exact Hcalls].
Defined.

(** X15.  When reading the chain or reading the key raises,
    [upload_cert_to_qiniu] logs the error and returns false without any
    request to the CDN. *)
Theorem upload_cert_to_qiniu_unreadable cfg env d w paths w1 :
  get_certificate_paths cfg env d (logged w INFO MsgUploadStart) = (Ok paths, w1) ->
  (forall cert_content,
     env_read_file env (calls w1) (path_cert paths) = Ok cert_content ->
     exists e, env_read_file env (calls w1 ++ [CReadFile (path_cert paths)]) (path_key paths)
               = Raise e) ->
  exists w',
    upload_cert_to_qiniu cfg env d w = (Ok false, w') /\
    trace_of is_http w' = trace_of is_http w /\
    exists e, last (logs w') = Some (ERROR, MsgCertReadFailed e).
Proof.
  intros Hpaths Hread.
  assert (Hhttp : preserves (trace_of is_http) (get_certificate_paths cfg env d))
    by (unfold_methods; trace_frame).
  specialize (Hhttp (logged w INFO MsgUploadStart)). rewrite Hpaths in Hhttp.
  cbn [snd] in Hhttp.
  unfold upload_cert_to_qiniu. rewrite bind_log. unfold bind at 1. rewrite Hpaths.
  unfold bind at 1. rewrite try_except_run. unfold read_file. rewrite bind_extern.
  destruct (env_read_file env (calls w1) (path_cert paths)) as [cert_content|e] eqn:Hcert.
  - destruct (Hread cert_content eq_refl) as [e Hkey].
    rewrite bind_extern. cbn [calls called]. rewrite Hkey. cbv beta iota.
    rewrite bind_log. cbn [ret]. eexists. split; [reflexivity|]. split.
    + unfold trace_of in *. cbn [calls logged called]. rewrite !List.filter_app, Hhttp.
      cbn. rewrite !app_nil_r. reflexivity.
    + exists e. rewrite logs_logged. apply last_snoc.
  - cbv beta iota. rewrite bind_log. cbn [ret]. eexists. split; [reflexivity|]. split.
    + unfold trace_of in *. cbn [calls logged called]. rewrite !List.filter_app, Hhttp.
      cbn. rewrite !app_nil_r. reflexivity.
    + exists e. rewrite logs_logged. apply last_snoc.
Qed.

Lemma upload_cert_to_qiniu_unreadable_witness :
  exists w',
    upload_cert_to_qiniu sample_cfg env_unreadable "www.example.com" empty_world
      = (Ok false, w') /\
    trace_of is_http w' = [].
Proof.
  destruct (upload_cert_to_qiniu_unreadable sample_cfg env_unreadable "www.example.com"
              empty_world
              {| path_cert := "/root/.acme.sh/www.example.com_ecc/fullchain.cer";
                 path_key := "/root/.acme.sh/www.example.com_ecc/www.example.com.key";
                 path_ca := "/root/.acme.sh/www.example.com_ecc/ca.cer" |}
              (snd (get_certificate_paths sample_cfg env_unreadable "www.example.com"
                      (logged empty_world INFO MsgUploadStart)))
              ltac:(vm_compute; reflexivity)
              ltac:(intros c H; vm_compute in H; discriminate H))
    as (w' & Hrun & Hhttp & _).
  exists w'. split; [exact Hrun|exact Hhttp].
Defined.

Section Paths.

Variable cfg : Config.
Variable env : Env.

(** The first file [upload_cert_to_qiniu] opens is the chain at the path
    [get_certificate_paths] gave. *)
Lemma upload_opens_chain d w paths w1 :
  get_certificate_paths cfg env d (logged w INFO MsgUploadStart) = (Ok paths, w1) ->
  exists more,
    calls (snd (upload_cert_to_qiniu cfg env d w))
    = calls w1 ++ CReadFile (path_cert paths) :: more.
Proof.
  intros Hpaths. unfold upload_cert_to_qiniu. rewrite bind_log. unfold bind at 1.
  rewrite Hpaths. unfold bind at 1. rewrite try_except_run. unfold read_file.
  rewrite bind_extern.
  destruct (env_read_file env (calls w1) (path_cert paths)) as [cert_content|e].
  - match goal with
    | |- context [match ?k (called w1 ?c) with _ => _ end] =>
        assert (Hg : grows k) by (unfold_methods; grows_tac);
        destruct (Hg (called w1 c)) as [more1 Hmore1];
        destruct (k (called w1 c)) as [[contents|e] w2]
    end; cbn [snd] in Hmore1.
    + match goal with
      | |- context [snd (?k w2)] =>
          assert (Hg2 : grows k) by (destruct contents as [[]|]; unfold_methods; grows_tac);
          destruct (Hg2 w2) as [more2 Hmore2]
      end.
      exists (more1 ++ more2). rewrite Hmore2, Hmore1. cbn [calls called].
      rewrite <- !app_assoc. reflexivity.
    + rewrite bind_log. cbn [ret snd]. exists more1. cbn [calls logged].
      rewrite Hmore1. cbn [calls called]. rewrite <- !app_assoc. reflexivity.
  - cbv beta iota. rewrite bind_log. cbn [ret snd calls logged called].
    exists []. reflexivity.
Qed.

End Paths.

(** X16.  On a file system that stays as it is, [get_certificate_paths]
    gives the same paths in every world: the chain [fullchain.cer] and the
    key in the ECC directory of the domain when that exists, else in the
    RSA one.  [check_certificate_exists] answers true exactly when the
    chain and the key at these paths exist (the file [ca.cer] plays no
    part); and the first file [upload_cert_to_qiniu] opens, after it has
    looked for the ECC directory, is the chain at that same path. *)
Theorem upload_reads_checked_files cfg env d :
  stable_files env ->
  exists paths,
    path_cert paths = path_join (chosen_dir cfg env d) "fullchain.cer" /\
    path_key paths = path_join (chosen_dir cfg env d) (d +:+ ".key") /\
    (forall w, exists w', get_certificate_paths cfg env d w = (Ok paths, w')) /\
    (forall w, fst (check_certificate_exists cfg env d w)
               = Ok (env_exists env [] (path_cert paths)
                     && env_exists env [] (path_key paths))) /\
    (forall w, exists more,
       calls (snd (upload_cert_to_qiniu cfg env d w))
       = calls w ++ CExists (path_join (acme_home_dir cfg env) (d +:+ "_ecc"))
                 :: CReadFile (path_cert paths) :: more).
Proof.
  intros Hstable.
  assert (Hpaths : exists paths,
            path_cert paths = path_join (chosen_dir cfg env d) "fullchain.cer" /\
            path_key paths = path_join (chosen_dir cfg env d) (d +:+ ".key") /\
            forall w, exists w',
              get_certificate_paths cfg env d w = (Ok paths, w') /\
              calls w' = calls w
                         ++ [CExists (path_join (acme_home_dir cfg env) (d +:+ "_ecc"))]).
  { unfold chosen_dir, get_certificate_paths, path_exists.
    destruct (env_exists env [] _) eqn:Hecc; eexists; (split; [|split]);
      try (intros w; rewrite !bind_extern; cbv beta iota;
           rewrite (Hstable (calls w) []), Hecc;
           rewrite !bind_bind, !bind_log, !bind_ret; eexists; split; reflexivity);
      reflexivity. }
  destruct Hpaths as (paths & Hcert & Hkey & Hpaths).
  exists paths. split; [exact Hcert|]. split; [exact Hkey|]. split; [|split].
  - intros w. destruct (Hpaths w) as (w' & Hrun & _). exists w'. exact Hrun.
  - intros w. unfold check_certificate_exists. unfold bind at 1.
    destruct (Hpaths w) as (w' & -> & _). unfold path_exists.
    rewrite bind_extern. cbv beta iota.
    rewrite (Hstable (calls w') []).
    destruct (env_exists env [] (path_cert paths)); cbn [andb].
    + rewrite bind_extern. cbv beta iota.
      rewrite (Hstable (calls (called w' (CExists (path_cert paths)))) []).
      destruct (env_exists env [] (path_key paths)); rewrite bind_log; reflexivity.
    + rewrite bind_ret, bind_log. reflexivity.
  - intros w. destruct (Hpaths (logged w INFO MsgUploadStart)) as (w1 & Hrun & Hcalls).
    destruct (upload_opens_chain cfg env d w paths w1 Hrun) as [more Hmore].
    exists more. rewrite Hmore, Hcalls. cbn [calls logged]. rewrite <- app_assoc.
    reflexivity.
Qed.

Lemma upload_reads_checked_files_witness :
  exists paths,
    path_cert paths = "/root/.acme.sh/www.example.com_ecc/fullchain.cer" /\
    path_key paths = "/root/.acme.sh/www.example.com_ecc/www.example.com.key" /\
    (forall w, exists w',
       get_certificate_paths sample_cfg env_artifacts "www.example.com" w = (Ok paths, w')) /\
    (forall w, fst (check_certificate_exists sample_cfg env_artifacts "www.example.com" w)
               = Ok true) /\
    (forall w, exists more,
       calls (snd (upload_cert_to_qiniu sample_cfg env_artifacts "www.example.com" w))
       = calls w ++ CExists "/root/.acme.sh/www.example.com_ecc"
                 :: CReadFile (path_cert paths) :: more).
Proof.
  apply (upload_reads_checked_files sample_cfg env_artifacts "www.example.com").
  intros h h' path. reflexivity.
Defined.

(** ** The record *)

Section Record.

Variable env : Env.

(** [update_cert_record], step by step. *)
Lemma update_cert_record_run d w :
  update_cert_record env d w =
  match PyDatetime.datetime_add (clock env w) (PyDatetime.new_timedelta 90 0 0) with
  | None => (Raise (Exn "OverflowError" "date value out of range"), called w CNow)
  | Some expiry =>
      let w1 := recorded w d (new_record expiry (clock env (called w CNow))) in
      let w2 := called w1 (CWriteRecords (cert_records w1)) in
      match env_write env (calls w1) with
      | Written =>
          (Ok tt, logged (with_file w2 (FileContent (cert_records w1))) INFO MsgRecordsSaved)
      | OpenFailed e => (Raise e, w2)
      | DumpFailed e => (Raise e, with_file w2 FilePartial)
      end
  end.
Proof.
  unfold update_cert_record, _save_cert_records, datetime_now.
  rewrite bind_extern, bind_lift. unfold datetime_add_result. fold (clock env w).
  destruct (PyDatetime.datetime_add _ _) as [expiry|]; [|reflexivity].
  rewrite bind_extern, bind_gets. fold (clock env (called w CNow)).
  unfold bind at 1. cbn [set_cert_records]. rewrite bind_gets, bind_extern.
  cbn [cert_records calls called]. cbv zeta. unfold recorded. cbn [calls cert_records].
  rewrite <- app_assoc. cbn [app].
  destruct (env_write env _) as [|e|e]; reflexivity.
Qed.

End Record.

(** X17.  [update_cert_record] raises in two ways only.  Either the clock
    reading plus 90 days is no date any more: then nothing was touched.  Or
    the write of the record file failed: then the mapping in memory holds
    the new, active record of the domain all the same, while the file is
    as it was when it could not be opened, and cut short when the dump
    failed. *)
Theorem update_cert_record_raises env d w e w' :
  update_cert_record env d w = (Raise e, w') ->
  (PyDatetime.datetime_add (clock env w) (PyDatetime.new_timedelta 90 0 0) = None /\
   store w' = store w /\ calls w' = calls w ++ [CNow]) \/
  (exists record,
     cert_records w' = <[d := record]> (cert_records w) /\
     py_get record "status" = PStr "active" /\
     calls w' = calls w ++ [CNow; CNow; CWriteRecords (cert_records w')] /\
     ((env_write env (calls w ++ [CNow; CNow]) = OpenFailed e /\ cert_file w' = cert_file w) \/
      (env_write env (calls w ++ [CNow; CNow]) = DumpFailed e /\ cert_file w' = FilePartial))).
Proof.
  rewrite update_cert_record_run.
  destruct (PyDatetime.datetime_add _ _) as [expiry|].
  - cbv zeta. cbn [calls recorded].
    destruct (env_write env _) as [|e1|e1] eqn:Hw; intros [= <- <-]; right;
      eexists; (split; [reflexivity|]); (split; [reflexivity|]);
      (split; [cbn [calls called with_file recorded cert_records];
               rewrite <- app_assoc; reflexivity|]).
    + left. split; reflexivity.
    + right. split; reflexivity.
  - intros [= <- <-]. left. split; [reflexivity|]. split; reflexivity.
Qed.

Lemma update_cert_record_raises_witness :
  exists record,
    cert_records (snd (update_cert_record env_dump_fails "www.example.com" empty_world))
      = <["www.example.com" := record]> ∅ /\
    py_get record "status" = PStr "active" /\
    cert_file (snd (update_cert_record env_dump_fails "www.example.com" empty_world))
      = FilePartial.
Proof.
  destruct (update_cert_record_raises env_dump_fails "www.example.com" empty_world
              (Exn "OSError" "No space left on device")
              (snd (update_cert_record env_dump_fails "www.example.com" empty_world))
              ltac:(vm_compute; reflexivity))
    as [(Hnone & _)|(record & Hrec & Hstatus & _ & [(Hopen & _)|(_ & Hfile)])].
  - vm_compute in Hnone. discriminate Hnone.
  - exists record. vm_compute in Hopen. discriminate Hopen.
  - exists record. split; [exact Hrec|]. split; [exact Hstatus|exact Hfile].
Defined.

(** X18.  [update_cert_record] leaves the records of all other domains
    as they are, however it ends. *)
Theorem update_cert_record_other_domains env d d' w :
  d' <> d ->
  cert_records (snd (update_cert_record env d w)) !! d' = cert_records w !! d'.
Proof.
  intros Hne. rewrite update_cert_record_run.
  destruct (PyDatetime.datetime_add _ _) as [expiry|]; [|reflexivity].
  cbv zeta. destruct (env_write env _); cbn [snd cert_records logged with_file called recorded];
    apply lookup_insert_ne; congruence.
Qed.

Lemma update_cert_record_other_domains_witness :
  cert_records (snd (update_cert_record env_fresh "api.example.com"
                       (world_with_expiry "2025-02-01T00:00:00"))) !! "www.example.com"
  = cert_records (world_with_expiry "2025-02-01T00:00:00") !! "www.example.com".
Proof.
  apply (update_cert_record_other_domains env_fresh "api.example.com" "www.example.com").
  discriminate.
Defined.

(** X19.  The expiry date [update_cert_record] stores reads back: parsed
    as [check_cert_expiry] parses it and compared with the clock reading of
    the update, it leaves exactly 90 days (the clock being a valid date
    before 9999-10-03). *)
Theorem update_cert_record_days_left env d w r w1 :
  PyDatetime.valid_datetime (env_now env (calls w)) = true ->
  (PyDatetime.toordinal (env_now env (calls w)) + 90 <= PyDatetime.MAXORDINAL)%Z ->
  update_cert_record env d w = (r, w1) ->
  exists record,
    cert_records w1 !! d = Some record /\
    days_until (py_get record "expiry_date") (clock env w) = Some 90%Z.
Proof.
  intros Hvalid Hrange Hrun.
  destruct (update_cert_record_memory env d w r w1 Hvalid Hrange Hrun)
    as (expiry & record & Hrec & Hfield & Hev & Heo & Hets).
  exists record. split; [exact Hrec|].
  unfold py_get. rewrite Hfield. cbn [default].
  apply (days_until_naive _ expiry).
  - apply fromisoformat_isoformat; assumption.
  - exact Heo.
  - reflexivity.
  - rewrite Hets. unfold PyDatetime.DAY_US. lia.
Qed.

Lemma update_cert_record_days_left_witness :
  exists record,
    cert_records (snd (update_cert_record env_fresh "www.example.com" empty_world))
      !! "www.example.com" = Some record /\
    days_until (py_get record "expiry_date") (clock env_fresh empty_world) = Some 90%Z.
Proof.
  apply (update_cert_record_days_left env_fresh "www.example.com" empty_world
           (fst (update_cert_record env_fresh "www.example.com" empty_world))).
  - reflexivity.
  - vm_compute. discriminate.
  - apply surjective_pairing.
Defined.

(** ** The renewal check *)

(** X20.  A larger threshold never turns a domain that is due into one
    that is not: when [check_cert_expiry] answers true under one
    configuration, it answers true in the same world under every
    configuration whose threshold is at least as large. *)
Theorem check_cert_expiry_threshold_monotone cfg cfg' env d w :
  (threshold_days cfg <= threshold_days cfg')%Z ->
  fst (check_cert_expiry cfg env d w) = Ok true ->
  fst (check_cert_expiry cfg' env d w) = Ok true.
Proof.
  intros Hle Hdue.
  destruct (check_cert_expiry_iff cfg env d w) as (b & w1 & Hrun & Hiff).
  destruct (check_cert_expiry_iff cfg' env d w) as (b' & w1' & Hrun' & Hiff').
  rewrite Hrun in Hdue. rewrite Hrun'. cbn [fst] in *. f_equal.
  injection Hdue as ->. apply Hiff'.
  destruct (proj1 Hiff eq_refl) as [Hnone|(record & Hrec & Hcases)]; [left; exact Hnone|].
  right. exists record. split; [exact Hrec|].
  destruct Hcases as [Hf|[Hn|(k & Hk & Hkle)]]; [left; exact Hf|right; left; exact Hn|].
  right. right. exists k. split; [exact Hk|lia].
Qed.

Lemma check_cert_expiry_threshold_monotone_witness :
  fst (check_cert_expiry early_cfg env_fresh "www.example.com"
         (world_with_expiry "2025-02-10T00:00:00")) = Ok true.
Proof.
  apply (check_cert_expiry_threshold_monotone sample_cfg).
  - vm_compute. discriminate.
  - vm_compute. reflexivity.
Defined.

(** X21.  The answer of [check_cert_expiry] for a domain depends on the
    record of that domain and on the clock only: two worlds with the same
    record for the domain and the same history of calls give the same
    answer, whatever they hold for other domains. *)
Theorem check_cert_expiry_local cfg env d w w' :
  cert_records w !! d = cert_records w' !! d ->
  calls w = calls w' ->
  fst (check_cert_expiry cfg env d w) = fst (check_cert_expiry cfg env d w').
Proof.
  intros Hrec Hcalls.
  destruct (check_cert_expiry_iff cfg env d w) as (b & w1 & Hrun & Hiff).
  destruct (check_cert_expiry_iff cfg env d w') as (b' & w1' & Hrun' & Hiff').
  rewrite Hrun, Hrun'. cbn [fst]. f_equal.
  assert (Hsame : renewal_condition cfg env d w <-> renewal_condition cfg env d w').
  { unfold renewal_condition, clock. rewrite Hrec, Hcalls. reflexivity. }
  destruct b, b'; try reflexivity.
  - symmetry. apply Hiff'. apply Hsame. apply Hiff. reflexivity.
  - apply Hiff. apply Hsame. apply Hiff'. reflexivity.
Qed.

Lemma check_cert_expiry_local_witness :
  fst (check_cert_expiry sample_cfg env_fresh "www.example.com"
         (world_with_expiry "2025-03-01T00:00:00"))
  = fst (check_cert_expiry sample_cfg env_fresh "www.example.com"
           (snd (set_cert_records
                   (<["api.example.com" := ∅]>
                      (cert_records (world_with_expiry "2025-03-01T00:00:00")))
                   (world_with_expiry "2025-03-01T00:00:00")))).
Proof.
  apply check_cert_expiry_local.
  - cbn [snd set_cert_records cert_records]. symmetry. apply lookup_insert_ne. discriminate.
  - reflexivity.
Defined.

(** ** The cycle of one domain *)

Section Cycle.

Variable cfg : Config.
Variable env : Env.

(** A check that answers false has read the clock, once. *)
Lemma check_cert_expiry_false_calls d w w1 :
  check_cert_expiry cfg env d w = (Ok false, w1) ->
  calls w1 = calls w ++ [CNow].
Proof.
  unfold check_cert_expiry. rewrite bind_gets.
  destruct (cert_records w !! d) as [record|]; [|rewrite bind_log; discriminate].
  destruct (negb (pyval_truthy (py_get record "expiry_date")));
    [rewrite bind_log; discriminate|].
  rewrite try_except_run, bind_lift.
  destruct (fromisoformat_value _) as [expiry|e];
    [|rewrite bind_log; discriminate].
  unfold datetime_now. rewrite bind_extern, bind_lift.
  destruct (datetime_sub_result _ _) as [delta|e];
    [|rewrite bind_log; discriminate].
  rewrite bind_log.
  destruct (_ <=? _)%Z; rewrite bind_log; [discriminate|].
  intros [= <-]. reflexivity.
Qed.

(** The cycle of a domain that is not due. *)
Lemma process_domain_not_due_run d w w1 :
  check_cert_expiry cfg env d (announced d w) = (Ok false, w1) ->
  process_domain cfg env d w = (Ok true, logged w1 INFO (MsgNoUpdateNeeded d)).
Proof.
  intros Hcheck. unfold process_domain. rewrite !bind_log. unfold bind at 1.
  fold (announced d w). rewrite Hcheck. cbn [negb]. rewrite bind_log. reflexivity.
Qed.

Lemma raised_after_upload_bind {A} d (m : M A) (k : A -> M bool) :
  never_raises m -> (forall a, raised_after_upload cfg env d (k a)) ->
  raised_after_upload cfg env d (bind m k).
Proof.
  intros Hm Hk w e w' H. unfold bind in H.
  destruct (Hm w) as (a & w1 & Hrun). rewrite Hrun in H. eapply Hk. exact H.
Qed.

Lemma raised_after_upload_ret d b : raised_after_upload cfg env d (ret b).
Proof. intros w e w' H. discriminate H. Qed.

Lemma raised_after_upload_publish d :
  raised_after_upload cfg env d (publish_and_record cfg env d).
Proof.
  intros w e w' H. unfold publish_and_record in H. unfold bind at 1 in H.
  destruct (never_raises_upload_cert_to_qiniu cfg env d w) as (up & w1 & Hup).
  rewrite Hup in H. destruct up; cbn [negb] in H.
  - exists w, w1. split; [exact Hup|].
    unfold bind at 1 in H.
    destruct (update_cert_record env d w1) as [[[]|e1] w2]; [discriminate H|].
    injection H as -> ->. reflexivity.
  - rewrite bind_log in H. discriminate H.
Qed.

Lemma raised_after_upload_issue d force failure :
  raised_after_upload cfg env d (issue_then_publish cfg env d force failure).
Proof.
  unfold issue_then_publish. apply raised_after_upload_bind.
  - apply never_raises_issue_certificate.
  - intros [|]; cbn [negb]; [apply raised_after_upload_publish|].
    apply raised_after_upload_bind; [apply never_raises_log|].
    intros _. apply raised_after_upload_ret.
Qed.

(** The runs of acme.sh of a step that issues and publishes start with the
    command built for it. *)
Lemma issue_then_publish_runs d force failure w :
  exists cmd w1 more,
    issue_command cfg env d force w = (Ok cmd, w1) /\
    runs (snd (issue_then_publish cfg env d force failure w)) = runs w ++ cmd :: more.
Proof.
  destruct (issue_certificate_runs cfg env d force w) as (cmd & w1 & more & Hcmd & Hissue).
  exists cmd, w1. unfold issue_then_publish. unfold bind at 1.
  destruct (issue_certificate cfg env d force w) as [[[|]|e] w2]; cbn [snd negb] in *.
  - destruct (runs_grow _ w2 (grows_publish_and_record cfg env d)) as [more' Hmore'].
    exists (more ++ more'). split; [exact Hcmd|].
    rewrite Hmore', Hissue, <- app_assoc. reflexivity.
  - exists more. split; [exact Hcmd|].
    rewrite bind_log. cbn [snd ret]. rewrite runs_logged. exact Hissue.
  - exists more. split; [exact Hcmd|exact Hissue].
Qed.

(** Without [force_renew] the command is the one of a first issuance,
    whatever is on disk. *)
Lemma issue_command_first d w cmd w1 :
  issue_command cfg env d false w = (Ok cmd, w1) ->
  exists opts,
    cmd = [acme_home_dir cfg env +:+ "/acme.sh"; "--issue"; "--dns"; "-d"; d;
           manual_mode_flag] ++ opts.
Proof.
  unfold issue_command. rewrite bind_log. unfold bind at 1.
  destruct (never_raises_check_certificate_exists cfg env d
              (logged w INFO (MsgIssueStart d))) as (b & w0 & ->).
  rewrite andb_false_r, bind_ret.
  destruct (PyStr.truthy (default EmptyString (email cfg)));
    destruct (PyStr.truthy (default "letsencrypt" (acme_server cfg)) && _);
    rewrite bind_log; intros [= <- _].
  - exists ["--accountemail"; default EmptyString (email cfg);
            "--server"; default "letsencrypt" (acme_server cfg)]. reflexivity.
  - exists ["--accountemail"; default EmptyString (email cfg)]. reflexivity.
  - exists ["--server"; default "letsencrypt" (acme_server cfg)]. reflexivity.
  - exists []. reflexivity.
Qed.

Lemma true_after_publish_bind {A} d (m : M A) (k : A -> M bool) :
  (forall a, true_after_publish cfg env d (k a)) -> true_after_publish cfg env d (bind m k).
Proof.
  intros Hk w w' H. unfold bind in H.
  destruct (m w) as [[a|e] w1]; [|discriminate H]. eapply Hk. exact H.
Qed.

Lemma true_after_publish_false d : true_after_publish cfg env d (ret false).
Proof. intros w w' H. discriminate H. Qed.

Lemma true_after_publish_publish d :
  true_after_publish cfg env d (publish_and_record cfg env d).
Proof.
  intros w w' H. unfold publish_and_record in H. unfold bind at 1 in H.
  destruct (upload_cert_to_qiniu cfg env d w) as [[[|]|e] w1] eqn:Hup;
    cbn [negb] in H; [|rewrite bind_log in H; discriminate H|discriminate H].
  unfold bind at 1 in H.
  destruct (update_cert_record env d w1) as [[[]|e] w2] eqn:Hupd; [|discriminate H].
  rewrite bind_log in H. injection H as <-.
  exists w, w1, w2. split; [exact Hup|]. split; [exact Hupd|reflexivity].
Qed.

Lemma true_after_publish_issue d force failure :
  true_after_publish cfg env d (issue_then_publish cfg env d force failure).
Proof.
  unfold issue_then_publish. apply true_after_publish_bind.
  intros [|]; cbn [negb]; [apply true_after_publish_publish|].
  apply true_after_publish_bind. intros _. apply true_after_publish_false.
Qed.

End Cycle.

(** X22.  When the renewal check answers false, [process_domain] returns
    true and has done nothing but log and read the clock once: the record
    store is as it was, and no other call was made. *)
Theorem process_domain_not_due cfg env d w w1 :
  check_cert_expiry cfg env d (announced d w) = (Ok false, w1) ->
  process_domain cfg env d w = (Ok true, logged w1 INFO (MsgNoUpdateNeeded d)) /\
  store w1 = store w /\
  calls w1 = calls w ++ [CNow].
Proof.
  intros Hcheck. split; [|split].
  - apply process_domain_not_due_run. exact Hcheck.
  - pose proof (store_check_cert_expiry cfg env d (announced d w)) as Hs.
    rewrite Hcheck in Hs. exact Hs.
  - apply (check_cert_expiry_false_calls cfg env d (announced d w)). exact Hcheck.
Qed.

Lemma process_domain_not_due_witness :
  exists w1,
    process_domain sample_cfg env_fresh "www.example.com"
      (world_with_expiry "2025-03-01T00:00:00")
    = (Ok true, logged w1 INFO (MsgNoUpdateNeeded "www.example.com")) /\
    store w1 = store (world_with_expiry "2025-03-01T00:00:00") /\
    calls w1 = [CNow].
Proof.
  eexists.
  apply (process_domain_not_due sample_cfg env_fresh "www.example.com"
           (world_with_expiry "2025-03-01T00:00:00")).
  vm_compute. reflexivity.
Defined.

(** X23.  After [update_cert_record] for a domain, [process_domain] for
    that domain under the threshold 30 is a no-op: it returns true, leaves
    the record store as it is and calls nothing but the clock, as long as
    the clock stands less than 59 days after the update (the clock being a
    valid date before 9999-10-03). *)
Theorem process_domain_after_update cfg env d w r w1 :
  threshold_days cfg = 30%Z ->
  PyDatetime.valid_datetime (env_now env (calls w)) = true ->
  (PyDatetime.toordinal (env_now env (calls w)) + 90 <= PyDatetime.MAXORDINAL)%Z ->
  update_cert_record env d w = (r, w1) ->
  (PyDatetime.timestamp (clock env w1)
     <= PyDatetime.timestamp (clock env w) + 59 * PyDatetime.DAY_US)%Z ->
  exists w2,
    process_domain cfg env d w1 = (Ok true, w2) /\
    store w2 = store w1 /\
    calls w2 = calls w1 ++ [CNow].
Proof.
  intros Hthreshold Hvalid Hrange Hrun Hsoon.
  destruct (update_cert_record_memory env d w r w1 Hvalid Hrange Hrun)
    as (expiry & record & Hrec & Hfield & Hev & Heo & Hets).
  pose proof (fromisoformat_isoformat expiry Hev Heo) as Hparse.
  set (delta := (PyDatetime.timestamp expiry - PyDatetime.timestamp (clock env w1))%Z).
  assert (Hdelta : (31 * PyDatetime.DAY_US <= delta)%Z) by (unfold delta; lia).
  destruct (check_cert_expiry_days cfg env d (announced d w1) record _ expiry
              (delta / PyDatetime.DAY_US)%Z Hrec Hfield Hparse Heo) as [w2 Hcheck].
  { change (clock env (announced d w1)) with (clock env w1). fold delta.
    unfold PyDatetime.DAY_US in *. Z.div_mod_to_equations. lia. }
  replace (delta / PyDatetime.DAY_US <=? threshold_days cfg)%Z with false in Hcheck.
  2:{ symmetry. apply Z.leb_gt. rewrite Hthreshold.
      unfold PyDatetime.DAY_US in *. Z.div_mod_to_equations. lia. }
  exists (logged w2 INFO (MsgNoUpdateNeeded d)).
  split; [apply process_domain_not_due_run; exact Hcheck|].
  pose proof (store_check_cert_expiry cfg env d (announced d w1)) as Hstore.
  rewrite Hcheck in Hstore.
  split; [exact Hstore|].
  change (calls w2 = calls (announced d w1) ++ [CNow]).
  apply (check_cert_expiry_false_calls cfg env d). exact Hcheck.
Qed.

Lemma process_domain_after_update_witness :
  exists w2,
    process_domain sample_cfg env_fresh "www.example.com"
      (snd (update_cert_record env_fresh "www.example.com" empty_world)) = (Ok true, w2) /\
    store w2 = store (snd (update_cert_record env_fresh "www.example.com" empty_world)) /\
    calls w2 = calls (snd (update_cert_record env_fresh "www.example.com" empty_world))
               ++ [CNow].
Proof.
  apply (process_domain_after_update sample_cfg env_fresh "www.example.com" empty_world
           (fst (update_cert_record env_fresh "www.example.com" empty_world))).
  - reflexivity.
  - reflexivity.
  - vm_compute. discriminate.
  - apply surjective_pairing.
  - vm_compute. discriminate.
Defined.

(** X24.  For a domain that is due and has no artifacts on disk,
    [process_domain] goes on as [issue_certificate(domain,
    force_renew=False)], and the first command it hands to acme.sh is the
    command of a first issuance, [--issue --dns -d domain] with the manual
    mode flag, followed by the configured options. *)
Theorem process_domain_first_issue cfg env d w w1 w2 :
  check_cert_expiry cfg env d (announced d w) = (Ok true, w1) ->
  check_certificate_exists cfg env d w1 = (Ok false, w2) ->
  process_domain cfg env d w
    = issue_then_publish cfg env d false (MsgIssueFailedFor d)
        (logged w2 INFO (MsgFirstIssue d)) /\
  exists opts more,
    runs (snd (process_domain cfg env d w))
    = runs w ++ ([acme_home_dir cfg env +:+ "/acme.sh"; "--issue"; "--dns"; "-d"; d;
                  manual_mode_flag] ++ opts) :: more.
Proof.
  intros Hcheck Hexists.
  assert (Hpd : process_domain cfg env d w
                = issue_then_publish cfg env d false (MsgIssueFailedFor d)
                    (logged w2 INFO (MsgFirstIssue d))).
  { unfold process_domain. rewrite !bind_log. unfold bind at 1.
    fold (announced d w). rewrite Hcheck. cbn [negb].
    unfold bind at 1. rewrite Hexists. rewrite bind_gets, bind_log. reflexivity. }
  split; [exact Hpd|]. rewrite Hpd.
  destruct (issue_then_publish_runs cfg env d false (MsgIssueFailedFor d)
              (logged w2 INFO (MsgFirstIssue d))) as (cmd & w3 & more & Hcmd & Hruns).
  destruct (issue_command_first cfg env d _ _ _ Hcmd) as [opts ->].
  exists opts, more. rewrite Hruns, runs_logged.
  pose proof (runs_check_cert_expiry cfg env d (announced d w)) as Hr1.
  pose proof (runs_check_certificate_exists cfg env d w1) as Hr2.
  rewrite Hcheck in Hr1. rewrite Hexists in Hr2. cbn [snd] in *.
  rewrite Hr2, Hr1. reflexivity.
Qed.

Lemma process_domain_first_issue_witness :
  exists opts more,
    runs (snd (process_domain sample_cfg env_fresh "www.example.com" empty_world))
    = runs empty_world ++
      ([acme_home_dir sample_cfg env_fresh +:+ "/acme.sh"; "--issue"; "--dns"; "-d";
        "www.example.com"; manual_mode_flag] ++ opts) :: more.
Proof.
  eapply (process_domain_first_issue sample_cfg env_fresh "www.example.com" empty_world).
  - vm_compute. reflexivity.
  - vm_compute. reflexivity.
Defined.

(** X25.  [process_domain] raises only out of [update_cert_record], and
    only after the upload has succeeded: the certificate is installed at
    the CDN when the exception leaves the method. *)
Theorem process_domain_raises_after_upload cfg env d w e w' :
  process_domain cfg env d w = (Raise e, w') ->
  exists w0 w1,
    upload_cert_to_qiniu cfg env d w0 = (Ok true, w1) /\
    update_cert_record env d w1 = (Raise e, w').
Proof.
  revert w e w'. change (raised_after_upload cfg env d (process_domain cfg env d)).
  unfold process_domain.
  repeat first
    [ apply raised_after_upload_ret
    | apply raised_after_upload_publish
    | apply raised_after_upload_issue
    | apply raised_after_upload_bind;
      [ first [ apply never_raises_log | apply never_raises_gets
              | apply never_raises_check_cert_expiry
              | apply never_raises_check_certificate_exists ]
      | intros ? ]
    | match goal with
      | |- raised_after_upload _ _ _ (if ?b then _ else _) => destruct b
      end ].
Qed.

Lemma process_domain_raises_after_upload_witness :
  exists w0 w1,
    upload_cert_to_qiniu sample_cfg env_open_fails "www.example.com" w0 = (Ok true, w1) /\
    update_cert_record env_open_fails "www.example.com" w1
      = (Raise (Exn "PermissionError" "cert_records.json"),
         snd (process_domain sample_cfg env_open_fails "www.example.com" empty_world)).
Proof.
  apply (process_domain_raises_after_upload sample_cfg env_open_fails "www.example.com"
           empty_world).
  vm_compute. reflexivity.
Defined.

(** X26.  [process_domain] returns true in two cases only: the renewal
    check answered false, or the certificate was uploaded and
    [update_cert_record] completed, and then the record of the domain is
    active in memory and the file holds the whole mapping. *)
Theorem process_domain_true cfg env d w w' :
  process_domain cfg env d w = (Ok true, w') ->
  (exists w1, check_cert_expiry cfg env d (announced d w) = (Ok false, w1) /\
              w' = logged w1 INFO (MsgNoUpdateNeeded d)) \/
  (exists w0 w1 w2,
     upload_cert_to_qiniu cfg env d w0 = (Ok true, w1) /\
     update_cert_record env d w1 = (Ok tt, w2) /\
     w' = logged w2 INFO (MsgDomainDone d) /\
     has_active_record (cert_records w') d = true /\
     cert_file w' = FileContent (cert_records w')).
Proof.
  intros H. unfold process_domain in H. rewrite !bind_log in H.
  unfold bind at 1 in H. fold (announced d w) in H.
  destruct (check_cert_expiry cfg env d (announced d w)) as [[[|]|e] w1] eqn:Hcheck;
    cbn [negb] in H; [|rewrite bind_log in H; injection H as <-; left; eauto|discriminate H].
  right. revert H.
  match goal with
  | |- ?m w1 = _ -> _ =>
      assert (Hrest : true_after_publish cfg env d m)
  end.
  { apply true_after_publish_bind. intros cert_exists.
    apply true_after_publish_bind. intros records.
    destruct cert_exists; [destruct (has_active_record records d)|];
      apply true_after_publish_bind; intros _;
      first [apply true_after_publish_issue | apply true_after_publish_publish]. }
  intros H. destruct (Hrest w1 w' H) as (w0 & w2 & w3 & Hup & Hupd & Hw').
  exists w0, w2, w3. split; [exact Hup|]. split; [exact Hupd|]. split; [exact Hw'|].
  destruct (update_cert_record_done env d w2 w3 Hupd) as [Hactive Hfile].
  subst w'. split; [exact Hactive|exact Hfile].
Qed.

Lemma process_domain_true_witness :
  exists w',
    process_domain sample_cfg env_fresh "www.example.com" empty_world = (Ok true, w') /\
    has_active_record (cert_records w') "www.example.com" = true /\
    cert_file w' = FileContent (cert_records w').
Proof.
  destruct (process_domain_true sample_cfg env_fresh "www.example.com" empty_world
              (snd (process_domain sample_cfg env_fresh "www.example.com" empty_world))
              ltac:(vm_compute; reflexivity))
    as [(w1 & Hcheck & _)|(w0 & w1 & w2 & _ & _ & _ & Hactive & Hfile)].
  - vm_compute in Hcheck. discriminate Hcheck.
  - eexists. split; [vm_compute; reflexivity|]. split; [exact Hactive|exact Hfile].
Defined.

(** ** The store across a run *)

Section Isolation.

Variable cfg : Config.
Variable env : Env.

Lemma record_of_store {A} d (m : M A) : preserves store m -> preserves (record_of d) m.
Proof.
  intros H w. specialize (H w). unfold record_of, store in *. congruence.
Qed.

Lemma record_of_update_cert_record d d' :
  d <> d' -> preserves (record_of d') (update_cert_record env d).
Proof.
  intros Hne w. unfold record_of. rewrite update_cert_record_run.
  destruct (PyDatetime.datetime_add _ _) as [expiry|]; [|reflexivity].
  cbv zeta. destruct (env_write env _); cbn [snd cert_records logged with_file called recorded];
    apply lookup_insert_ne; exact Hne.
Qed.

Lemma record_of_process_domain d d' :
  d <> d' -> preserves (record_of d') (process_domain cfg env d).
Proof.
  intros Hne. unfold process_domain, issue_then_publish, publish_and_record.
  repeat first
    [ progress intros
    | apply record_of_update_cert_record; exact Hne
    | apply record_of_store;
      first [ apply store_log | apply store_check_cert_expiry
            | apply store_check_certificate_exists | apply store_issue_certificate
            | apply store_upload_cert_to_qiniu | apply preserves_gets | apply preserves_ret ]
    | apply preserves_bind
    | match goal with
      | |- preserves _ (if ?b then _ else _) => destruct b
      end ].
Qed.

Lemma record_of_run_loop d' todo : forall s f,
  ~ In d' todo -> preserves (record_of d') (run_loop cfg env todo s f).
Proof.
  induction todo as [|d rest IH]; intros s f Hnot.
  - apply preserves_ret.
  - cbn [run_loop]. apply preserves_bind.
    + apply preserves_try_except.
      * apply preserves_bind.
        -- apply record_of_process_domain. intros ->. apply Hnot. left. reflexivity.
        -- intros [|]; apply preserves_ret.
      * intros e. apply preserves_bind; [|intros; apply preserves_ret].
        apply record_of_store, store_log.
    + intros counted. apply IH. intros Hin. apply Hnot. right. exact Hin.
Qed.

Lemma keeps_records_store {A} (m : M A) : preserves store m -> keeps_records m.
Proof.
  intros H w d Hd. specialize (H w). unfold store in H.
  replace (cert_records (snd (m w))) with (cert_records w) by congruence. exact Hd.
Qed.

Lemma keeps_records_bind {A B} (m : M A) (k : A -> M B) :
  keeps_records m -> (forall a, keeps_records (k a)) -> keeps_records (bind m k).
Proof.
  intros Hm Hk w d Hd. unfold bind. specialize (Hm w d Hd).
  destruct (m w) as [[a|e] w1]; cbn [snd] in *; [|exact Hm].
  apply Hk. exact Hm.
Qed.

Lemma keeps_records_try_except {A} (body : M A) (handler : exn -> M A) :
  keeps_records body -> (forall e, keeps_records (handler e)) ->
  keeps_records (try_except body handler).
Proof.
  intros Hm Hk w d Hd. unfold try_except. specialize (Hm w d Hd).
  destruct (body w) as [[a|e] w1]; cbn [snd] in *; [exact Hm|].
  apply Hk. exact Hm.
Qed.

Lemma keeps_records_update_cert_record d : keeps_records (update_cert_record env d).
Proof.
  intros w d' Hd. rewrite update_cert_record_run.
  destruct (PyDatetime.datetime_add _ _) as [expiry|]; [|exact Hd].
  cbv zeta. destruct (env_write env _); cbn [snd cert_records logged with_file called recorded];
    rewrite lookup_insert_is_Some; destruct (decide (d = d')); auto.
Qed.

Lemma keeps_records_process_domain d : keeps_records (process_domain cfg env d).
Proof.
  unfold process_domain, issue_then_publish, publish_and_record.
  repeat first
    [ progress intros
    | apply keeps_records_update_cert_record
    | apply keeps_records_store;
      first [ apply store_log | apply store_check_cert_expiry
            | apply store_check_certificate_exists | apply store_issue_certificate
            | apply store_upload_cert_to_qiniu | apply preserves_gets | apply preserves_ret ]
    | apply keeps_records_bind
    | match goal with
      | |- keeps_records (if ?b then _ else _) => destruct b
      end ].
Qed.

Lemma keeps_records_run_loop todo : forall s f, keeps_records (run_loop cfg env todo s f).
Proof.
  induction todo as [|d rest IH]; intros s f.
  - apply keeps_records_store, preserves_ret.
  - cbn [run_loop]. apply keeps_records_bind; [|intros; apply IH].
    apply keeps_records_try_except.
    + apply keeps_records_bind; [apply keeps_records_process_domain|].
      intros [|]; apply keeps_records_store, preserves_ret.
    + intros e. apply keeps_records_bind; [apply keeps_records_store, store_log|].
      intros. apply keeps_records_store, preserves_ret.
Qed.

End Isolation.

(** X27.  [run] leaves the record of every domain that is not configured
    as it is: a record of a domain that was taken out of the
    configuration stays in the store, untouched. *)
Theorem run_keeps_unconfigured_records cfg env d w :
  ~ In d (domains cfg) ->
  cert_records (snd (run cfg env w)) !! d = cert_records w !! d.
Proof.
  intros Hnot. change (record_of d (snd (run cfg env w)) = record_of d w).
  revert w. change (preserves (record_of d) (run cfg env)).
  unfold run, datetime_now.
  pose proof (record_of_run_loop cfg env d (domains cfg) 0 0 Hnot) as Hloop.
  destruct (domains cfg) as [|d0 rest];
    repeat first
      [ progress intros
      | exact Hloop
      | apply record_of_store;
        first [ apply store_log | apply store_extern | apply preserves_ret ]
      | apply preserves_bind ].
Qed.

Lemma run_keeps_unconfigured_records_witness :
  cert_records (snd (run sample_cfg env_fresh world_with_stale_record)) !! "old.example.org"
  = cert_records world_with_stale_record !! "old.example.org".
Proof.
  apply (run_keeps_unconfigured_records sample_cfg env_fresh "old.example.org").
  intros [H|[]]. discriminate H.
Defined.

(** X28.  [run] drops no record: every domain that has a record before
    the run has one after it, whatever fails on the way. *)
Theorem run_never_drops_records cfg env d w :
  is_Some (cert_records w !! d) ->
  is_Some (cert_records (snd (run cfg env w)) !! d).
Proof.
  revert w d. change (keeps_records (run cfg env)).
  unfold run, datetime_now.
  pose proof (keeps_records_run_loop cfg env (domains cfg) 0 0) as Hloop.
  destruct (domains cfg) as [|d0 rest];
    repeat first
      [ progress intros
      | exact Hloop
      | apply keeps_records_store;
        first [ apply store_log | apply store_extern | apply preserves_ret ]
      | apply keeps_records_bind ].
Qed.

Lemma run_never_drops_records_witness :
  is_Some (cert_records (snd (run sample_cfg env_dump_fails
                                (world_with_expiry "2025-02-01T00:00:00")))
             !! "www.example.com").
Proof.
  apply (run_never_drops_records sample_cfg env_dump_fails "www.example.com").
  vm_compute. eexists. reflexivity.
Defined.
